(** * kimageformats: the JPEG XL handler and the PFM reader

    A shallow embedding of [src/imageformats/jxl.cpp] and
    [src/imageformats/pfm.cpp].  The handler classes become records, their
    member functions become state-passing functions, and the external
    collaborators (libjxl, Qt) become an interface whose operations the
    handler calls exactly where the C++ code does. *)

From Stdlib Require Import ZArith List Bool Lia String Floats.
From stdpp Require Import base list.
Import ListNotations.
Local Open Scope Z_scope.

(** Bytes are 8-bit integers in [0, 256); a [QByteArray] is a list of them. *)
Definition QByteArray := list Z.

(** ** libjxl data types *)

Inductive JxlSignature :=
| JXL_SIG_NOT_ENOUGH_BYTES | JXL_SIG_INVALID | JXL_SIG_CODESTREAM | JXL_SIG_CONTAINER.

Inductive JxlDecoderStatus :=
| JXL_DEC_SUCCESS | JXL_DEC_ERROR | JXL_DEC_NEED_MORE_INPUT
| JXL_DEC_NEED_PREVIEW_OUT_BUFFER | JXL_DEC_NEED_IMAGE_OUT_BUFFER
| JXL_DEC_JPEG_NEED_MORE_OUTPUT | JXL_DEC_BOX_NEED_MORE_OUTPUT
| JXL_DEC_BASIC_INFO | JXL_DEC_COLOR_ENCODING | JXL_DEC_PREVIEW_IMAGE
| JXL_DEC_FRAME | JXL_DEC_FULL_IMAGE | JXL_DEC_JPEG_RECONSTRUCTION
| JXL_DEC_BOX | JXL_DEC_FRAME_PROGRESSION | JXL_DEC_BOX_COMPLETE.

Inductive JxlOrientation :=
| JXL_ORIENT_IDENTITY | JXL_ORIENT_FLIP_HORIZONTAL | JXL_ORIENT_ROTATE_180
| JXL_ORIENT_FLIP_VERTICAL | JXL_ORIENT_TRANSPOSE | JXL_ORIENT_ROTATE_90_CW
| JXL_ORIENT_ANTI_TRANSPOSE | JXL_ORIENT_ROTATE_90_CCW.

Inductive JxlDataType :=
| JXL_TYPE_FLOAT | JXL_TYPE_UINT8 | JXL_TYPE_UINT16 | JXL_TYPE_FLOAT16.

Inductive JxlExtraChannelType :=
| JXL_CHANNEL_ALPHA | JXL_CHANNEL_DEPTH | JXL_CHANNEL_SPOT_COLOR
| JXL_CHANNEL_SELECTION_MASK | JXL_CHANNEL_BLACK | JXL_CHANNEL_CFA
| JXL_CHANNEL_THERMAL | JXL_CHANNEL_UNKNOWN | JXL_CHANNEL_OPTIONAL.

Inductive JxlColorSpace :=
| JXL_COLOR_SPACE_RGB | JXL_COLOR_SPACE_GRAY | JXL_COLOR_SPACE_XYB | JXL_COLOR_SPACE_UNKNOWN.
Inductive JxlWhitePoint :=
| JXL_WHITE_POINT_D65 | JXL_WHITE_POINT_CUSTOM | JXL_WHITE_POINT_E | JXL_WHITE_POINT_DCI.
Inductive JxlPrimaries :=
| JXL_PRIMARIES_SRGB | JXL_PRIMARIES_CUSTOM | JXL_PRIMARIES_2100 | JXL_PRIMARIES_P3.
Inductive JxlTransferFunction :=
| JXL_TRANSFER_FUNCTION_709 | JXL_TRANSFER_FUNCTION_UNKNOWN | JXL_TRANSFER_FUNCTION_LINEAR
| JXL_TRANSFER_FUNCTION_SRGB | JXL_TRANSFER_FUNCTION_PQ | JXL_TRANSFER_FUNCTION_DCI
| JXL_TRANSFER_FUNCTION_HLG | JXL_TRANSFER_FUNCTION_GAMMA.

Record JxlColorEncoding := {
  color_space : JxlColorSpace;
  white_point : JxlWhitePoint;
  primaries : JxlPrimaries;
  transfer_function : JxlTransferFunction
}.

Record JxlAnimationHeader := {
  tps_numerator : Z;
  tps_denominator : Z;
  num_loops : Z
}.

(** The fields of [JxlBasicInfo] the handler reads or writes; the unsigned
    32-bit fields are integers in [0, 2^32) and [JXL_BOOL] is [bool]. *)
Record JxlBasicInfo := {
  have_container : bool;
  xsize : Z;
  ysize : Z;
  bits_per_sample : Z;
  exponent_bits_per_sample : Z;
  uses_original_profile : bool;
  have_animation : bool;
  orientation : JxlOrientation;
  num_color_channels : Z;
  num_extra_channels : Z;
  alpha_bits : Z;
  animation : JxlAnimationHeader
}.

Record JxlFrameHeader := {
  duration : Z;
  is_last : bool
}.

Record JxlPixelFormat := {
  num_channels : Z;
  data_type : JxlDataType;
  align : Z
}.

(** Event bits of [JxlDecoderSubscribeEvents], as in [jxl/decode.h]. *)
Definition EV_BASIC_INFO : Z := 0x40.
Definition EV_COLOR_ENCODING : Z := 0x100.
Definition EV_FRAME : Z := 0x400.
Definition EV_FULL_IMAGE : Z := 0x1000.
Definition EV_BOX : Z := 0x4000.
Definition EV_BOX_COMPLETE : Z := 0x10000.

(** ** Qt data types *)

Inductive QImageFormat :=
| Format_Invalid | Format_Grayscale8 | Format_Grayscale16
| Format_RGB888 | Format_RGB32 | Format_ARGB32 | Format_RGBA8888
| Format_RGBA64 | Format_RGBX64
| Format_RGBA16FPx4 | Format_RGBX16FPx4
| Format_RGBA32FPx4 | Format_RGBX32FPx4
| Format_CMYK8888 | Format_Other.

Inductive ColorModel := ModelUndefined | ModelRgb | ModelGray | ModelCmyk.

Record QColorSpace := {
  cs_isValid : bool;
  cs_colorModel : ColorModel;
  cs_iccProfile : QByteArray
}.

(** A default-constructed [QColorSpace] is invalid. *)
Definition QColorSpace_default : QColorSpace :=
  {| cs_isValid := false; cs_colorModel := ModelUndefined; cs_iccProfile := [] |}.

(** A non-null [QImage]: geometry, pixel bytes (scanline after scanline),
    colour space and text entries.  The null image is [None]. *)
Record QImageData := {
  img_format : QImageFormat;
  img_width : Z;
  img_height : Z;
  img_bytesPerLine : Z;
  img_bits : list Z;
  img_colorSpace : QColorSpace;
  img_text : list (string * QByteArray)
}.
Definition QImage := option QImageData.

Definition setColorSpace (cs : QColorSpace) (i : QImageData) : QImageData :=
  {| img_format := img_format i; img_width := img_width i; img_height := img_height i;
     img_bytesPerLine := img_bytesPerLine i; img_bits := img_bits i;
     img_colorSpace := cs; img_text := img_text i |}.

Definition setBits (b : list Z) (i : QImageData) : QImageData :=
  {| img_format := img_format i; img_width := img_width i; img_height := img_height i;
     img_bytesPerLine := img_bytesPerLine i; img_bits := b;
     img_colorSpace := img_colorSpace i; img_text := img_text i |}.

Definition setText (key : string) (v : QByteArray) (i : QImageData) : QImageData :=
  {| img_format := img_format i; img_width := img_width i; img_height := img_height i;
     img_bytesPerLine := img_bytesPerLine i; img_bits := img_bits i;
     img_colorSpace := img_colorSpace i; img_text := (key, v) :: img_text i |}.

(** [QImageIOHandler::Transformation], the values of Qt's declaration
    ([qimageiohandler.h]); a [Transformations] value is the integer of the flags. *)
Definition TransformationNone : Z := 0.
Definition TransformationMirror : Z := 1.
Definition TransformationFlip : Z := 2.
Definition TransformationRotate180 : Z := Z.lor TransformationMirror TransformationFlip.
Definition TransformationRotate90 : Z := 4.
Definition TransformationMirrorAndRotate90 : Z := Z.lor TransformationMirror TransformationRotate90.
Definition TransformationFlipAndRotate90 : Z := Z.lor TransformationFlip TransformationRotate90.
Definition TransformationRotate270 : Z := Z.lor TransformationRotate180 TransformationRotate90.

Inductive ImageOption :=
| Size | Quality | Animation | ImageTransformation | ImageFormat | Endianness | OtherOption.

(** What [QJpegXLHandler::option] hands back in a [QVariant]. *)
Inductive QVariant :=
| VInvalid | VInt (n : Z) | VBool (b : bool) | VSize (w h : Z).

(** ** The collaborators

    Everything the handler calls but does not define: libjxl's decoder and
    encoder entry points, the Qt classes, the allocation helper [imageAlloc]
    of [util_p.h], and the preprocessor configuration of the build.  A
    decoder handle is a value of [Dec]; a call that mutates the decoder
    returns the new handle. *)
Class Env := {
  Dec : Type;
  (* build configuration *)
  QT_POINTER_SIZE : Z;
  JXL_QT_AUTOTRANSFORM : bool;
  JXL_HDR_PRESERVATION_DISABLED : bool;
  JXL_DECODE_BOXES_DISABLED : bool;
  QT_VERSION_AT_LEAST_6_8_0 : bool;
  JPEGXL_VERSION_AT_LEAST_0_11_0 : bool;
  Q_BYTE_ORDER_IS_LITTLE_ENDIAN : bool;
  (* libjxl: signature, decoder life cycle and input *)
  JxlSignatureCheck : QByteArray -> JxlSignature;
  JxlDecoderCreate : option Dec;
  JxlDecoderSetKeepOrientation : Dec -> bool -> Dec;
  JxlThreadParallelRunnerCreate : Z -> bool;
  JxlDecoderSetParallelRunner : Dec -> option Z -> JxlDecoderStatus * Dec;
  JxlDecoderSetInput : Dec -> QByteArray -> JxlDecoderStatus * Dec;
  JxlDecoderCloseInput : Dec -> Dec;
  JxlDecoderReleaseInput : Dec -> Dec;
  JxlDecoderRewind : Dec -> Dec;
  JxlDecoderSkipFrames : Dec -> Z -> Dec;
  JxlDecoderSubscribeEvents : Dec -> Z -> JxlDecoderStatus * Dec;
  JxlDecoderProcessInput : Dec -> JxlDecoderStatus * Dec;
  (* libjxl: queries *)
  JxlDecoderGetBasicInfo : Dec -> JxlDecoderStatus * JxlBasicInfo;
  JxlDecoderGetFrameHeader : Dec -> JxlDecoderStatus * JxlFrameHeader;
  JxlDecoderGetExtraChannelInfo : Dec -> Z -> JxlDecoderStatus * JxlExtraChannelType;
  (* libjxl: colour *)
  JxlGetDefaultCms : bool;
  JxlDecoderSetCms : Dec -> JxlDecoderStatus * Dec;
  JxlColorEncodingSetToSRGB : bool -> JxlColorEncoding;
  JxlDecoderSetPreferredColorProfile : Dec -> JxlColorEncoding -> Dec;
  JxlDecoderGetColorAsEncodedProfile : Dec -> JxlDecoderStatus * JxlColorEncoding;
  JxlDecoderGetICCProfileSize : Dec -> JxlDecoderStatus * Z;
  JxlDecoderGetColorAsICCProfile : Dec -> Z -> JxlDecoderStatus * QByteArray;
  (* libjxl: container boxes; [JxlBoxBufferContents d n] is what the decoder
     has written into the first [n] bytes of the box buffers it was given *)
  JxlDecoderSetDecompressBoxes : Dec -> bool -> JxlDecoderStatus * Dec;
  JxlDecoderGetBoxType : Dec -> JxlDecoderStatus * list Z;
  JxlDecoderGetBoxSizeRaw : Dec -> JxlDecoderStatus * Z;
  JxlDecoderSetBoxBuffer : Dec -> Z -> JxlDecoderStatus * Dec;
  JxlDecoderReleaseBoxBuffer : Dec -> Z * Dec;
  JxlBoxBufferContents : Dec -> Z -> QByteArray;
  (* libjxl: pixel output; the [...Contents] are the bytes found in the
     registered buffers once [JXL_DEC_FULL_IMAGE] has been reported *)
  JxlDecoderSetImageOutBuffer : Dec -> JxlPixelFormat -> Z -> JxlDecoderStatus * Dec;
  JxlDecoderSetExtraChannelBuffer : Dec -> JxlPixelFormat -> Z -> Z -> JxlDecoderStatus * Dec;
  JxlImageOutContents : Dec -> list Z;
  JxlExtraChannelContents : Dec -> Z -> list Z;
  (* libjxl: encoder set-up *)
  JxlEncoderCreate : bool;
  JxlEncoderSetParallelRunner : Z -> bool;
  JxlEncoderInitBasicInfo : JxlBasicInfo;
  (* Qt and util_p.h *)
  QThread_idealThreadCount : Z;
  imageAlloc : Z -> Z -> QImageFormat -> QImage;
  malloc : Z -> bool;
  QColorSpace_SRgb : QColorSpace;
  QColorSpace_fromIccProfile : QByteArray -> QColorSpace;
  QImage_convertTo : QImageData -> QImageFormat -> QImageData;
  QImage_convertedToColorSpace : QImageData -> QColorSpace -> QImageFormat -> QImage;
  MicroExif_updateImage : QByteArray -> QImageData -> QImageData
}.

(** ** The handler

    [ParseJpegXLState] and the members of [QJpegXLHandler] (declared in
    [jxl_p.h]), named as the code names them.  [device] is the
    [QIODevice] of the base class: the bytes not yet read, or [None] for a
    null pointer.  [m_runner] is [None] for a null runner and otherwise the
    number of worker threads it was created with.  [allocations] is ghost
    state: it counts the pixel buffers requested so far through [imageAlloc]
    and [malloc]. *)
Inductive ParseJpegXLState :=
| ParseJpegXLError | ParseJpegXLNotParsed | ParseJpegXLSuccess
| ParseJpegXLBasicInfoParsed | ParseJpegXLFinished.

Definition QIODevice := QByteArray.

Section Handler.
Context `{Env}.

Record Handler := {
  m_parseState : ParseJpegXLState;
  m_quality : Z;
  m_currentimage_index : Z;
  m_previousimage_index : Z;
  m_transformations : Z;
  m_decoder : option Dec;
  m_runner : option Z;
  m_next_image_delay : Z;
  m_isCMYK : bool;
  m_cmyk_channel_id : Z;
  m_alpha_channel_id : Z;
  m_input_image_format : QImageFormat;
  m_target_image_format : QImageFormat;
  m_rawData : QByteArray;
  m_basicinfo : JxlBasicInfo;
  m_framedelays : list Z;
  m_current_image : QImage;
  m_colorspace : QColorSpace;
  m_input_pixel_format : JxlPixelFormat;
  m_xmp : QByteArray;
  m_exif : QByteArray;
  device : option QIODevice;
  allocations : nat
}.

Definition set_m_parseState (v : ParseJpegXLState) (h : Handler) : Handler :=
  {| m_parseState := v; m_quality := m_quality h; m_currentimage_index := m_currentimage_index h; m_previousimage_index := m_previousimage_index h; m_transformations := m_transformations h; m_decoder := m_decoder h; m_runner := m_runner h; m_next_image_delay := m_next_image_delay h; m_isCMYK := m_isCMYK h; m_cmyk_channel_id := m_cmyk_channel_id h; m_alpha_channel_id := m_alpha_channel_id h; m_input_image_format := m_input_image_format h; m_target_image_format := m_target_image_format h; m_rawData := m_rawData h; m_basicinfo := m_basicinfo h; m_framedelays := m_framedelays h; m_current_image := m_current_image h; m_colorspace := m_colorspace h; m_input_pixel_format := m_input_pixel_format h; m_xmp := m_xmp h; m_exif := m_exif h; device := device h; allocations := allocations h |}.
Definition set_m_quality (v : Z) (h : Handler) : Handler :=
  {| m_parseState := m_parseState h; m_quality := v; m_currentimage_index := m_currentimage_index h; m_previousimage_index := m_previousimage_index h; m_transformations := m_transformations h; m_decoder := m_decoder h; m_runner := m_runner h; m_next_image_delay := m_next_image_delay h; m_isCMYK := m_isCMYK h; m_cmyk_channel_id := m_cmyk_channel_id h; m_alpha_channel_id := m_alpha_channel_id h; m_input_image_format := m_input_image_format h; m_target_image_format := m_target_image_format h; m_rawData := m_rawData h; m_basicinfo := m_basicinfo h; m_framedelays := m_framedelays h; m_current_image := m_current_image h; m_colorspace := m_colorspace h; m_input_pixel_format := m_input_pixel_format h; m_xmp := m_xmp h; m_exif := m_exif h; device := device h; allocations := allocations h |}.
Definition set_m_currentimage_index (v : Z) (h : Handler) : Handler :=
  {| m_parseState := m_parseState h; m_quality := m_quality h; m_currentimage_index := v; m_previousimage_index := m_previousimage_index h; m_transformations := m_transformations h; m_decoder := m_decoder h; m_runner := m_runner h; m_next_image_delay := m_next_image_delay h; m_isCMYK := m_isCMYK h; m_cmyk_channel_id := m_cmyk_channel_id h; m_alpha_channel_id := m_alpha_channel_id h; m_input_image_format := m_input_image_format h; m_target_image_format := m_target_image_format h; m_rawData := m_rawData h; m_basicinfo := m_basicinfo h; m_framedelays := m_framedelays h; m_current_image := m_current_image h; m_colorspace := m_colorspace h; m_input_pixel_format := m_input_pixel_format h; m_xmp := m_xmp h; m_exif := m_exif h; device := device h; allocations := allocations h |}.
Definition set_m_previousimage_index (v : Z) (h : Handler) : Handler :=
  {| m_parseState := m_parseState h; m_quality := m_quality h; m_currentimage_index := m_currentimage_index h; m_previousimage_index := v; m_transformations := m_transformations h; m_decoder := m_decoder h; m_runner := m_runner h; m_next_image_delay := m_next_image_delay h; m_isCMYK := m_isCMYK h; m_cmyk_channel_id := m_cmyk_channel_id h; m_alpha_channel_id := m_alpha_channel_id h; m_input_image_format := m_input_image_format h; m_target_image_format := m_target_image_format h; m_rawData := m_rawData h; m_basicinfo := m_basicinfo h; m_framedelays := m_framedelays h; m_current_image := m_current_image h; m_colorspace := m_colorspace h; m_input_pixel_format := m_input_pixel_format h; m_xmp := m_xmp h; m_exif := m_exif h; device := device h; allocations := allocations h |}.
Definition set_m_transformations (v : Z) (h : Handler) : Handler :=
  {| m_parseState := m_parseState h; m_quality := m_quality h; m_currentimage_index := m_currentimage_index h; m_previousimage_index := m_previousimage_index h; m_transformations := v; m_decoder := m_decoder h; m_runner := m_runner h; m_next_image_delay := m_next_image_delay h; m_isCMYK := m_isCMYK h; m_cmyk_channel_id := m_cmyk_channel_id h; m_alpha_channel_id := m_alpha_channel_id h; m_input_image_format := m_input_image_format h; m_target_image_format := m_target_image_format h; m_rawData := m_rawData h; m_basicinfo := m_basicinfo h; m_framedelays := m_framedelays h; m_current_image := m_current_image h; m_colorspace := m_colorspace h; m_input_pixel_format := m_input_pixel_format h; m_xmp := m_xmp h; m_exif := m_exif h; device := device h; allocations := allocations h |}.
Definition set_m_decoder (v : option Dec) (h : Handler) : Handler :=
  {| m_parseState := m_parseState h; m_quality := m_quality h; m_currentimage_index := m_currentimage_index h; m_previousimage_index := m_previousimage_index h; m_transformations := m_transformations h; m_decoder := v; m_runner := m_runner h; m_next_image_delay := m_next_image_delay h; m_isCMYK := m_isCMYK h; m_cmyk_channel_id := m_cmyk_channel_id h; m_alpha_channel_id := m_alpha_channel_id h; m_input_image_format := m_input_image_format h; m_target_image_format := m_target_image_format h; m_rawData := m_rawData h; m_basicinfo := m_basicinfo h; m_framedelays := m_framedelays h; m_current_image := m_current_image h; m_colorspace := m_colorspace h; m_input_pixel_format := m_input_pixel_format h; m_xmp := m_xmp h; m_exif := m_exif h; device := device h; allocations := allocations h |}.
Definition set_m_runner (v : option Z) (h : Handler) : Handler :=
  {| m_parseState := m_parseState h; m_quality := m_quality h; m_currentimage_index := m_currentimage_index h; m_previousimage_index := m_previousimage_index h; m_transformations := m_transformations h; m_decoder := m_decoder h; m_runner := v; m_next_image_delay := m_next_image_delay h; m_isCMYK := m_isCMYK h; m_cmyk_channel_id := m_cmyk_channel_id h; m_alpha_channel_id := m_alpha_channel_id h; m_input_image_format := m_input_image_format h; m_target_image_format := m_target_image_format h; m_rawData := m_rawData h; m_basicinfo := m_basicinfo h; m_framedelays := m_framedelays h; m_current_image := m_current_image h; m_colorspace := m_colorspace h; m_input_pixel_format := m_input_pixel_format h; m_xmp := m_xmp h; m_exif := m_exif h; device := device h; allocations := allocations h |}.
Definition set_m_next_image_delay (v : Z) (h : Handler) : Handler :=
  {| m_parseState := m_parseState h; m_quality := m_quality h; m_currentimage_index := m_currentimage_index h; m_previousimage_index := m_previousimage_index h; m_transformations := m_transformations h; m_decoder := m_decoder h; m_runner := m_runner h; m_next_image_delay := v; m_isCMYK := m_isCMYK h; m_cmyk_channel_id := m_cmyk_channel_id h; m_alpha_channel_id := m_alpha_channel_id h; m_input_image_format := m_input_image_format h; m_target_image_format := m_target_image_format h; m_rawData := m_rawData h; m_basicinfo := m_basicinfo h; m_framedelays := m_framedelays h; m_current_image := m_current_image h; m_colorspace := m_colorspace h; m_input_pixel_format := m_input_pixel_format h; m_xmp := m_xmp h; m_exif := m_exif h; device := device h; allocations := allocations h |}.
Definition set_m_isCMYK (v : bool) (h : Handler) : Handler :=
  {| m_parseState := m_parseState h; m_quality := m_quality h; m_currentimage_index := m_currentimage_index h; m_previousimage_index := m_previousimage_index h; m_transformations := m_transformations h; m_decoder := m_decoder h; m_runner := m_runner h; m_next_image_delay := m_next_image_delay h; m_isCMYK := v; m_cmyk_channel_id := m_cmyk_channel_id h; m_alpha_channel_id := m_alpha_channel_id h; m_input_image_format := m_input_image_format h; m_target_image_format := m_target_image_format h; m_rawData := m_rawData h; m_basicinfo := m_basicinfo h; m_framedelays := m_framedelays h; m_current_image := m_current_image h; m_colorspace := m_colorspace h; m_input_pixel_format := m_input_pixel_format h; m_xmp := m_xmp h; m_exif := m_exif h; device := device h; allocations := allocations h |}.
Definition set_m_cmyk_channel_id (v : Z) (h : Handler) : Handler :=
  {| m_parseState := m_parseState h; m_quality := m_quality h; m_currentimage_index := m_currentimage_index h; m_previousimage_index := m_previousimage_index h; m_transformations := m_transformations h; m_decoder := m_decoder h; m_runner := m_runner h; m_next_image_delay := m_next_image_delay h; m_isCMYK := m_isCMYK h; m_cmyk_channel_id := v; m_alpha_channel_id := m_alpha_channel_id h; m_input_image_format := m_input_image_format h; m_target_image_format := m_target_image_format h; m_rawData := m_rawData h; m_basicinfo := m_basicinfo h; m_framedelays := m_framedelays h; m_current_image := m_current_image h; m_colorspace := m_colorspace h; m_input_pixel_format := m_input_pixel_format h; m_xmp := m_xmp h; m_exif := m_exif h; device := device h; allocations := allocations h |}.
Definition set_m_alpha_channel_id (v : Z) (h : Handler) : Handler :=
  {| m_parseState := m_parseState h; m_quality := m_quality h; m_currentimage_index := m_currentimage_index h; m_previousimage_index := m_previousimage_index h; m_transformations := m_transformations h; m_decoder := m_decoder h; m_runner := m_runner h; m_next_image_delay := m_next_image_delay h; m_isCMYK := m_isCMYK h; m_cmyk_channel_id := m_cmyk_channel_id h; m_alpha_channel_id := v; m_input_image_format := m_input_image_format h; m_target_image_format := m_target_image_format h; m_rawData := m_rawData h; m_basicinfo := m_basicinfo h; m_framedelays := m_framedelays h; m_current_image := m_current_image h; m_colorspace := m_colorspace h; m_input_pixel_format := m_input_pixel_format h; m_xmp := m_xmp h; m_exif := m_exif h; device := device h; allocations := allocations h |}.
Definition set_m_input_image_format (v : QImageFormat) (h : Handler) : Handler :=
  {| m_parseState := m_parseState h; m_quality := m_quality h; m_currentimage_index := m_currentimage_index h; m_previousimage_index := m_previousimage_index h; m_transformations := m_transformations h; m_decoder := m_decoder h; m_runner := m_runner h; m_next_image_delay := m_next_image_delay h; m_isCMYK := m_isCMYK h; m_cmyk_channel_id := m_cmyk_channel_id h; m_alpha_channel_id := m_alpha_channel_id h; m_input_image_format := v; m_target_image_format := m_target_image_format h; m_rawData := m_rawData h; m_basicinfo := m_basicinfo h; m_framedelays := m_framedelays h; m_current_image := m_current_image h; m_colorspace := m_colorspace h; m_input_pixel_format := m_input_pixel_format h; m_xmp := m_xmp h; m_exif := m_exif h; device := device h; allocations := allocations h |}.
Definition set_m_target_image_format (v : QImageFormat) (h : Handler) : Handler :=
  {| m_parseState := m_parseState h; m_quality := m_quality h; m_currentimage_index := m_currentimage_index h; m_previousimage_index := m_previousimage_index h; m_transformations := m_transformations h; m_decoder := m_decoder h; m_runner := m_runner h; m_next_image_delay := m_next_image_delay h; m_isCMYK := m_isCMYK h; m_cmyk_channel_id := m_cmyk_channel_id h; m_alpha_channel_id := m_alpha_channel_id h; m_input_image_format := m_input_image_format h; m_target_image_format := v; m_rawData := m_rawData h; m_basicinfo := m_basicinfo h; m_framedelays := m_framedelays h; m_current_image := m_current_image h; m_colorspace := m_colorspace h; m_input_pixel_format := m_input_pixel_format h; m_xmp := m_xmp h; m_exif := m_exif h; device := device h; allocations := allocations h |}.
Definition set_m_rawData (v : QByteArray) (h : Handler) : Handler :=
  {| m_parseState := m_parseState h; m_quality := m_quality h; m_currentimage_index := m_currentimage_index h; m_previousimage_index := m_previousimage_index h; m_transformations := m_transformations h; m_decoder := m_decoder h; m_runner := m_runner h; m_next_image_delay := m_next_image_delay h; m_isCMYK := m_isCMYK h; m_cmyk_channel_id := m_cmyk_channel_id h; m_alpha_channel_id := m_alpha_channel_id h; m_input_image_format := m_input_image_format h; m_target_image_format := m_target_image_format h; m_rawData := v; m_basicinfo := m_basicinfo h; m_framedelays := m_framedelays h; m_current_image := m_current_image h; m_colorspace := m_colorspace h; m_input_pixel_format := m_input_pixel_format h; m_xmp := m_xmp h; m_exif := m_exif h; device := device h; allocations := allocations h |}.
Definition set_m_basicinfo (v : JxlBasicInfo) (h : Handler) : Handler :=
  {| m_parseState := m_parseState h; m_quality := m_quality h; m_currentimage_index := m_currentimage_index h; m_previousimage_index := m_previousimage_index h; m_transformations := m_transformations h; m_decoder := m_decoder h; m_runner := m_runner h; m_next_image_delay := m_next_image_delay h; m_isCMYK := m_isCMYK h; m_cmyk_channel_id := m_cmyk_channel_id h; m_alpha_channel_id := m_alpha_channel_id h; m_input_image_format := m_input_image_format h; m_target_image_format := m_target_image_format h; m_rawData := m_rawData h; m_basicinfo := v; m_framedelays := m_framedelays h; m_current_image := m_current_image h; m_colorspace := m_colorspace h; m_input_pixel_format := m_input_pixel_format h; m_xmp := m_xmp h; m_exif := m_exif h; device := device h; allocations := allocations h |}.
Definition set_m_framedelays (v : list Z) (h : Handler) : Handler :=
  {| m_parseState := m_parseState h; m_quality := m_quality h; m_currentimage_index := m_currentimage_index h; m_previousimage_index := m_previousimage_index h; m_transformations := m_transformations h; m_decoder := m_decoder h; m_runner := m_runner h; m_next_image_delay := m_next_image_delay h; m_isCMYK := m_isCMYK h; m_cmyk_channel_id := m_cmyk_channel_id h; m_alpha_channel_id := m_alpha_channel_id h; m_input_image_format := m_input_image_format h; m_target_image_format := m_target_image_format h; m_rawData := m_rawData h; m_basicinfo := m_basicinfo h; m_framedelays := v; m_current_image := m_current_image h; m_colorspace := m_colorspace h; m_input_pixel_format := m_input_pixel_format h; m_xmp := m_xmp h; m_exif := m_exif h; device := device h; allocations := allocations h |}.
Definition set_m_current_image (v : QImage) (h : Handler) : Handler :=
  {| m_parseState := m_parseState h; m_quality := m_quality h; m_currentimage_index := m_currentimage_index h; m_previousimage_index := m_previousimage_index h; m_transformations := m_transformations h; m_decoder := m_decoder h; m_runner := m_runner h; m_next_image_delay := m_next_image_delay h; m_isCMYK := m_isCMYK h; m_cmyk_channel_id := m_cmyk_channel_id h; m_alpha_channel_id := m_alpha_channel_id h; m_input_image_format := m_input_image_format h; m_target_image_format := m_target_image_format h; m_rawData := m_rawData h; m_basicinfo := m_basicinfo h; m_framedelays := m_framedelays h; m_current_image := v; m_colorspace := m_colorspace h; m_input_pixel_format := m_input_pixel_format h; m_xmp := m_xmp h; m_exif := m_exif h; device := device h; allocations := allocations h |}.
Definition set_m_colorspace (v : QColorSpace) (h : Handler) : Handler :=
  {| m_parseState := m_parseState h; m_quality := m_quality h; m_currentimage_index := m_currentimage_index h; m_previousimage_index := m_previousimage_index h; m_transformations := m_transformations h; m_decoder := m_decoder h; m_runner := m_runner h; m_next_image_delay := m_next_image_delay h; m_isCMYK := m_isCMYK h; m_cmyk_channel_id := m_cmyk_channel_id h; m_alpha_channel_id := m_alpha_channel_id h; m_input_image_format := m_input_image_format h; m_target_image_format := m_target_image_format h; m_rawData := m_rawData h; m_basicinfo := m_basicinfo h; m_framedelays := m_framedelays h; m_current_image := m_current_image h; m_colorspace := v; m_input_pixel_format := m_input_pixel_format h; m_xmp := m_xmp h; m_exif := m_exif h; device := device h; allocations := allocations h |}.
Definition set_m_input_pixel_format (v : JxlPixelFormat) (h : Handler) : Handler :=
  {| m_parseState := m_parseState h; m_quality := m_quality h; m_currentimage_index := m_currentimage_index h; m_previousimage_index := m_previousimage_index h; m_transformations := m_transformations h; m_decoder := m_decoder h; m_runner := m_runner h; m_next_image_delay := m_next_image_delay h; m_isCMYK := m_isCMYK h; m_cmyk_channel_id := m_cmyk_channel_id h; m_alpha_channel_id := m_alpha_channel_id h; m_input_image_format := m_input_image_format h; m_target_image_format := m_target_image_format h; m_rawData := m_rawData h; m_basicinfo := m_basicinfo h; m_framedelays := m_framedelays h; m_current_image := m_current_image h; m_colorspace := m_colorspace h; m_input_pixel_format := v; m_xmp := m_xmp h; m_exif := m_exif h; device := device h; allocations := allocations h |}.
Definition set_m_xmp (v : QByteArray) (h : Handler) : Handler :=
  {| m_parseState := m_parseState h; m_quality := m_quality h; m_currentimage_index := m_currentimage_index h; m_previousimage_index := m_previousimage_index h; m_transformations := m_transformations h; m_decoder := m_decoder h; m_runner := m_runner h; m_next_image_delay := m_next_image_delay h; m_isCMYK := m_isCMYK h; m_cmyk_channel_id := m_cmyk_channel_id h; m_alpha_channel_id := m_alpha_channel_id h; m_input_image_format := m_input_image_format h; m_target_image_format := m_target_image_format h; m_rawData := m_rawData h; m_basicinfo := m_basicinfo h; m_framedelays := m_framedelays h; m_current_image := m_current_image h; m_colorspace := m_colorspace h; m_input_pixel_format := m_input_pixel_format h; m_xmp := v; m_exif := m_exif h; device := device h; allocations := allocations h |}.
Definition set_m_exif (v : QByteArray) (h : Handler) : Handler :=
  {| m_parseState := m_parseState h; m_quality := m_quality h; m_currentimage_index := m_currentimage_index h; m_previousimage_index := m_previousimage_index h; m_transformations := m_transformations h; m_decoder := m_decoder h; m_runner := m_runner h; m_next_image_delay := m_next_image_delay h; m_isCMYK := m_isCMYK h; m_cmyk_channel_id := m_cmyk_channel_id h; m_alpha_channel_id := m_alpha_channel_id h; m_input_image_format := m_input_image_format h; m_target_image_format := m_target_image_format h; m_rawData := m_rawData h; m_basicinfo := m_basicinfo h; m_framedelays := m_framedelays h; m_current_image := m_current_image h; m_colorspace := m_colorspace h; m_input_pixel_format := m_input_pixel_format h; m_xmp := m_xmp h; m_exif := v; device := device h; allocations := allocations h |}.
Definition set_device (v : option QIODevice) (h : Handler) : Handler :=
  {| m_parseState := m_parseState h; m_quality := m_quality h; m_currentimage_index := m_currentimage_index h; m_previousimage_index := m_previousimage_index h; m_transformations := m_transformations h; m_decoder := m_decoder h; m_runner := m_runner h; m_next_image_delay := m_next_image_delay h; m_isCMYK := m_isCMYK h; m_cmyk_channel_id := m_cmyk_channel_id h; m_alpha_channel_id := m_alpha_channel_id h; m_input_image_format := m_input_image_format h; m_target_image_format := m_target_image_format h; m_rawData := m_rawData h; m_basicinfo := m_basicinfo h; m_framedelays := m_framedelays h; m_current_image := m_current_image h; m_colorspace := m_colorspace h; m_input_pixel_format := m_input_pixel_format h; m_xmp := m_xmp h; m_exif := m_exif h; device := v; allocations := allocations h |}.
Definition set_allocations (v : nat) (h : Handler) : Handler :=
  {| m_parseState := m_parseState h; m_quality := m_quality h; m_currentimage_index := m_currentimage_index h; m_previousimage_index := m_previousimage_index h; m_transformations := m_transformations h; m_decoder := m_decoder h; m_runner := m_runner h; m_next_image_delay := m_next_image_delay h; m_isCMYK := m_isCMYK h; m_cmyk_channel_id := m_cmyk_channel_id h; m_alpha_channel_id := m_alpha_channel_id h; m_input_image_format := m_input_image_format h; m_target_image_format := m_target_image_format h; m_rawData := m_rawData h; m_basicinfo := m_basicinfo h; m_framedelays := m_framedelays h; m_current_image := m_current_image h; m_colorspace := m_colorspace h; m_input_pixel_format := m_input_pixel_format h; m_xmp := m_xmp h; m_exif := m_exif h; device := device h; allocations := v |}.

(** Updates of single [m_basicinfo] and [m_input_pixel_format] members. *)
Definition set_have_animation (b : bool) (i : JxlBasicInfo) : JxlBasicInfo :=
  {| have_container := have_container i; xsize := xsize i; ysize := ysize i;
     bits_per_sample := bits_per_sample i;
     exponent_bits_per_sample := exponent_bits_per_sample i;
     uses_original_profile := uses_original_profile i; have_animation := b;
     orientation := orientation i; num_color_channels := num_color_channels i;
     num_extra_channels := num_extra_channels i; alpha_bits := alpha_bits i;
     animation := animation i |}.

(** The constructor.  [m_basicinfo] and [m_input_pixel_format] have no
    initialiser in the code, so their first values are arguments. *)
Definition QJpegXLHandler (uninit_info : JxlBasicInfo) (uninit_format : JxlPixelFormat)
    (dev : option QIODevice) : Handler :=
  {| m_parseState := ParseJpegXLNotParsed; m_quality := 90;
     m_currentimage_index := 0; m_previousimage_index := -1;
     m_transformations := TransformationNone; m_decoder := None; m_runner := None;
     m_next_image_delay := 0; m_isCMYK := false; m_cmyk_channel_id := 0;
     m_alpha_channel_id := 0; m_input_image_format := Format_Invalid;
     m_target_image_format := Format_Invalid; m_rawData := [];
     m_basicinfo := uninit_info; m_framedelays := []; m_current_image := None;
     m_colorspace := QColorSpace_default; m_input_pixel_format := uninit_format;
     m_xmp := []; m_exif := []; device := dev; allocations := 0 |}.

(** ** A state monad with undefined results

    A member function is a function from the handler before the call to
    the returned value and the handler after it.  [None] stands for a call
    without a defined result: a libjxl function applied to a null decoder,
    a conversion the language leaves undefined, or a loop that has used up
    the bound it was given. *)
Definition M (A : Type) : Type := Handler -> option (A * Handler).

Definition ret {A} (a : A) : M A := fun h => Some (a, h).
Definition bind {A B} (c : M A) (k : A -> M B) : M B :=
  fun h => match c h with Some (a, h') => k a h' | None => None end.
Definition undefined {A} : M A := fun _ => None.
Definition gets {A} (f : Handler -> A) : M A := fun h => Some (f h, h).
Definition modify (f : Handler -> Handler) : M unit := fun h => Some (tt, f h).

End Handler.

Declare Scope m_scope.
Delimit Scope m_scope with M.
Notation "x <- c ;; k" := (bind c (fun x => k))
  (at level 100, c at next level, right associativity) : m_scope.
Notation "c ;;; k" := (bind c (fun _ => k))
  (at level 100, right associativity) : m_scope.

#[global] Instance JxlSignature_eq_dec : EqDecision JxlSignature.
Proof. solve_decision. Defined.
#[global] Instance JxlDecoderStatus_eq_dec : EqDecision JxlDecoderStatus.
Proof. solve_decision. Defined.
#[global] Instance JxlOrientation_eq_dec : EqDecision JxlOrientation.
Proof. solve_decision. Defined.
#[global] Instance JxlDataType_eq_dec : EqDecision JxlDataType.
Proof. solve_decision. Defined.
#[global] Instance JxlExtraChannelType_eq_dec : EqDecision JxlExtraChannelType.
Proof. solve_decision. Defined.
#[global] Instance JxlColorSpace_eq_dec : EqDecision JxlColorSpace.
Proof. solve_decision. Defined.
#[global] Instance JxlWhitePoint_eq_dec : EqDecision JxlWhitePoint.
Proof. solve_decision. Defined.
#[global] Instance JxlPrimaries_eq_dec : EqDecision JxlPrimaries.
Proof. solve_decision. Defined.
#[global] Instance JxlTransferFunction_eq_dec : EqDecision JxlTransferFunction.
Proof. solve_decision. Defined.
#[global] Instance QImageFormat_eq_dec : EqDecision QImageFormat.
Proof. solve_decision. Defined.
#[global] Instance ColorModel_eq_dec : EqDecision ColorModel.
Proof. solve_decision. Defined.
#[global] Instance ParseJpegXLState_eq_dec : EqDecision ParseJpegXLState.
Proof. solve_decision. Defined.
#[global] Instance ImageOption_eq_dec : EqDecision ImageOption.
Proof. solve_decision. Defined.

(** [a == b] is the boolean of the C++ comparison [a == b] on an enumeration. *)
Notation "a == b" := (bool_decide (a = b)) (at level 70, no associativity).
Notation "a != b" := (negb (bool_decide (a = b))) (at level 70, no associativity).

(** ** Image size limits (the macros at the top of jxl.cpp) *)

Definition FEATURE_LEVEL_5_WIDTH : Z := 262144.
Definition FEATURE_LEVEL_5_HEIGHT : Z := 262144.
Definition FEATURE_LEVEL_5_PIXELS : Z := 268435456.

Section Limits.
Context `{Env}.

Definition MAX_IMAGE_WIDTH : Z :=
  if QT_POINTER_SIZE <? 8 then 32767 else FEATURE_LEVEL_5_WIDTH.
Definition MAX_IMAGE_HEIGHT : Z :=
  if QT_POINTER_SIZE <? 8 then 32767 else FEATURE_LEVEL_5_HEIGHT.
Definition MAX_IMAGE_PIXELS : Z := FEATURE_LEVEL_5_PIXELS.

End Limits.

(** [qBound(lo, v, hi)] of QtGlobal. *)
Definition qBound (lo v hi : Z) : Z := Z.max lo (Z.min hi v).

(** ** Frame delays

    [delay = (int)(0.5 + 1000.0 * duration * tps_denominator / tps_numerator)]
    is computed in binary64 arithmetic, here with the kernel's primitive
    floats.  The operands are [uint32_t] values, converted exactly. *)
Definition double_of_uint32 (n : Z) : float := PrimFloat.of_uint63 (Uint63.of_Z n).

(** The conversion [(int)x] truncates toward zero; it is undefined ([None])
    when [x] is a NaN or an infinity or when the truncated value is not an
    [int]. *)
Definition int_of_double (x : float) : option Z :=
  match Prim2SF x with
  | S754_zero _ => Some 0
  | S754_finite s m e =>
      let mag := if 0 <=? e then Z.pos m * 2 ^ e else Z.pos m / 2 ^ (- e) in
      let v := if s then - mag else mag in
      if (-2147483648 <=? v) && (v <=? 2147483647) then Some v else None
  | _ => None
  end.

Definition frame_delay (info : JxlBasicInfo) (frame_header : JxlFrameHeader) : option Z :=
  if (tps_denominator (animation info) >? 0) && (tps_numerator (animation info) >? 0) then
    int_of_double (0.5 + 1000.0 * double_of_uint32 (duration frame_header)
                         * double_of_uint32 (tps_denominator (animation info))
                         / double_of_uint32 (tps_numerator (animation info)))%float
  else Some 0.

(** How a loop body that may execute [return] hands control back. *)
Inductive LoopExit (X : Type) :=
| Returned (b : bool)
| Fallthrough (x : X).
Arguments Returned {X} b.
Arguments Fallthrough {X} x.

(** ** QJpegXLHandler: probing and parsing *)

Section JpegXL.
Context `{Env}.
(** [fuel] bounds the number of iterations of the two event loops that run
    until the decoder says so (frame counting and the container scan). *)
Variable fuel : nat.
Local Open Scope m_scope.

(** Calls into libjxl with [m_decoder]; a null decoder has no defined result. *)
Definition dec_call {A} (f : Dec -> A * Dec) : M A := fun h =>
  match m_decoder h with
  | Some d => let (a, d') := f d in Some (a, set_m_decoder (Some d') h)
  | None => None
  end.
Definition dec_get {A} (f : Dec -> A) : M A := fun h =>
  match m_decoder h with Some d => Some (f d, h) | None => None end.
Definition dec_do (f : Dec -> Dec) : M unit := fun h =>
  match m_decoder h with Some d => Some (tt, set_m_decoder (Some (f d)) h) | None => None end.

(** [m_parseState = ParseJpegXLError; return false;] *)
Definition fail_error : M bool :=
  modify (set_m_parseState ParseJpegXLError) ;;; ret false.

(** [QIODevice::peek] returns up to [n] bytes and leaves the device as it is;
    [QIODevice::readAll] returns and consumes what is left. *)
Definition peek (n : nat) (d : QIODevice) : QByteArray * QIODevice := (take n d, d).
Definition readAll (d : QIODevice) : QByteArray * QIODevice := (d, []).

(** [static bool QJpegXLHandler::canRead(QIODevice *device)], with the
    device after the call. *)
Definition canRead_device (dev : option QIODevice) : bool * option QIODevice :=
  match dev with
  | None => (false, None)
  | Some d =>
      let (header, d') := peek 32 d in
      if (Z.of_nat (length header) <? 12) then (false, Some d')
      else
        let signature := JxlSignatureCheck header in
        if (signature == JXL_SIG_CODESTREAM) || (signature == JXL_SIG_CONTAINER)
        then (true, Some d') else (false, Some d')
  end.

(** [bool QJpegXLHandler::canRead() const].  The format name that
    [setFormat] stores in the base class is not part of the state. *)
Definition canRead : M bool :=
  st <- gets m_parseState ;;
  dev <- gets device ;;
  let (can, dev') := canRead_device dev in
  (if st == ParseJpegXLNotParsed then modify (set_device dev') else ret tt) ;;;
  if (st == ParseJpegXLNotParsed) && negb can then ret false
  else if st != ParseJpegXLError then
    if st == ParseJpegXLFinished then ret false else ret true
  else ret false.

Definition ensureDecoder : M bool :=
  d <- gets m_decoder ;;
  if bool_decide (is_Some d) then ret true else
  dev <- gets device ;;
  match dev with
  | None => undefined
  | Some bytes =>
  let (all, rest) := readAll bytes in
  modify (set_device (Some rest)) ;;;
  modify (set_m_rawData all) ;;;
  if bool_decide (all = []) then ret false else
  let signature := JxlSignatureCheck all in
  if (signature != JXL_SIG_CODESTREAM) && (signature != JXL_SIG_CONTAINER) then fail_error else
  modify (set_m_decoder JxlDecoderCreate) ;;;
  d <- gets m_decoder ;;
  if negb (bool_decide (is_Some d)) then fail_error else
  (if JXL_QT_AUTOTRANSFORM then dec_do (fun d => JxlDecoderSetKeepOrientation d true)
   else ret tt) ;;;
  let num_worker_threads := QThread_idealThreadCount in
  runner <- gets m_runner ;;
  runner_ok <-
    (if negb (bool_decide (is_Some runner)) && (num_worker_threads >=? 4) then
       let num_worker_threads := Z.quot num_worker_threads 2 in
       let num_worker_threads := qBound 2 num_worker_threads 64 in
       modify (set_m_runner (if JxlThreadParallelRunnerCreate num_worker_threads
                             then Some num_worker_threads else None)) ;;;
       runner <- gets m_runner ;;
       status <- dec_call (fun d => JxlDecoderSetParallelRunner d runner) ;;
       ret (status == JXL_DEC_SUCCESS)
     else ret true) ;;
  if negb runner_ok then fail_error else
  rawData <- gets m_rawData ;;
  status <- dec_call (fun d => JxlDecoderSetInput d rawData) ;;
  if status != JXL_DEC_SUCCESS then fail_error else
  dec_do JxlDecoderCloseInput ;;;
  status <- dec_call (fun d => JxlDecoderSubscribeEvents d
                       (Z.lor (Z.lor EV_BASIC_INFO EV_COLOR_ENCODING) EV_FRAME)) ;;
  if status == JXL_DEC_ERROR then fail_error else
  status <- dec_call JxlDecoderProcessInput ;;
  if status == JXL_DEC_ERROR then fail_error else
  if status == JXL_DEC_NEED_MORE_INPUT then fail_error else
  r <- dec_get JxlDecoderGetBasicInfo ;;
  (if fst r == JXL_DEC_SUCCESS then modify (set_m_basicinfo (snd r)) else ret tt) ;;;
  if fst r != JXL_DEC_SUCCESS then fail_error else
  info <- gets m_basicinfo ;;
  if (xsize info =? 0) || (ysize info =? 0) then fail_error else
  if (xsize info >? MAX_IMAGE_WIDTH) || (ysize info >? MAX_IMAGE_HEIGHT) then fail_error else
  modify (set_m_parseState ParseJpegXLBasicInfoParsed) ;;;
  ret true
  end.

Definition ensureParsed : M bool :=
  st <- gets m_parseState ;;
  if (st == ParseJpegXLSuccess) || (st == ParseJpegXLBasicInfoParsed)
     || (st == ParseJpegXLFinished) then ret true else
  if st == ParseJpegXLError then ret false else
  ensureDecoder.

(** *** countALLFrames, part by part *)

(** The preferred output profile of simple images. *)
Definition is_gray_info (info : JxlBasicInfo) : bool :=
  (num_color_channels info =? 1) && (alpha_bits info =? 0).

Definition request_srgb_output : M unit :=
  info <- gets m_basicinfo ;;
  if negb (uses_original_profile info) && negb (have_animation info) then
    (if JxlGetDefaultCms then
       status <- dec_call JxlDecoderSetCms ;; ret tt
     else ret tt) ;;;
    dec_do (fun d => JxlDecoderSetPreferredColorProfile d
                       (JxlColorEncodingSetToSRGB (is_gray_info info)))
  else ret tt.

(** The pixel-format planner: [m_input_pixel_format], [m_input_image_format]
    and [m_target_image_format] from the basic info. *)
Definition plan_pixel_format (info : JxlBasicInfo)
  : JxlPixelFormat * QImageFormat * QImageFormat :=
  let is_gray := is_gray_info info in
  let loadalpha := alpha_bits info >? 0 in
  if bits_per_sample info >? 8 then
    let is_fp := if JXL_HDR_PRESERVATION_DISABLED then false
                 else (exponent_bits_per_sample info >? 0) && (num_color_channels info =? 3) in
    if is_gray then
      ({| num_channels := 1; data_type := JXL_TYPE_UINT16; align := 4 |},
       Format_Grayscale16, Format_Grayscale16)
    else if (bits_per_sample info >? 16) && is_fp then
      ({| num_channels := 4; data_type := JXL_TYPE_FLOAT; align := 4 |},
       Format_RGBA32FPx4,
       if loadalpha then Format_RGBA32FPx4 else Format_RGBX32FPx4)
    else
      ({| num_channels := 4;
          data_type := if is_fp then JXL_TYPE_FLOAT16 else JXL_TYPE_UINT16; align := 4 |},
       if is_fp then Format_RGBA16FPx4 else Format_RGBA64,
       if loadalpha then (if is_fp then Format_RGBA16FPx4 else Format_RGBA64)
       else (if is_fp then Format_RGBX16FPx4 else Format_RGBX64))
  else
    if is_gray then
      ({| num_channels := 1; data_type := JXL_TYPE_UINT8; align := 4 |},
       Format_Grayscale8, Format_Grayscale8)
    else if loadalpha then
      ({| num_channels := 4; data_type := JXL_TYPE_UINT8; align := 4 |},
       Format_RGBA8888, Format_ARGB32)
    else
      ({| num_channels := 3; data_type := JXL_TYPE_UINT8; align := 4 |},
       Format_RGB888, Format_RGB32).

Definition set_pixel_format_plan : M unit :=
  info <- gets m_basicinfo ;;
  let plan := plan_pixel_format info in
  modify (set_m_input_pixel_format (fst (fst plan))) ;;;
  modify (set_m_input_image_format (snd (fst plan))) ;;;
  modify (set_m_target_image_format (snd plan)).

(** The target colour space: structured sRGB, or the ICC profile. *)
Definition read_colorspace : M unit :=
  r <- dec_get JxlDecoderGetColorAsEncodedProfile ;;
  let color_encoding := snd r in
  if (fst r == JXL_DEC_SUCCESS) && (color_space color_encoding == JXL_COLOR_SPACE_RGB)
     && (white_point color_encoding == JXL_WHITE_POINT_D65)
     && (primaries color_encoding == JXL_PRIMARIES_SRGB)
     && (transfer_function color_encoding == JXL_TRANSFER_FUNCTION_SRGB)
  then modify (set_m_colorspace QColorSpace_SRgb)
  else
    r <- dec_get JxlDecoderGetICCProfileSize ;;
    if fst r == JXL_DEC_SUCCESS then
      if snd r >? 0 then
        icc <- dec_get (fun d => JxlDecoderGetColorAsICCProfile d (snd r)) ;;
        if fst icc == JXL_DEC_SUCCESS
        then modify (set_m_colorspace (QColorSpace_fromIccProfile (snd icc)))
        else ret tt
      else ret tt
    else ret tt.

(** The frame-counting loop of an animation: [true] when the loop is left
    (by [JXL_DEC_SUCCESS] or by [break]), [false] when the function returns
    from inside it. *)
Fixpoint count_frames (n : nat) : M bool :=
  match n with
  | O => undefined
  | S n' =>
      status <- dec_call JxlDecoderProcessInput ;;
      if status == JXL_DEC_SUCCESS then ret true else
      if status != JXL_DEC_FRAME then fail_error else
      r <- dec_get JxlDecoderGetFrameHeader ;;
      if fst r != JXL_DEC_SUCCESS then fail_error else
      let frame_header := snd r in
      info <- gets m_basicinfo ;;
      match frame_delay info frame_header with
      | None => undefined
      | Some delay =>
          delays <- gets m_framedelays ;;
          modify (set_m_framedelays (delays ++ [delay])) ;;;
          if is_last frame_header then ret true else count_frames n'
      end
  end.

Definition count_all : M bool :=
  info <- gets m_basicinfo ;;
  if have_animation info then
    left <- count_frames fuel ;;
    if negb left then ret false else
    delays <- gets m_framedelays ;;
    if bool_decide (delays = []) then fail_error else
    (if (Z.of_nat (length delays) =? 1)
     then modify (set_m_basicinfo (set_have_animation false info))
     else ret tt) ;;;
    ret true
  else
    delays <- gets m_framedelays ;;
    modify (set_m_framedelays (<[0%nat := 0]> (resize 1 0 delays))) ;;;
    ret true.

(** CMYK detection.  [find_alpha n alpha_index] is the inner search for the
    alpha channel over [n] further indices. *)
Fixpoint find_alpha (n : nat) (alpha_index : Z) : M (LoopExit bool) :=
  match n with
  | O => ret (Fallthrough false)
  | S n' =>
      r <- dec_get (fun d => JxlDecoderGetExtraChannelInfo d alpha_index) ;;
      if fst r != JXL_DEC_SUCCESS then
        b <- fail_error ;; ret (Returned b)
      else if snd r == JXL_CHANNEL_ALPHA then
        modify (set_m_alpha_channel_id alpha_index) ;;; ret (Fallthrough true)
      else find_alpha n' (alpha_index + 1)
  end.

Fixpoint scan_extra_channels (n : nat) (index : Z) (alpha_found : bool) : M bool :=
  match n with
  | O => ret true
  | S n' =>
      r <- dec_get (fun d => JxlDecoderGetExtraChannelInfo d index) ;;
      if fst r != JXL_DEC_SUCCESS then fail_error else
      if snd r == JXL_CHANNEL_BLACK then
        cs <- gets m_colorspace ;;
        info <- gets m_basicinfo ;;
        if cs_colorModel cs == ModelCmyk then
          modify (set_m_isCMYK true) ;;;
          modify (set_m_cmyk_channel_id index) ;;;
          if (alpha_bits info >? 0) && negb alpha_found then
            found <- find_alpha n' (index + 1) ;;
            match found with
            | Returned b => ret b
            | Fallthrough true => ret true
            | Fallthrough false => fail_error
            end
          else ret true
        else ret true
      else if (snd r == JXL_CHANNEL_ALPHA) && negb alpha_found then
        modify (set_m_alpha_channel_id index) ;;;
        scan_extra_channels n' (index + 1) true
      else scan_extra_channels n' (index + 1) alpha_found
  end.

Definition detect_cmyk : M bool :=
  if QT_VERSION_AT_LEAST_6_8_0 then
    info <- gets m_basicinfo ;;
    cs <- gets m_colorspace ;;
    if uses_original_profile info && (num_color_channels info =? 3) && cs_isValid cs then
      scan_extra_channels (Z.to_nat (num_extra_channels info)) 0 false
    else ret true
  else ret true.

(** *** rewind *)

Definition rewind : M bool :=
  modify (set_m_currentimage_index 0) ;;;
  dec_do JxlDecoderReleaseInput ;;;
  dec_do JxlDecoderRewind ;;;
  runner <- gets m_runner ;;
  runner_ok <-
    (if bool_decide (is_Some runner) then
       status <- dec_call (fun d => JxlDecoderSetParallelRunner d runner) ;;
       ret (status == JXL_DEC_SUCCESS)
     else ret true) ;;
  if negb runner_ok then fail_error else
  rawData <- gets m_rawData ;;
  status <- dec_call (fun d => JxlDecoderSetInput d rawData) ;;
  if status != JXL_DEC_SUCCESS then fail_error else
  dec_do JxlDecoderCloseInput ;;;
  info <- gets m_basicinfo ;;
  if negb (uses_original_profile info) && negb (have_animation info) then
    status <- dec_call (fun d => JxlDecoderSubscribeEvents d
                         (Z.lor EV_COLOR_ENCODING EV_FULL_IMAGE)) ;;
    if status != JXL_DEC_SUCCESS then fail_error else
    status <- dec_call JxlDecoderProcessInput ;;
    if status != JXL_DEC_COLOR_ENCODING then fail_error else
    (if JxlGetDefaultCms then
       status <- dec_call JxlDecoderSetCms ;; ret tt
     else ret tt) ;;;
    dec_do (fun d => JxlDecoderSetPreferredColorProfile d
                       (JxlColorEncodingSetToSRGB (is_gray_info info))) ;;;
    ret true
  else
    status <- dec_call (fun d => JxlDecoderSubscribeEvents d EV_FULL_IMAGE) ;;
    if status != JXL_DEC_SUCCESS then fail_error else
    ret true.

(** *** Container boxes

    The extraction buffer [output] is written by the decoder through a raw
    pointer; the handler itself only resizes it.  It is therefore kept as
    its size together with the bytes the decoder has put there. *)
Record BoxOutput := {
  out_size : Z;
  out_bytes : QByteArray
}.
Definition empty_box : BoxOutput := {| out_size := 0; out_bytes := [] |}.

Definition BOX_LIMIT : Z := 4194304.
Definition BOX_INCREMENT : Z := 16384.

(** The [do ... while (status == JXL_DEC_BOX_NEED_MORE_OUTPUT)] loop of
    [extractBox], on the current size of [output]; it leaves with the last
    status and the size reached, or returns [false]. *)
Fixpoint extract_loop (n : nat) (size : Z) : M (LoopExit (JxlDecoderStatus * Z)) :=
  match n with
  | O => undefined
  | S n' =>
      status <- dec_call JxlDecoderProcessInput ;;
      if status == JXL_DEC_BOX_NEED_MORE_OUTPUT then
        bytes_remains <- dec_call JxlDecoderReleaseBoxBuffer ;;
        if size >? BOX_LIMIT then
          b <- fail_error ;; ret (Returned b)
        else
          let size := size + BOX_INCREMENT in
          let extension_size := BOX_INCREMENT + bytes_remains in
          st <- dec_call (fun d => JxlDecoderSetBoxBuffer d extension_size) ;;
          if st != JXL_DEC_SUCCESS then
            b <- fail_error ;; ret (Returned b)
          else extract_loop n' size
      else ret (Fallthrough (status, size))
  end.

(** The loop cannot take more iterations than this: every iteration but the
    last one grows a buffer that was not above the limit. *)
Definition extract_bound (size : Z) : nat :=
  S (Z.to_nat ((BOX_LIMIT - size) / BOX_INCREMENT + 1)).

(** [extractBox(output, container_size)]: [None] when it returns [false],
    the extracted [output] when it returns [true]. *)
Definition extractBox (output : BoxOutput) (container_size : Z) : M (option BoxOutput) :=
  if JPEGXL_VERSION_AT_LEAST_0_11_0 then
    r <- dec_get JxlDecoderGetBoxSizeRaw ;;
    if fst r != JXL_DEC_SUCCESS then fail_error ;;; ret None else
    let rawboxsize := snd r in
    if rawboxsize >? container_size then fail_error ;;; ret None else
    status <- dec_call (fun d => JxlDecoderSetBoxBuffer d rawboxsize) ;;
    if status != JXL_DEC_SUCCESS then fail_error ;;; ret None else
    left <- extract_loop (extract_bound rawboxsize) rawboxsize ;;
    match left with
    | Returned _ => ret None
    | Fallthrough (status, size) =>
        if status != JXL_DEC_BOX_COMPLETE then fail_error ;;; ret None else
        unused_bytes <- dec_call JxlDecoderReleaseBoxBuffer ;;
        let size := Z.max 0 (size - unused_bytes) in
        bytes <- dec_get (fun d => JxlBoxBufferContents d size) ;;
        ret (Some {| out_size := size; out_bytes := bytes |})
    end
  else ret (Some output).

Definition box_Exif : list Z := [69; 120; 105; 102].
Definition box_xml : list Z := [120; 109; 108; 32].

(** The [while (search_exif || search_xmp)] loop of [decodeContainer]. *)
Fixpoint scan_boxes (n : nat) (len : Z) (search_exif search_xmp : bool)
    (exifBox xmpBox : BoxOutput) : M (LoopExit (BoxOutput * BoxOutput)) :=
  if negb (search_exif || search_xmp) then ret (Fallthrough (exifBox, xmpBox)) else
  match n with
  | O => undefined
  | S n' =>
      status <- dec_call JxlDecoderProcessInput ;;
      match status with
      | JXL_DEC_SUCCESS => scan_boxes n' len false false exifBox xmpBox
      | JXL_DEC_BOX =>
          r <- dec_get JxlDecoderGetBoxType ;;
          if fst r != JXL_DEC_SUCCESS then b <- fail_error ;; ret (Returned b) else
          let box_type := snd r in
          if bool_decide (box_type = box_Exif) && search_exif then
            o <- extractBox exifBox len ;;
            match o with
            | None => ret (Returned false)
            | Some exifBox => scan_boxes n' len false search_xmp exifBox xmpBox
            end
          else if bool_decide (box_type = box_xml) && search_xmp then
            o <- extractBox xmpBox len ;;
            match o with
            | None => ret (Returned false)
            | Some xmpBox => scan_boxes n' len search_exif false exifBox xmpBox
            end
          else scan_boxes n' len search_exif search_xmp exifBox xmpBox
      | _ => b <- fail_error ;; ret (Returned b)
      end
  end.

(** [QByteArray::indexOf] and [QByteArray::mid]. *)
Fixpoint indexOf_from (pat l : list Z) (i : Z) : Z :=
  match l with
  | [] => -1
  | _ :: l' => if bool_decide (take (length pat) l = pat) then i
               else indexOf_from pat l' (i + 1)
  end.
Definition indexOf (l pat : list Z) : Z := indexOf_from pat l 0.
Definition mid (l : list Z) (pos : Z) : list Z := drop (Z.to_nat pos) l.

Definition tiffHeaderBE : list Z := [77; 77; 0; 42].
Definition tiffHeaderLE : list Z := [73; 73; 42; 0].

Definition decodeContainer : M bool :=
  if JPEGXL_VERSION_AT_LEAST_0_11_0 then
    info <- gets m_basicinfo ;;
    if negb (have_container info) then ret true else
    buf <- gets m_rawData ;;
    let len := Z.of_nat (length buf) in
    if len =? 0 then fail_error else
    if JxlSignatureCheck buf != JXL_SIG_CONTAINER then ret true else
    dec_do JxlDecoderReleaseInput ;;;
    dec_do JxlDecoderRewind ;;;
    status <- dec_call (fun d => JxlDecoderSetInput d buf) ;;
    if status != JXL_DEC_SUCCESS then fail_error else
    dec_do JxlDecoderCloseInput ;;;
    status <- dec_call (fun d => JxlDecoderSetDecompressBoxes d true) ;;
    status <- dec_call (fun d => JxlDecoderSubscribeEvents d (Z.lor EV_BOX EV_BOX_COMPLETE)) ;;
    if status != JXL_DEC_SUCCESS then fail_error else
    left <- scan_boxes fuel len true true empty_box empty_box ;;
    match left with
    | Returned b => ret b
    | Fallthrough (exifBox, xmpBox) =>
        (if out_size xmpBox >? 0 then modify (set_m_xmp (out_bytes xmpBox)) else ret tt) ;;;
        (if out_size exifBox >? 4 then
           let headerindexBE := indexOf (out_bytes exifBox) tiffHeaderBE in
           let headerindexLE := indexOf (out_bytes exifBox) tiffHeaderLE in
           if headerindexLE != -1 then
             if headerindexBE == -1 then
               modify (set_m_exif (mid (out_bytes exifBox) headerindexLE))
             else
               modify (set_m_exif (mid (out_bytes exifBox)
                         (if headerindexLE <=? headerindexBE then headerindexLE
                          else headerindexBE)))
           else if headerindexBE != -1 then
             modify (set_m_exif (mid (out_bytes exifBox) headerindexBE))
           else ret tt
         else ret tt) ;;;
        ret true
    end
  else ret true.

(** *** countALLFrames and ensureALLCounted *)

Definition countALLFrames : M bool :=
  st <- gets m_parseState ;;
  if st != ParseJpegXLBasicInfoParsed then ret false else
  status <- dec_call JxlDecoderProcessInput ;;
  if status != JXL_DEC_COLOR_ENCODING then fail_error else
  request_srgb_output ;;;
  set_pixel_format_plan ;;;
  read_colorspace ;;;
  counted <- count_all ;;
  if negb counted then ret false else
  cmyk <- detect_cmyk ;;
  if negb cmyk then ret false else
  boxes <- (if JXL_DECODE_BOXES_DISABLED then ret true else decodeContainer) ;;
  if negb boxes then ret false else
  rewound <- rewind ;;
  if negb rewound then ret false else
  delays <- gets m_framedelays ;;
  match delays with
  | [] => undefined
  | d0 :: _ =>
      modify (set_m_next_image_delay d0) ;;;
      modify (set_m_parseState ParseJpegXLSuccess) ;;;
      ret true
  end.

Definition ensureALLCounted : M bool :=
  parsed <- ensureParsed ;;
  if negb parsed then ret false else
  st <- gets m_parseState ;;
  if (st == ParseJpegXLSuccess) || (st == ParseJpegXLFinished) then ret true else
  countALLFrames.

(** ** QJpegXLHandler: decoding a frame *)

(** Requests for pixel memory, counted in the ghost member [allocations]. *)
Definition alloc_image (w h : Z) (f : QImageFormat) : M QImage :=
  modify (fun s => set_allocations (S (allocations s)) s) ;;;
  ret (imageAlloc w h f).
Definition alloc_buffer (size : Z) : M bool :=
  modify (fun s => set_allocations (S (allocations s)) s) ;;;
  ret (malloc size).

(** The loops that fill a CMYK8888 image from the CMY and K planes, every
    byte inverted, and the loop that stores the alpha plane into an ARGB32
    image; [n] is the number of pixels. *)
Definition cmyk_interleave (n : nat) (src_CMY src_K : list Z) : list Z :=
  flat_map (fun i => [255 - nth (3 * i) src_CMY 0; 255 - nth (3 * i + 1) src_CMY 0;
                      255 - nth (3 * i + 2) src_CMY 0; 255 - nth i src_K 0])
           (seq 0 n).

Definition store_alpha (n : nat) (bits src_alpha : list Z) : list Z :=
  flat_map (fun i =>
      if Q_BYTE_ORDER_IS_LITTLE_ENDIAN
      then [nth (4 * i) bits 0; nth (4 * i + 1) bits 0; nth (4 * i + 2) bits 0;
            nth i src_alpha 0]
      else [nth i src_alpha 0; nth (4 * i + 1) bits 0; nth (4 * i + 2) bits 0;
            nth (4 * i + 3) bits 0])
    (seq 0 n).

Definition pixel_count (i : QImageData) : nat := Z.to_nat (img_height i * img_width i).

Definition format_cmy : JxlPixelFormat :=
  {| num_channels := 3; data_type := JXL_TYPE_UINT8; align := 0 |}.
Definition format_extra : JxlPixelFormat :=
  {| num_channels := 1; data_type := JXL_TYPE_UINT8; align := 0 |}.

(** The CMYK branch with an alpha channel. *)
Definition decode_cmyk_alpha : M bool :=
  info <- gets m_basicinfo ;;
  let extra_buffer_size := xsize info * ysize info in
  let cmy_buffer_size := extra_buffer_size * 3 in
  tmp <- alloc_image (xsize info) (ysize info) Format_CMYK8888 ;;
  match tmp with
  | None => fail_error
  | Some tmp_cmyk_image =>
  cs <- gets m_colorspace ;;
  let tmp_cmyk_image := setColorSpace cs tmp_cmyk_image in
  pixels_alpha <- alloc_buffer extra_buffer_size ;;
  if negb pixels_alpha then fail_error else
  pixels_cmy <- alloc_buffer cmy_buffer_size ;;
  if negb pixels_cmy then fail_error else
  pixels_black <- alloc_buffer extra_buffer_size ;;
  if negb pixels_black then fail_error else
  fmt <- gets m_input_pixel_format ;;
  cmyk_id <- gets m_cmyk_channel_id ;;
  alpha_id <- gets m_alpha_channel_id ;;
  status <- dec_call (fun d => JxlDecoderSetImageOutBuffer d fmt cmy_buffer_size) ;;
  if status != JXL_DEC_SUCCESS then fail_error else
  status <- dec_call (fun d => JxlDecoderSetExtraChannelBuffer d format_extra
                                 extra_buffer_size cmyk_id) ;;
  if status != JXL_DEC_SUCCESS then fail_error else
  status <- dec_call (fun d => JxlDecoderSetExtraChannelBuffer d format_extra
                                 extra_buffer_size alpha_id) ;;
  if status != JXL_DEC_SUCCESS then fail_error else
  status <- dec_call JxlDecoderProcessInput ;;
  if status != JXL_DEC_FULL_IMAGE then fail_error else
  src_CMY <- dec_get JxlImageOutContents ;;
  src_K <- dec_get (fun d => JxlExtraChannelContents d cmyk_id) ;;
  src_alpha <- dec_get (fun d => JxlExtraChannelContents d alpha_id) ;;
  let tmp_cmyk_image :=
    setBits (cmyk_interleave (pixel_count tmp_cmyk_image) src_CMY src_K) tmp_cmyk_image in
  modify (set_m_current_image
            (QImage_convertedToColorSpace tmp_cmyk_image QColorSpace_SRgb Format_ARGB32)) ;;;
  current <- gets m_current_image ;;
  match current with
  | None => fail_error
  | Some img =>
      modify (set_m_current_image
                (Some (setBits (store_alpha (pixel_count img) (img_bits img) src_alpha) img))) ;;;
      ret true
  end
  end.

(** The CMYK branch without alpha. *)
Definition decode_cmyk : M bool :=
  info <- gets m_basicinfo ;;
  let extra_buffer_size := xsize info * ysize info in
  let cmy_buffer_size := extra_buffer_size * 3 in
  img <- alloc_image (xsize info) (ysize info) Format_CMYK8888 ;;
  modify (set_m_current_image img) ;;;
  match img with
  | None => fail_error
  | Some img =>
  cs <- gets m_colorspace ;;
  let img := setColorSpace cs img in
  modify (set_m_current_image (Some img)) ;;;
  pixels_cmy <- alloc_buffer cmy_buffer_size ;;
  if negb pixels_cmy then fail_error else
  pixels_black <- alloc_buffer extra_buffer_size ;;
  if negb pixels_black then fail_error else
  fmt <- gets m_input_pixel_format ;;
  cmyk_id <- gets m_cmyk_channel_id ;;
  status <- dec_call (fun d => JxlDecoderSetImageOutBuffer d fmt cmy_buffer_size) ;;
  if status != JXL_DEC_SUCCESS then fail_error else
  status <- dec_call (fun d => JxlDecoderSetExtraChannelBuffer d format_extra
                                 extra_buffer_size cmyk_id) ;;
  if status != JXL_DEC_SUCCESS then fail_error else
  status <- dec_call JxlDecoderProcessInput ;;
  if status != JXL_DEC_FULL_IMAGE then fail_error else
  src_CMY <- dec_get JxlImageOutContents ;;
  src_K <- dec_get (fun d => JxlExtraChannelContents d cmyk_id) ;;
  modify (set_m_current_image
            (Some (setBits (cmyk_interleave (pixel_count img) src_CMY src_K) img))) ;;;
  ret true
  end.

(** The RGB and grayscale branch. *)
Definition decode_rgb : M bool :=
  info <- gets m_basicinfo ;;
  input_format <- gets m_input_image_format ;;
  img <- alloc_image (xsize info) (ysize info) input_format ;;
  modify (set_m_current_image img) ;;;
  match img with
  | None => fail_error
  | Some img =>
  cs <- gets m_colorspace ;;
  let img := setColorSpace cs img in
  modify (set_m_current_image (Some img)) ;;;
  fmt <- gets m_input_pixel_format ;;
  let fmt := {| num_channels := num_channels fmt; data_type := data_type fmt;
                align := img_bytesPerLine img |} in
  modify (set_m_input_pixel_format fmt) ;;;
  let rgb_buffer_size := (img_height img - 1) * img_bytesPerLine img in
  let rgb_buffer_size :=
    match data_type fmt with
    | JXL_TYPE_FLOAT => rgb_buffer_size + 4 * num_channels fmt * img_width img
    | JXL_TYPE_UINT8 => rgb_buffer_size + num_channels fmt * img_width img
    | JXL_TYPE_UINT16 | JXL_TYPE_FLOAT16 =>
        rgb_buffer_size + 2 * num_channels fmt * img_width img
    end in
  status <- dec_call (fun d => JxlDecoderSetImageOutBuffer d fmt rgb_buffer_size) ;;
  if status != JXL_DEC_SUCCESS then fail_error else
  status <- dec_call JxlDecoderProcessInput ;;
  if status != JXL_DEC_FULL_IMAGE then fail_error else
  bits <- dec_get JxlImageOutContents ;;
  let img := setBits bits img in
  target_format <- gets m_target_image_format ;;
  modify (set_m_current_image
            (Some (if target_format != input_format then QImage_convertTo img target_format
                   else img))) ;;;
  ret true
  end.

Definition META_KEY_XMP_ADOBE : string := "XML:com.adobe.xmp".

(** [m_current_image.f(...)] for a member function that edits the image;
    on a null image nothing happens. *)
Definition on_current_image (f : QImageData -> QImageData) : M unit :=
  modify (fun s => set_m_current_image (option_map f (m_current_image s)) s).

Definition decode_one_frame : M bool :=
  status <- dec_call JxlDecoderProcessInput ;;
  if status != JXL_DEC_NEED_IMAGE_OUT_BUFFER then fail_error else
  isCMYK <- gets m_isCMYK ;;
  info <- gets m_basicinfo ;;
  decoded <-
    (if isCMYK then
       if QT_VERSION_AT_LEAST_6_8_0 then
         modify (set_m_input_pixel_format format_cmy) ;;;
         if alpha_bits info >? 0 then decode_cmyk_alpha else decode_cmyk
       else fail_error
     else decode_rgb) ;;
  if negb decoded then ret false else
  xmp <- gets m_xmp ;;
  (if negb (bool_decide (xmp = [])) then on_current_image (setText META_KEY_XMP_ADOBE xmp)
   else ret tt) ;;;
  exif <- gets m_exif ;;
  (if negb (bool_decide (exif = [])) then on_current_image (MicroExif_updateImage exif)
   else ret tt) ;;;
  delays <- gets m_framedelays ;;
  index <- gets m_currentimage_index ;;
  if negb ((0 <=? index) && (index <? Z.of_nat (length delays))) then undefined else
  modify (set_m_next_image_delay (nth (Z.to_nat index) delays 0)) ;;;
  modify (set_m_previousimage_index index) ;;;
  if Z.of_nat (length delays) >? 1 then
    modify (set_m_currentimage_index (index + 1)) ;;;
    if index + 1 >=? Z.of_nat (length delays) then
      rewound <- rewind ;;
      if negb rewound then ret false else
      modify (set_m_parseState ParseJpegXLFinished) ;;;
      ret true
    else
      modify (set_m_parseState ParseJpegXLSuccess) ;;;
      ret true
  else
    modify (set_m_parseState ParseJpegXLFinished) ;;;
    ret true.

(** ** QJpegXLHandler: the entry points *)

Definition jumpToNextImage : M bool :=
  counted <- ensureALLCounted ;;
  if negb counted then ret false else
  delays <- gets m_framedelays ;;
  proceed <-
    (if Z.of_nat (length delays) >? 1 then
       index <- gets m_currentimage_index ;;
       modify (set_m_currentimage_index (index + 1)) ;;;
       if index + 1 >=? Z.of_nat (length delays) then rewind
       else dec_do (fun d => JxlDecoderSkipFrames d 1) ;;; ret true
     else ret true) ;;
  if negb proceed then ret false else
  modify (set_m_parseState ParseJpegXLSuccess) ;;;
  ret true.

(** [bool QJpegXLHandler::read(QImage *image)]: the returned value and the
    image behind the pointer after the call. *)
Definition read (image : QImage) : M (bool * QImage) :=
  counted <- ensureALLCounted ;;
  if negb counted then ret (false, image) else
  current <- gets m_currentimage_index ;;
  previous <- gets m_previousimage_index ;;
  if current =? previous then
    cached <- gets m_current_image ;;
    moved <- jumpToNextImage ;;
    ret (moved, cached)
  else
    decoded <- decode_one_frame ;;
    if decoded then
      img <- gets m_current_image ;;
      ret (true, img)
    else ret (false, image).

Definition jumpToImage (imageNumber : Z) : M bool :=
  counted <- ensureALLCounted ;;
  if negb counted then ret false else
  delays <- gets m_framedelays ;;
  if (imageNumber <? 0) || (imageNumber >=? Z.of_nat (length delays)) then ret false else
  index <- gets m_currentimage_index ;;
  if imageNumber =? index then
    modify (set_m_parseState ParseJpegXLSuccess) ;;; ret true
  else if imageNumber >? index then
    dec_do (fun d => JxlDecoderSkipFrames d (imageNumber - index)) ;;;
    modify (set_m_currentimage_index imageNumber) ;;;
    modify (set_m_parseState ParseJpegXLSuccess) ;;;
    ret true
  else
    rewound <- rewind ;;
    if negb rewound then ret false else
    (if imageNumber >? 0 then dec_do (fun d => JxlDecoderSkipFrames d imageNumber)
     else ret tt) ;;;
    modify (set_m_currentimage_index imageNumber) ;;;
    modify (set_m_parseState ParseJpegXLSuccess) ;;;
    ret true.

Definition imageCount : M Z :=
  parsed <- ensureParsed ;;
  if negb parsed then ret 0 else
  st <- gets m_parseState ;;
  info <- gets m_basicinfo ;;
  if (st == ParseJpegXLBasicInfoParsed) && negb (have_animation info) then ret 1 else
  counted <- (if st == ParseJpegXLBasicInfoParsed then ensureALLCounted else ret true) ;;
  if negb counted then ret 0 else
  delays <- gets m_framedelays ;;
  if negb (bool_decide (delays = [])) then ret (Z.of_nat (length delays)) else ret 0.

Definition currentImageNumber : M Z :=
  st <- gets m_parseState ;;
  d <- gets m_decoder ;;
  if st == ParseJpegXLNotParsed then ret (-1) else
  if (st == ParseJpegXLError) || (st == ParseJpegXLBasicInfoParsed)
     || negb (bool_decide (is_Some d)) then ret 0 else
  gets m_currentimage_index.

Definition nextImageDelay : M Z :=
  counted <- ensureALLCounted ;;
  if negb counted then ret 0 else
  delays <- gets m_framedelays ;;
  if Z.of_nat (length delays) <? 2 then ret 0 else
  gets m_next_image_delay.

(** [num_loops] is a [uint32_t]: in [(num_loops > 0) ? num_loops - 1 : -1]
    both branches are [unsigned int] values, and the [return] converts the
    result to [int]. *)
Definition uint32_of (x : Z) : Z := x mod 4294967296.
Definition int_of_uint32 (x : Z) : Z := if x <? 2147483648 then x else x - 4294967296.

Definition loopCount : M Z :=
  parsed <- ensureParsed ;;
  if negb parsed then ret 0 else
  info <- gets m_basicinfo ;;
  if have_animation info then
    ret (int_of_uint32
           (if num_loops (animation info) >? 0
            then uint32_of (num_loops (animation info) - 1) else uint32_of (-1)))
  else ret 0.

(** ** QJpegXLHandler: options *)

(** [QVariant::toInt]. *)
Definition toInt (v : QVariant) : Z :=
  match v with
  | VInt n => n
  | VBool b => if b then 1 else 0
  | _ => 0
  end.

Definition supportsOption (opt : ImageOption) : bool :=
  let supported := (opt == Quality) || (opt == Size) || (opt == Animation) in
  if JXL_QT_AUTOTRANSFORM then supported || (opt == ImageTransformation) else supported.

Definition setOption (opt : ImageOption) (value : QVariant) : M unit :=
  match opt with
  | Quality =>
      modify (set_m_quality (toInt value)) ;;;
      q <- gets m_quality ;;
      if q >? 100 then modify (set_m_quality 100)
      else if q <? 0 then modify (set_m_quality 90)
      else ret tt
  | ImageTransformation =>
      if JXL_QT_AUTOTRANSFORM then
        let t := toInt value in
        if t != 0 then
          if (t >? 0) && (t <? 8) then modify (set_m_transformations t) else ret tt
        else ret tt
      else ret tt
  | _ => ret tt
  end.

Definition transformation_of_orientation (o : JxlOrientation) : Z :=
  match o with
  | JXL_ORIENT_IDENTITY => TransformationNone
  | JXL_ORIENT_FLIP_HORIZONTAL => TransformationMirror
  | JXL_ORIENT_ROTATE_180 => TransformationRotate180
  | JXL_ORIENT_FLIP_VERTICAL => TransformationFlip
  | JXL_ORIENT_TRANSPOSE => TransformationFlipAndRotate90
  | JXL_ORIENT_ROTATE_90_CW => TransformationRotate90
  | JXL_ORIENT_ANTI_TRANSPOSE => TransformationMirrorAndRotate90
  | JXL_ORIENT_ROTATE_90_CCW => TransformationRotate270
  end.

(** [QVariant QJpegXLHandler::option(ImageOption option) const]; the name
    [option] is taken by the option type. *)
Definition handler_option (opt : ImageOption) : M QVariant :=
  if negb (supportsOption opt) then ret VInvalid else
  if opt == Quality then q <- gets m_quality ;; ret (VInt q) else
  parsed <- ensureParsed ;;
  if negb parsed then
    if JXL_QT_AUTOTRANSFORM && (opt == ImageTransformation)
    then t <- gets m_transformations ;; ret (VInt t)
    else ret VInvalid
  else
    info <- gets m_basicinfo ;;
    match opt with
    | Size => ret (VSize (xsize info) (ysize info))
    | Animation => ret (VBool (have_animation info))
    | ImageTransformation =>
        if JXL_QT_AUTOTRANSFORM
        then ret (VInt (transformation_of_orientation (orientation info)))
        else ret VInvalid
    | _ => ret VInvalid
    end.

(** ** QJpegXLHandler::write, up to the encoder's basic info

    The checks on the image, the creation of the encoder and its runner,
    the clamp of [m_quality] and the [output_info] that is built next
    (container flag, animation time base and orientation).  [None] when
    [write] has returned [false] by then. *)
Definition orientation_of_transformations (t : Z) : JxlOrientation :=
  if t =? TransformationMirror then JXL_ORIENT_FLIP_HORIZONTAL
  else if t =? TransformationRotate180 then JXL_ORIENT_ROTATE_180
  else if t =? TransformationFlip then JXL_ORIENT_FLIP_VERTICAL
  else if t =? TransformationFlipAndRotate90 then JXL_ORIENT_TRANSPOSE
  else if t =? TransformationRotate90 then JXL_ORIENT_ROTATE_90_CW
  else if t =? TransformationMirrorAndRotate90 then JXL_ORIENT_ANTI_TRANSPOSE
  else if t =? TransformationRotate270 then JXL_ORIENT_ROTATE_90_CCW
  else JXL_ORIENT_IDENTITY.

Definition write_output_info (image : QImage) : M (option JxlBasicInfo) :=
  match image with
  | None => ret None
  | Some img =>
  if img_format img == Format_Invalid then ret None else
  if (img_width img =? 0) || (img_height img =? 0) then ret None else
  if (img_width img >? MAX_IMAGE_WIDTH) || (img_height img >? MAX_IMAGE_HEIGHT)
  then ret None else
  let pixel_count := img_width img * img_height img in
  if negb (MAX_IMAGE_PIXELS =? 0) && (pixel_count >? MAX_IMAGE_PIXELS) then ret None else
  if negb JxlEncoderCreate then ret None else
  let num_worker_threads := qBound 1 QThread_idealThreadCount 64 in
  if (num_worker_threads >? 1) && negb (JxlEncoderSetParallelRunner num_worker_threads)
  then ret None else
  q <- gets m_quality ;;
  (if q >? 100 then modify (set_m_quality 100)
   else if q <? 0 then modify (set_m_quality 90)
   else ret tt) ;;;
  t <- gets m_transformations ;;
  let i := JxlEncoderInitBasicInfo in
  ret (Some
    {| have_container := true; xsize := xsize i; ysize := ysize i;
       bits_per_sample := bits_per_sample i;
       exponent_bits_per_sample := exponent_bits_per_sample i;
       uses_original_profile := uses_original_profile i;
       have_animation := have_animation i;
       orientation := orientation_of_transformations t;
       num_color_channels := num_color_channels i;
       num_extra_channels := num_extra_channels i; alpha_bits := alpha_bits i;
       animation := {| tps_numerator := 10; tps_denominator := 1;
                       num_loops := num_loops (animation i) |} |})
  end.

End JpegXL.

(** * The PFM reader (pfm.cpp) *)

Module PFM.

Inductive ByteOrder := BigEndian | LittleEndian.
Inductive Status := Ok | ReadPastEnd | ReadCorruptData | WriteFailed.

#[global] Instance Status_eq_dec : EqDecision Status.
Proof. solve_decision. Defined.

(** The Qt text and device functions the header parser relies on, and the
    allocation helper of [util_p.h]: [imageAlloc_RGBX32FPx4 w h] tells
    whether a [w] x [h] image of that format can be had, and [uninitialised]
    is what its memory holds before the reader writes to it. *)
Class Qt := {
  readLine : QIODevice -> Z -> QByteArray * QIODevice;
  toInt : QByteArray -> Z * bool;
  toDouble : QByteArray -> float * bool;
  imageAlloc_RGBX32FPx4 : Z -> Z -> bool;
  uninitialised : Z
}.

(** [QIODevice::read(maxSize)]. *)
Definition device_read (n : nat) (d : QIODevice) : QByteArray * QIODevice :=
  (take n d, drop n d).

(** [QString::split(QStringLiteral(" "))] on Latin-1 text. *)
Fixpoint split_from (cur : list Z) (l : list Z) : list (list Z) :=
  match l with
  | [] => [rev cur]
  | c :: l' => if c =? 32 then rev cur :: split_from [] l' else split_from (c :: cur) l'
  end.
Definition split (l : list Z) : list (list Z) := split_from [] l.

Record PFMHeader := {
  m_bw : bool;
  m_ps : bool;
  m_width : Z;
  m_height : Z;
  m_byteOrder : ByteOrder
}.

Definition PFMHeader_new : PFMHeader :=
  {| m_bw := false; m_ps := false; m_width := 0; m_height := 0; m_byteOrder := BigEndian |}.

Definition isValid (h : PFMHeader) : bool := (m_width h >? 0) && (m_height h >? 0).
Definition isBlackAndWhite (h : PFMHeader) : bool := m_bw h.
Definition isPhotoshop (h : PFMHeader) : bool := m_ps h.
Definition width (h : PFMHeader) : Z := m_width h.
Definition height (h : PFMHeader) : Z := m_height h.
Definition byteOrder (h : PFMHeader) : ByteOrder := m_byteOrder h.

(** A [QImage] of format [Format_RGBX32FPx4] seen through
    [reinterpret_cast<float *>(img.scanLine(y))]: every scanline is a list
    of [4 * width] floats.  A float is kept as its 32-bit pattern, which is
    all the reader does with it. *)
Inductive ColorSpaceName := NoColorSpace | SRgbLinear.
Record FloatImage := {
  fi_width : Z;
  fi_height : Z;
  fi_lines : list (list Z);
  fi_colorSpace : ColorSpaceName
}.

(** [float(1)]. *)
Definition float_one : Z := 0x3F800000.

Definition PF_color : list Z := [80; 70; 10].
Definition PF_gray : list Z := [80; 102; 10].

(** [QDataStream] over the device: the bytes left, the status and the byte order. *)
Record QDataStream := {
  ds_device : QIODevice;
  ds_status : Status;
  ds_byteOrder : ByteOrder
}.

Definition float_of_bytes (o : ByteOrder) (b0 b1 b2 b3 : Z) : Z :=
  match o with
  | BigEndian => Z.lor (Z.shiftl b0 24) (Z.lor (Z.shiftl b1 16) (Z.lor (Z.shiftl b2 8) b3))
  | LittleEndian => Z.lor (Z.shiftl b3 24) (Z.lor (Z.shiftl b2 16) (Z.lor (Z.shiftl b1 8) b0))
  end.

(** [s >> f] for a single-precision [f]: four bytes in the stream's byte
    order; a short read yields [0.0f] and latches [ReadPastEnd]. *)
Definition read_float (s : QDataStream) : Z * QDataStream :=
  match ds_device s with
  | b0 :: b1 :: b2 :: b3 :: rest =>
      (float_of_bytes (ds_byteOrder s) b0 b1 b2 b3,
       {| ds_device := rest; ds_status := ds_status s; ds_byteOrder := ds_byteOrder s |})
  | _ =>
      (0, {| ds_device := [];
             ds_status := if ds_status s == Ok then ReadPastEnd else ds_status s;
             ds_byteOrder := ds_byteOrder s |})
  end.

Section Reader.
Context `{Qt}.

Definition format (h : PFMHeader) : QImageFormat :=
  if isValid h then Format_RGBX32FPx4 else Format_Invalid.

(** [bool PFMHeader::read(QIODevice *d)]: the result, the header and the
    device after the call. *)
Definition read_header (h : PFMHeader) (d : QIODevice) : bool * PFMHeader * QIODevice :=
  let (pf, d) := device_read 3 d in
  let with_bw (bw : bool) :=
    let h := {| m_bw := bw; m_ps := m_ps h; m_width := m_width h; m_height := m_height h;
                m_byteOrder := m_byteOrder h |} in
    let (wh, d) := readLine d 128 in
    let list := split wh in
    let '(h, list, d) :=
      if Z.of_nat (length list) =? 1 then
        let (line, d) := readLine d 128 in
        ({| m_bw := m_bw h; m_ps := true; m_width := m_width h; m_height := m_height h;
            m_byteOrder := m_byteOrder h |}, list ++ [line], d)
      else (h, list, d) in
    if negb (Z.of_nat (length list) =? 2) then (false, h, d) else
    let (oline, d) := readLine d 128 in
    let (o, ok_o) := toDouble oline in
    let (w, ok_w) := toInt (List.hd [] list) in
    let (ht, ok_h) := toInt (List.last list []) in
    if negb ok_o || negb ok_w || negb ok_h || PrimFloat.eqb o 0%float then (false, h, d) else
    let h := {| m_bw := m_bw h; m_ps := m_ps h; m_width := w; m_height := ht;
                m_byteOrder := if PrimFloat.ltb 0%float o then BigEndian else LittleEndian |} in
    (isValid h, h, d) in
  if bool_decide (pf = PF_color) then with_bw false
  else if bool_decide (pf = PF_gray) then with_bw true
  else (false, h, d).

(** [bool PFMHeader::peek(QIODevice *d)]: the transaction is rolled back,
    so the device is as before. *)
Definition peek_header (h : PFMHeader) (d : QIODevice) : bool * PFMHeader * QIODevice :=
  let '(ok, h, _) := read_header h d in (ok, h, d).

(** [static bool PFMHandler::canRead(QIODevice *device)]. *)
Definition canRead (device : option QIODevice) : bool * option QIODevice :=
  match device with
  | None => (false, None)
  | Some d =>
      let '(ok, h, d) := peek_header PFMHeader_new d in
      if negb ok then (false, Some d) else (isValid h, Some d)
  end.

(** The inner loop of [PFMHandler::read] over the [count] pixels of a
    scanline that are left, the next one at float index [x]; no scanline
    comes back when the stream status is no longer [Ok] after a pixel. *)
Fixpoint read_pixels (count : nat) (x : nat) (bw : bool) (line : list Z) (s : QDataStream)
  : option (list Z) * QDataStream :=
  match count with
  | O => (Some line, s)
  | S count' =>
      let line := <[(x + 3)%nat := float_one]> line in
      let (v, s) := read_float s in
      let line := <[x := v]> line in
      let (line, s) :=
        if bw then
          let line := <[(x + 1)%nat := nth x line 0]> line in
          let line := <[(x + 2)%nat := nth x line 0]> line in
          (line, s)
        else
          let (v1, s) := read_float s in
          let line := <[(x + 1)%nat := v1]> line in
          let (v2, s) := read_float s in
          let line := <[(x + 2)%nat := v2]> line in
          (line, s) in
      if ds_status s != Ok then (None, s) else read_pixels count' (x + 4) bw line s
  end.

(** The outer loop over the [count] rows that are left, the next one being
    row [y] of the data; [h] and [w] are the image's height and width. *)
Fixpoint read_rows (count : nat) (y : nat) (h w : nat) (hdr : PFMHeader)
    (lines : list (list Z)) (s : QDataStream) : option (list (list Z)) * QDataStream :=
  match count with
  | O => (Some lines, s)
  | S count' =>
      let bw := isBlackAndWhite hdr in
      let index := if isPhotoshop hdr then y else (h - y - 1)%nat in
      match read_pixels w 0 bw (nth index lines []) s with
      | (None, s) => (None, s)
      | (Some line, s) => read_rows count' (S y) h w hdr (<[index := line]> lines) s
      end
  end.

(** [imageAlloc(header.size(), header.format())]. *)
Definition imageAlloc (hdr : PFMHeader) : option FloatImage :=
  if (format hdr == Format_RGBX32FPx4) && imageAlloc_RGBX32FPx4 (width hdr) (height hdr) then
    Some {| fi_width := width hdr; fi_height := height hdr;
            fi_lines := replicate (Z.to_nat (height hdr))
                          (replicate (4 * Z.to_nat (width hdr)) uninitialised);
            fi_colorSpace := NoColorSpace |}
  else None.

(** [bool PFMHandler::read(QImage *image)] on the handler's header and
    device: the result, the image behind the pointer, the header and the
    device after the call. *)
Definition read (hdr : PFMHeader) (d : QIODevice) (image : option FloatImage)
  : bool * option FloatImage * PFMHeader * QIODevice :=
  let '(ok, hdr, d) := read_header hdr d in
  if negb ok then (false, image, hdr, d) else
  let s := {| ds_device := d; ds_status := Ok; ds_byteOrder := byteOrder hdr |} in
  match imageAlloc hdr with
  | None => (false, image, hdr, d)
  | Some img =>
      let h := Z.to_nat (fi_height img) in
      let w := Z.to_nat (fi_width img) in
      match read_rows h 0 h w hdr (fi_lines img) s with
      | (None, s) => (false, image, hdr, ds_device s)
      | (Some lines, s) =>
          (true,
           Some {| fi_width := fi_width img; fi_height := fi_height img; fi_lines := lines;
                   fi_colorSpace := SRgbLinear |},
           hdr, ds_device s)
      end
  end.

End Reader.

End PFM.

(** * A scripted decoder

    An instance of the collaborators for running the handler on concrete
    inputs: the decoder answers [JxlDecoderProcessInput] with the next
    status of a script chosen by the last subscription, and reports the
    frame headers, box sizes and channel types of a [Scenario]. *)
Module Script.

Record Scenario := {
  sc_pointer_size : Z;
  sc_signature : JxlSignature;
  sc_info : JxlBasicInfo;
  sc_events : Z -> list JxlDecoderStatus;
  sc_frames : list JxlFrameHeader;
  sc_extra_channels : list JxlExtraChannelType;
  sc_box_type : list Z;
  sc_box_size_raw : Z;
  sc_box_unused : Z
}.

Record ScriptDec := {
  pending : list JxlDecoderStatus;
  frames : list JxlFrameHeader;
  current_frame : JxlFrameHeader;
  images_done : Z
}.

Definition no_frame : JxlFrameHeader := {| duration := 0; is_last := false |}.

Definition process (d : ScriptDec) : JxlDecoderStatus * ScriptDec :=
  match pending d with
  | [] => (JXL_DEC_SUCCESS, d)
  | JXL_DEC_FRAME :: rest =>
      (JXL_DEC_FRAME,
       {| pending := rest; frames := tl (frames d);
          current_frame := List.hd no_frame (frames d); images_done := images_done d |})
  | JXL_DEC_FULL_IMAGE :: rest =>
      (JXL_DEC_FULL_IMAGE,
       {| pending := rest; frames := frames d; current_frame := current_frame d;
          images_done := images_done d + 1 |})
  | e :: rest =>
      (e, {| pending := rest; frames := frames d; current_frame := current_frame d;
             images_done := images_done d |})
  end.

Definition with_pending (l : list JxlDecoderStatus) (d : ScriptDec) : ScriptDec :=
  {| pending := l; frames := frames d; current_frame := current_frame d;
     images_done := images_done d |}.

Definition srgb (gray : bool) : JxlColorEncoding :=
  {| color_space := if gray then JXL_COLOR_SPACE_GRAY else JXL_COLOR_SPACE_RGB;
     white_point := JXL_WHITE_POINT_D65; primaries := JXL_PRIMARIES_SRGB;
     transfer_function := JXL_TRANSFER_FUNCTION_SRGB |}.

Definition image_of (w h : Z) (f : QImageFormat) : QImageData :=
  {| img_format := f; img_width := w; img_height := h; img_bytesPerLine := 4 * w;
     img_bits := []; img_colorSpace := QColorSpace_default; img_text := [] |}.

Definition convert (i : QImageData) (f : QImageFormat) : QImageData :=
  {| img_format := f; img_width := img_width i; img_height := img_height i;
     img_bytesPerLine := img_bytesPerLine i; img_bits := img_bits i;
     img_colorSpace := img_colorSpace i; img_text := img_text i |}.

Definition sRgb : QColorSpace :=
  {| cs_isValid := true; cs_colorModel := ModelRgb; cs_iccProfile := [] |}.

Definition env (sc : Scenario) : Env :=
  {| Dec := ScriptDec;
     QT_POINTER_SIZE := sc_pointer_size sc;
     JXL_QT_AUTOTRANSFORM := true;
     JXL_HDR_PRESERVATION_DISABLED := false;
     JXL_DECODE_BOXES_DISABLED := false;
     QT_VERSION_AT_LEAST_6_8_0 := true;
     JPEGXL_VERSION_AT_LEAST_0_11_0 := true;
     Q_BYTE_ORDER_IS_LITTLE_ENDIAN := true;
     JxlSignatureCheck := fun _ => sc_signature sc;
     JxlDecoderCreate :=
       Some {| pending := []; frames := sc_frames sc; current_frame := no_frame;
               images_done := 0 |};
     JxlDecoderSetKeepOrientation := fun d _ => d;
     JxlThreadParallelRunnerCreate := fun _ => true;
     JxlDecoderSetParallelRunner := fun d _ => (JXL_DEC_SUCCESS, d);
     JxlDecoderSetInput := fun d _ => (JXL_DEC_SUCCESS, d);
     JxlDecoderCloseInput := fun d => d;
     JxlDecoderReleaseInput := fun d => d;
     JxlDecoderRewind := fun d =>
       {| pending := []; frames := sc_frames sc; current_frame := no_frame;
          images_done := 0 |};
     JxlDecoderSkipFrames := fun d n =>
       {| pending := drop (2 * Z.to_nat n) (pending d); frames := frames d;
          current_frame := current_frame d; images_done := images_done d + n |};
     JxlDecoderSubscribeEvents := fun d mask => (JXL_DEC_SUCCESS, with_pending (sc_events sc mask) d);
     JxlDecoderProcessInput := process;
     JxlDecoderGetBasicInfo := fun _ => (JXL_DEC_SUCCESS, sc_info sc);
     JxlDecoderGetFrameHeader := fun d => (JXL_DEC_SUCCESS, current_frame d);
     JxlDecoderGetExtraChannelInfo := fun _ i =>
       (JXL_DEC_SUCCESS, nth (Z.to_nat i) (sc_extra_channels sc) JXL_CHANNEL_UNKNOWN);
     JxlGetDefaultCms := true;
     JxlDecoderSetCms := fun d => (JXL_DEC_SUCCESS, d);
     JxlColorEncodingSetToSRGB := srgb;
     JxlDecoderSetPreferredColorProfile := fun d _ => d;
     JxlDecoderGetColorAsEncodedProfile := fun _ => (JXL_DEC_SUCCESS, srgb false);
     JxlDecoderGetICCProfileSize := fun _ => (JXL_DEC_ERROR, 0);
     JxlDecoderGetColorAsICCProfile := fun _ _ => (JXL_DEC_ERROR, []);
     JxlDecoderSetDecompressBoxes := fun d _ => (JXL_DEC_SUCCESS, d);
     JxlDecoderGetBoxType := fun _ => (JXL_DEC_SUCCESS, sc_box_type sc);
     JxlDecoderGetBoxSizeRaw := fun _ => (JXL_DEC_SUCCESS, sc_box_size_raw sc);
     JxlDecoderSetBoxBuffer := fun d _ => (JXL_DEC_SUCCESS, d);
     JxlDecoderReleaseBoxBuffer := fun d => (sc_box_unused sc, d);
     JxlBoxBufferContents := fun _ _ => [];
     JxlDecoderSetImageOutBuffer := fun d _ _ => (JXL_DEC_SUCCESS, d);
     JxlDecoderSetExtraChannelBuffer := fun d _ _ _ => (JXL_DEC_SUCCESS, d);
     JxlImageOutContents := fun d => [images_done d];
     JxlExtraChannelContents := fun _ _ => [];
     JxlEncoderCreate := true;
     JxlEncoderSetParallelRunner := fun _ => true;
     JxlEncoderInitBasicInfo := sc_info sc;
     QThread_idealThreadCount := 8;
     imageAlloc := fun w h f => Some (image_of w h f);
     malloc := fun _ => true;
     QColorSpace_SRgb := sRgb;
     QColorSpace_fromIccProfile := fun _ => QColorSpace_default;
     QImage_convertTo := convert;
     QImage_convertedToColorSpace := fun i _ f => Some (convert i f);
     MicroExif_updateImage := fun _ i => i |}.

Definition info_of (w h : Z) (animated : bool) (num den : Z) : JxlBasicInfo :=
  {| have_container := false; xsize := w; ysize := h; bits_per_sample := 8;
     exponent_bits_per_sample := 0; uses_original_profile := false;
     have_animation := animated; orientation := JXL_ORIENT_IDENTITY;
     num_color_channels := 3; num_extra_channels := 0; alpha_bits := 0;
     animation := {| tps_numerator := num; tps_denominator := den; num_loops := 0 |} |}.

Definition uninit_format : JxlPixelFormat :=
  {| num_channels := 0; data_type := JXL_TYPE_FLOAT; align := 0 |}.

(** The events of a codestream with the frames [fs]: what a first pass
    (basic info, colour encoding, frames) and a decoding pass report. *)
Definition events_of (animated : bool) (fs : list JxlFrameHeader) (mask : Z)
  : list JxlDecoderStatus :=
  if mask =? Z.lor (Z.lor EV_BASIC_INFO EV_COLOR_ENCODING) EV_FRAME then
    [JXL_DEC_BASIC_INFO; JXL_DEC_COLOR_ENCODING] ++ map (fun _ => JXL_DEC_FRAME) fs
  else if mask =? Z.lor EV_COLOR_ENCODING EV_FULL_IMAGE then
    JXL_DEC_COLOR_ENCODING
      :: flat_map (fun _ => [JXL_DEC_NEED_IMAGE_OUT_BUFFER; JXL_DEC_FULL_IMAGE]) fs
  else if mask =? EV_FULL_IMAGE then
    flat_map (fun _ => [JXL_DEC_NEED_IMAGE_OUT_BUFFER; JXL_DEC_FULL_IMAGE]) fs
  else [].

Definition scenario (pointer_size w h : Z) (animated : bool) (num den : Z)
    (fs : list JxlFrameHeader) : Scenario :=
  {| sc_pointer_size := pointer_size; sc_signature := JXL_SIG_CODESTREAM;
     sc_info := info_of w h animated num den;
     sc_events := events_of animated fs; sc_frames := fs;
     sc_extra_channels := []; sc_box_type := []; sc_box_size_raw := 0;
     sc_box_unused := 0 |}.

Definition codestream : QByteArray := [255; 10; 0; 0; 0; 0; 0; 0; 0; 0; 0; 0].

(** A fresh handler on a device that holds [codestream]. *)
Definition fresh (sc : Scenario) : @Handler (env sc) :=
  @QJpegXLHandler (env sc) (sc_info sc) uninit_format (Some codestream).

End Script.

(** ** Scripted inputs *)

(** A 4 x 2 still image. *)
Definition still_image : Script.Scenario :=
  Script.scenario 8 4 2 false 0 0 [ {| duration := 0; is_last := true |} ].

(** The animation of three frames lasting 100, 200 and 300 ticks of 1 ms. *)
Definition three_frames : list JxlFrameHeader :=
  [ {| duration := 100; is_last := false |}; {| duration := 200; is_last := false |};
    {| duration := 300; is_last := true |} ].
Definition animation_3 : Script.Scenario := Script.scenario 8 4 2 true 1000 1 three_frames.

(** A file marked as an animation that holds one frame of 100 ms. *)
Definition animation_1 : Script.Scenario :=
  Script.scenario 8 4 2 true 1000 1 [ {| duration := 100; is_last := true |} ].


(** Images of 32768 x 32768 and of 300000 x 10 pixels on a 64-bit host. *)
Definition many_pixels : Script.Scenario :=
  Script.scenario 8 32768 32768 false 0 0 [ {| duration := 0; is_last := true |} ].
Definition too_wide : Script.Scenario :=
  Script.scenario 8 300000 10 false 0 0 [ {| duration := 0; is_last := true |} ].

(** A handler after [c] has run on it (the handler itself if [c] has no result). *)
Definition after {E : Env} {A} (c : M A) (h : Handler) : Handler :=
  match c h with
  | Some (_, h') => h'
  | None => h
  end.

(** A decoder in the middle of a scripted run. *)
Definition decoder_with (events : list JxlDecoderStatus) (fs : list JxlFrameHeader)
  : Script.ScriptDec :=
  {| Script.pending := events; Script.frames := fs; Script.current_frame := Script.no_frame;
     Script.images_done := 0 |}.

(** A box of 100 raw bytes whose payload needs [grow] more buffers of
    16 KiB and leaves 50 bytes of the last one unused. *)
Definition box_scenario : Script.Scenario :=
  {| Script.sc_pointer_size := 8; Script.sc_signature := JXL_SIG_CONTAINER;
     Script.sc_info := Script.info_of 4 2 false 0 0;
     Script.sc_events := fun _ => []; Script.sc_frames := [];
     Script.sc_extra_channels := []; Script.sc_box_type := box_Exif;
     Script.sc_box_size_raw := 100; Script.sc_box_unused := 50 |}.
Definition box_handler (grow : nat) : @Handler (Script.env box_scenario) :=
  @set_m_decoder (Script.env box_scenario)
    (Some (decoder_with (replicate grow JXL_DEC_BOX_NEED_MORE_OUTPUT ++ [JXL_DEC_BOX_COMPLETE]) []))
    (Script.fresh box_scenario).

(** A box of 4190000 raw bytes in a container of 5000000 bytes, whose
    payload needs [grow] more buffers of 16 KiB and fills the last one. *)
Definition big_box_scenario : Script.Scenario :=
  {| Script.sc_pointer_size := 8; Script.sc_signature := JXL_SIG_CONTAINER;
     Script.sc_info := Script.info_of 4 2 false 0 0;
     Script.sc_events := fun _ => []; Script.sc_frames := [];
     Script.sc_extra_channels := []; Script.sc_box_type := box_Exif;
     Script.sc_box_size_raw := 4190000; Script.sc_box_unused := 0 |}.
Definition big_box_decoder (grow : nat) : Script.ScriptDec :=
  decoder_with (replicate grow JXL_DEC_BOX_NEED_MORE_OUTPUT ++ [JXL_DEC_BOX_COMPLETE]) [].
Definition big_box_handler (grow : nat) : @Handler (Script.env big_box_scenario) :=
  @set_m_decoder (Script.env big_box_scenario) (Some (big_box_decoder grow))
    (Script.fresh big_box_scenario).

(** Stand-ins for the Qt text functions on the PFM headers used below:
    a line ends after its first newline, an integer is a run of decimal
    digits, and of a number only the sign is looked at. *)
Fixpoint line_end (l : list Z) : nat :=
  match l with
  | [] => 0
  | c :: l' => if c =? 10 then 1 else S (line_end l')
  end.
Fixpoint decimal (acc : Z) (seen : bool) (l : list Z) : Z * bool :=
  match l with
  | c :: l' => if (48 <=? c) && (c <=? 57) then decimal (10 * acc + (c - 48)) true l'
               else (acc, seen)
  | [] => (acc, seen)
  end.
Definition plain_qt : PFM.Qt :=
  {| PFM.readLine := fun d _ => (take (line_end d) d, drop (line_end d) d);
     PFM.toInt := decimal 0 false;
     PFM.toDouble := fun l =>
       match l with
       | [] => (0%float, false)
       | 45 :: _ => ((-1)%float, true)
       | _ => (1%float, true)
       end;
     PFM.imageAlloc_RGBX32FPx4 := fun _ _ => true;
     PFM.uninitialised := 0 |}.

(** ["PF\n1 2\n-1.0\n"] followed by the little-endian floats 1.0 to 6.0:
    a colour image one pixel wide and two pixels high, GIMP variant. *)
Definition pfm_header_bytes : list Z := [80; 70; 10; 49; 32; 50; 10; 45; 49; 46; 48; 10].
Definition pfm_data_bytes : list Z :=
  [0; 0; 128; 63; 0; 0; 0; 64; 0; 0; 64; 64; 0; 0; 128; 64; 0; 0; 160; 64; 0; 0; 192; 64].
Definition pfm_parsed_header : PFM.PFMHeader :=
  {| PFM.m_bw := false; PFM.m_ps := false; PFM.m_width := 1; PFM.m_height := 2;
     PFM.m_byteOrder := PFM.LittleEndian |}.

(** A 4 x 2 image and one of 32768 x 32768 pixels to write. *)
Definition small_image : QImageData := Script.image_of 4 2 Format_RGB32.
Definition huge_image : QImageData := Script.image_of 32768 32768 Format_RGB32.

(** Handlers along scripted runs. *)
Definition still_read : @Handler (Script.env still_image) :=
  after (read 10 None) (Script.fresh still_image).
(** The three-frame animation after frame 0 has been read and the cursor
    has been put back on it. *)
Definition animation_3_back : @Handler (Script.env animation_3) :=
  after (jumpToImage 10 0) (after (read 10 None) (Script.fresh animation_3)).
Definition rotated_180 : @Handler (Script.env still_image) :=
  after (setOption ImageTransformation (VInt 3)) (Script.fresh still_image).
Definition animation_3_parsed : @Handler (Script.env animation_3) :=
  after (dec_call JxlDecoderProcessInput) (after ensureParsed (Script.fresh animation_3)).
Definition animation_1_parsed : @Handler (Script.env animation_1) :=
  after ensureParsed (Script.fresh animation_1).
Definition animation_1_counted : @Handler (Script.env animation_1) :=
  after (countALLFrames 10) animation_1_parsed.
(** A handler on an empty device, one on a file that is not JPEG XL, and a
    handler left in the error state by an image that is too wide. *)
Definition empty_device : @Handler (Script.env still_image) :=
  @QJpegXLHandler (Script.env still_image) (Script.sc_info still_image)
    Script.uninit_format (Some []).
Definition not_jxl : Script.Scenario :=
  {| Script.sc_pointer_size := 8; Script.sc_signature := JXL_SIG_INVALID;
     Script.sc_info := Script.info_of 4 2 false 0 0;
     Script.sc_events := fun _ => []; Script.sc_frames := [];
     Script.sc_extra_channels := []; Script.sc_box_type := [];
     Script.sc_box_size_raw := 0; Script.sc_box_unused := 0 |}.
Definition png_bytes : QByteArray := [137; 80; 78; 71; 13; 10; 26; 10; 0; 0; 0; 13].
Definition png_device : @Handler (Script.env not_jxl) :=
  @QJpegXLHandler (Script.env not_jxl) (Script.sc_info not_jxl)
    Script.uninit_format (Some png_bytes).
Definition too_wide_failed : @Handler (Script.env too_wide) :=
  after ensureParsed (Script.fresh too_wide).
(** The three-frame animation, told to play [n] times. *)
Definition set_num_loops (n : Z) (info : JxlBasicInfo) : JxlBasicInfo :=
  {| have_container := have_container info; xsize := xsize info; ysize := ysize info;
     bits_per_sample := bits_per_sample info;
     exponent_bits_per_sample := exponent_bits_per_sample info;
     uses_original_profile := uses_original_profile info;
     have_animation := have_animation info; orientation := orientation info;
     num_color_channels := num_color_channels info;
     num_extra_channels := num_extra_channels info; alpha_bits := alpha_bits info;
     animation := {| tps_numerator := tps_numerator (animation info);
                     tps_denominator := tps_denominator (animation info);
                     num_loops := n |} |}.
Definition animation_3_played (n : Z) : @Handler (Script.env animation_3) :=
  @set_m_basicinfo (Script.env animation_3)
    (set_num_loops n (m_basicinfo animation_3_parsed)) animation_3_parsed.

(** The PFM file above without its last float. *)
Definition pfm_short_file : list Z := pfm_header_bytes ++ take 20 pfm_data_bytes.


(** * Notions used in the statements *)

(** The orientation code that belongs to a transformation value. *)
Definition orientation_code (v : Z) : JxlOrientation :=
  nth (Z.to_nat v)
    [JXL_ORIENT_IDENTITY; JXL_ORIENT_FLIP_HORIZONTAL; JXL_ORIENT_FLIP_VERTICAL;
     JXL_ORIENT_ROTATE_180; JXL_ORIENT_ROTATE_90_CW; JXL_ORIENT_ANTI_TRANSPOSE;
     JXL_ORIENT_TRANSPOSE; JXL_ORIENT_ROTATE_90_CCW]
    JXL_ORIENT_IDENTITY.

(** The member functions as operations on a handler, results dropped:
    the public ones and the private ones they are made of. *)
Inductive Call :=
| CallCanRead | CallRead (image : QImage) | CallWrite (image : QImage)
| CallJumpToNextImage | CallJumpToImage (imageNumber : Z)
| CallImageCount | CallCurrentImageNumber | CallNextImageDelay | CallLoopCount
| CallOption (opt : ImageOption) | CallSetOption (opt : ImageOption) (value : QVariant)
| CallEnsureParsed | CallEnsureALLCounted | CallDecodeOneFrame | CallRewind.

Section Notions.
Context `{Env}.
Variable fuel : nat.
Local Open Scope m_scope.

(** ** Reasoning about calls

    [preserves I c]: whenever [c] runs to a result from a handler that
    satisfies [I], the handler it leaves satisfies [I] too. *)
Definition preserves (I : Handler -> Prop) {A} (c : M A) : Prop :=
  forall h a h', I h -> c h = Some (a, h') -> I h'.

(** [results c Q]: every result [a] of [c], with the handler [h'] it leaves,
    satisfies [Q a h']. *)
Definition results {A} (c : M A) (Q : A -> Handler -> Prop) : Prop :=
  forall h a h', c h = Some (a, h') -> Q a h'.

(** [runs I c]: from every handler that satisfies [I], [c] has a result and
    leaves a handler that satisfies [I]. *)
Definition runs (I : Handler -> Prop) {A} (c : M A) : Prop :=
  forall h, I h -> exists a h', c h = Some (a, h') /\ I h'.

(** [wp c Q h]: from [h], the call [c] has a result, and the result and the
    handler it leaves satisfy [Q]. *)
Definition wp {A} (c : M A) (Q : A -> Handler -> Prop) (h : Handler) : Prop :=
  match c h with
  | Some (a, h') => Q a h'
  | None => False
  end.

(** [wlp c Q h]: whatever result [c] has from [h], the result and the
    handler it leaves satisfy [Q] (nothing is said when [c] has none). *)
Definition wlp {A} (c : M A) (Q : A -> Handler -> Prop) (h : Handler) : Prop :=
  forall a h', c h = Some (a, h') -> Q a h'.

(** ** Invariants of seeking and decoding *)

(** The states in which ensureALLCounted has nothing left to do or to try. *)
Definition settled (st : ParseJpegXLState) : Prop :=
  st = ParseJpegXLSuccess \/ st = ParseJpegXLFinished \/ st = ParseJpegXLError.

(** An invariant that holds only in settled states and does not depend on
    the members that seeking writes: the decoder, the parse state (within
    the settled ones) and the cursor. *)
Record SeekFrame (I : Handler -> Prop) : Prop := {
  frame_settled : forall h, I h -> settled (m_parseState h);
  frame_decoder : forall h d, I h -> I (set_m_decoder d h);
  frame_state : forall h st, I h -> settled st -> I (set_m_parseState st h);
  frame_index : forall h v, I h -> I (set_m_currentimage_index v h);
  frame_device : forall h v, I h -> I (set_device v h);
  frame_quality : forall h v, I h -> I (set_m_quality v h);
  frame_transformations : forall h v, I h -> I (set_m_transformations v h)
}.

(** An invariant that in addition does not depend on what decoding a frame
    writes: the image, the pixel format, the delay and the previous index,
    and the count of allocations. *)
Record DecodeFrame (I : Handler -> Prop) : Prop := {
  frame_seek : SeekFrame I;
  frame_image : forall h v, I h -> I (set_m_current_image v h);
  frame_format : forall h v, I h -> I (set_m_input_pixel_format v h);
  frame_delay_member : forall h v, I h -> I (set_m_next_image_delay v h);
  frame_previous : forall h v, I h -> I (set_m_previousimage_index v h);
  frame_allocations : forall h v, I h -> I (set_allocations v h)
}.

(** The decoder is there, the state is settled, and nothing else is asked. *)
Definition with_decoder (h : Handler) : Prop :=
  is_Some (m_decoder h) /\ settled (m_parseState h).

(** The image and the count of allocations, in settled states, as an
    invariant of seeking. *)
Definition cache_is (img : QImage) (n : nat) (h : Handler) : Prop :=
  settled (m_parseState h) /\ m_current_image h = img /\ allocations h = n.

(** The delays and the basic info, as an invariant. *)
Definition delays_info_are (delays : list Z) (info : JxlBasicInfo) (h : Handler) : Prop :=
  m_framedelays h = delays /\ m_basicinfo h = info.

Definition info_is (info : JxlBasicInfo) (h : Handler) : Prop := m_basicinfo h = info.

(** Delays and basic info in settled states, as an invariant of every call. *)
Definition count_inv (delays : list Z) (info : JxlBasicInfo) (h : Handler) : Prop :=
  settled (m_parseState h) /\ m_framedelays h = delays /\ m_basicinfo h = info.

(** What the extraction loop leaves: it returns [false] in the error
    state, or it has grown the buffer [k] times by the increment and the
    last growth started from a buffer within the limit. *)
Definition extract_loop_post (size : Z) (r : LoopExit (JxlDecoderStatus * Z))
    (h' : Handler) : Prop :=
  is_Some (m_decoder h')
  /\ match r with
     | Returned b => b = false /\ m_parseState h' = ParseJpegXLError
     | Fallthrough (status, size') =>
         status <> JXL_DEC_BOX_NEED_MORE_OUTPUT
         /\ exists k, 0 <= k /\ size' = size + k * BOX_INCREMENT
                      /\ (0 < k -> size' <= BOX_LIMIT + BOX_INCREMENT)
     end.

(** The frame after frame [i] of [n]: the next one, the first one after
    the last, and [i] itself when there is a single frame. *)
Definition next_frame (n i : Z) : Z :=
  if n >? 1 then (if i + 1 >=? n then 0 else i + 1) else i.

(** ** Images that write accepts *)

(** An image that passes the checks at the head of [write]: it has a
    format, it is not empty, and neither its sides nor its pixel count
    exceed the limits. *)
Definition writable (img : QImageData) : Prop :=
  img_format img <> Format_Invalid
  /\ 0 < img_width img <= MAX_IMAGE_WIDTH
  /\ 0 < img_height img <= MAX_IMAGE_HEIGHT
  /\ img_width img * img_height img <= MAX_IMAGE_PIXELS.

(** The encoder can be created, and it takes the parallel runner when
    [write] gives it one. *)
Definition encoder_ready : Prop :=
  JxlEncoderCreate = true
  /\ (qBound 1 QThread_idealThreadCount 64 > 1 ->
      JxlEncoderSetParallelRunner (qBound 1 QThread_idealThreadCount 64) = true).

(** [grows d k d']: from the decoder [d] the box asks for more output
    [k] times in a row, the decoder accepting the extension buffer each
    time, and the decoder is then [d']. *)
Inductive grows : Dec -> nat -> Dec -> Prop :=
| grows_done (d : Dec) : grows d 0 d
| grows_more (d d1 d2 d3 d' : Dec) (bytes_remains : Z) (k : nat) :
    JxlDecoderProcessInput d = (JXL_DEC_BOX_NEED_MORE_OUTPUT, d1) ->
    JxlDecoderReleaseBoxBuffer d1 = (bytes_remains, d2) ->
    JxlDecoderSetBoxBuffer d2 (BOX_INCREMENT + bytes_remains) = (JXL_DEC_SUCCESS, d3) ->
    grows d3 k d' ->
    grows d (S k) d'.

(** ** States reached after frame counting *)

Definition call (c : Call) : M unit :=
  match c with
  | CallCanRead => canRead ;;; ret tt
  | CallRead image => read fuel image ;;; ret tt
  | CallWrite image => write_output_info image ;;; ret tt
  | CallJumpToNextImage => jumpToNextImage fuel ;;; ret tt
  | CallJumpToImage n => jumpToImage fuel n ;;; ret tt
  | CallImageCount => imageCount fuel ;;; ret tt
  | CallCurrentImageNumber => currentImageNumber ;;; ret tt
  | CallNextImageDelay => nextImageDelay fuel ;;; ret tt
  | CallLoopCount => loopCount ;;; ret tt
  | CallOption opt => handler_option opt ;;; ret tt
  | CallSetOption opt value => setOption opt value
  | CallEnsureParsed => ensureParsed ;;; ret tt
  | CallEnsureALLCounted => ensureALLCounted fuel ;;; ret tt
  | CallDecodeOneFrame => decode_one_frame ;;; ret tt
  | CallRewind => rewind ;;; ret tt
  end.

(** [counted h0 h]: the handler [h] is reached after frame counting has
    succeeded from the handler [h0]: it is what a [countALLFrames] that
    returned [true] on [h0] has left, or it comes from such a handler by
    further calls. *)
Inductive counted (h0 : Handler) : Handler -> Prop :=
| counted_now (h' : Handler) :
    countALLFrames fuel h0 = Some (true, h') ->
    counted h0 h'
| counted_call (h h' : Handler) (c : Call) :
    counted h0 h ->
    call c h = Some (tt, h') ->
    counted h0 h'.

(** The decoder, the delays and the basic info, as an invariant. *)
Definition counting_from (d : Dec) (delays : list Z) (info : JxlBasicInfo)
    (h : Handler) : Prop :=
  m_decoder h = Some d /\ m_framedelays h = delays /\ m_basicinfo h = info.

(** ** The frames of an animation *)

(** [frames_reported d fs d']: from the decoder [d], successive calls of
    [JxlDecoderProcessInput] report the frames with headers [fs], up to
    and including the first one marked [is_last] (or up to
    [JXL_DEC_SUCCESS] if none is), and leave the decoder [d']. *)
Inductive frames_reported : Dec -> list JxlFrameHeader -> Dec -> Prop :=
| frames_end (d d' : Dec) :
    JxlDecoderProcessInput d = (JXL_DEC_SUCCESS, d') ->
    frames_reported d [] d'
| frames_last (d d' : Dec) (f : JxlFrameHeader) :
    JxlDecoderProcessInput d = (JXL_DEC_FRAME, d') ->
    JxlDecoderGetFrameHeader d' = (JXL_DEC_SUCCESS, f) ->
    is_last f = true ->
    frames_reported d [f] d'
| frames_more (d d1 d' : Dec) (f : JxlFrameHeader) (fs : list JxlFrameHeader) :
    JxlDecoderProcessInput d = (JXL_DEC_FRAME, d1) ->
    JxlDecoderGetFrameHeader d1 = (JXL_DEC_SUCCESS, f) ->
    is_last f = false ->
    frames_reported d1 fs d' ->
    frames_reported d (f :: fs) d'.


(** ** How calls fail *)

(** A [false] is returned in the error state only. *)
Definition fails_in_error (b : bool) (h : Handler) : Prop :=
  b = false -> m_parseState h = ParseJpegXLError.

(** A loop body returns nothing but [false], and in the error state;
    extractBox fails in the error state. *)
Definition exits_in_error {X} (r : LoopExit X) (h : Handler) : Prop :=
  match r with
  | Returned b => b = false /\ m_parseState h = ParseJpegXLError
  | Fallthrough _ => True
  end.

Definition none_in_error {X} (r : option X) (h : Handler) : Prop :=
  r = None -> m_parseState h = ParseJpegXLError.

(** The error state, or the state of a handler that found its device empty. *)
Definition no_input_or_error (h : Handler) : Prop :=
  m_parseState h = ParseJpegXLError
  \/ (m_parseState h = ParseJpegXLNotParsed /\ m_decoder h = None
      /\ device h = Some [] /\ m_rawData h = []).

End Notions.

(** ** The rows of a PFM data stream *)

(** The floats of the data stream, in stream order. *)
Fixpoint floats_of (o : PFM.ByteOrder) (l : list Z) : list Z :=
  match l with
  | b0 :: b1 :: b2 :: b3 :: rest => PFM.float_of_bytes o b0 b1 b2 b3 :: floats_of o rest
  | _ => []
  end.

(** [n] pixels made of the floats [F]: three floats a pixel, or one that is
    copied to the three colour channels; alpha is 1.0. *)
Fixpoint pixels_of (bw : bool) (n : nat) (F : list Z) : list Z :=
  match n with
  | O => []
  | S n' =>
      if bw then
        match F with
        | v :: F' => [v; v; v; PFM.float_one] ++ pixels_of bw n' F'
        | _ => []
        end
      else
        match F with
        | r :: g :: b :: F' => [r; g; b; PFM.float_one] ++ pixels_of bw n' F'
        | _ => []
        end
  end.

(** Floats per pixel in the stream. *)
Definition channels (bw : bool) : nat := if bw then 1%nat else 3%nat.

(** Row [y] of the data stream that follows the header [hdr]. *)
Definition data_row (hdr : PFM.PFMHeader) (data : list Z) (y : nat) : list Z :=
  let w := Z.to_nat (PFM.width hdr) in
  let bw := PFM.isBlackAndWhite hdr in
  pixels_of bw w (drop (channels bw * w * y) (floats_of (PFM.byteOrder hdr) data)).

Definition stream_floats (s : PFM.QDataStream) : list Z :=
  floats_of (PFM.ds_byteOrder s) (PFM.ds_device s).

(** The scanline that receives row [y] of the data. *)
Definition scanline_index (hdr : PFM.PFMHeader) (h y : nat) : nat :=
  if PFM.isPhotoshop hdr then y else (h - 1 - y)%nat.

(** * Properties *)

Section Options.
Context `{Env}.

(** C7. For every integer [v], setting the [Quality] option to [v] leaves
    the stored quality in 0..100: a value above 100 becomes 100, a
    negative value becomes 90, and a value in 0..100 is stored as given. *)
Theorem C7_quality_setter_clamps (v : Z) (h : Handler) :
  exists h', setOption Quality (VInt v) h = Some (tt, h')
    /\ 0 <= m_quality h' <= 100
    /\ m_quality h' = (if v >? 100 then 100 else if v <? 0 then 90 else v).
Proof.
  unfold setOption, bind, modify, gets; simpl.
  destruct (Z.gtb_spec v 100) as [Hgt | Hle].
  - eexists; split; [reflexivity | simpl; lia].
  - destruct (Z.ltb_spec v 0) as [Hneg | Hpos].
    + eexists; split; [reflexivity | simpl; lia].
    + eexists; split; [reflexivity | simpl; lia].
Qed.

Lemma orientation_of_transformations_code (v : Z) :
  orientation_of_transformations v = orientation_code v
  /\ (0 <= v <= 7 -> transformation_of_orientation (orientation_of_transformations v) = v).
Proof.
  destruct (Z_lt_le_dec v 0) as [Hneg | Hpos].
  - split; [ | lia]. unfold orientation_code.
    replace (Z.to_nat v) with 0%nat by lia.
    unfold orientation_of_transformations.
    repeat match goal with
           | |- context [?a =? ?b] => destruct (Z.eqb_spec a b) as [Heq | _];
                                       [vm_compute in Heq; lia | ]
           end.
    reflexivity.
  - destruct (Z_le_gt_dec v 7) as [Hle | Hgt].
    + assert (Hcases : v = 0 \/ v = 1 \/ v = 2 \/ v = 3 \/ v = 4 \/ v = 5 \/ v = 6 \/ v = 7)
        by lia.
      destruct Hcases as [-> | [-> | [-> | [-> | [-> | [-> | [-> | ->]]]]]]];
        split; reflexivity.
    + split; [ | lia]. unfold orientation_code.
      rewrite nth_overflow by (simpl; lia).
      unfold orientation_of_transformations.
      repeat match goal with
             | |- context [?a =? ?b] => destruct (Z.eqb_spec a b) as [Heq | _];
                                         [vm_compute in Heq; lia | ]
             end.
      reflexivity.
Qed.

Lemma write_output_info_writable (img : QImageData) (h : Handler) :
  writable img ->
  encoder_ready ->
  exists q,
    0 <= q <= 100
    /\ write_output_info (Some img) h
       = Some (Some {| have_container := true;
                       xsize := xsize JxlEncoderInitBasicInfo;
                       ysize := ysize JxlEncoderInitBasicInfo;
                       bits_per_sample := bits_per_sample JxlEncoderInitBasicInfo;
                       exponent_bits_per_sample :=
                         exponent_bits_per_sample JxlEncoderInitBasicInfo;
                       uses_original_profile :=
                         uses_original_profile JxlEncoderInitBasicInfo;
                       have_animation := have_animation JxlEncoderInitBasicInfo;
                       orientation := orientation_of_transformations (m_transformations h);
                       num_color_channels := num_color_channels JxlEncoderInitBasicInfo;
                       num_extra_channels := num_extra_channels JxlEncoderInitBasicInfo;
                       alpha_bits := alpha_bits JxlEncoderInitBasicInfo;
                       animation := {| tps_numerator := 10; tps_denominator := 1;
                                       num_loops :=
                                         num_loops (animation JxlEncoderInitBasicInfo) |} |},
               set_m_quality q h)
    /\ (0 <= m_quality h <= 100 -> q = m_quality h).
Proof.
  intros (Hfmt & Hw & Hh & Hpix) [Hcreate Hrunner].
  unfold write_output_info.
  rewrite bool_decide_eq_false_2 by exact Hfmt.
  assert (Hzero : (img_width img =? 0) || (img_height img =? 0) = false).
  { apply orb_false_iff; split; apply Z.eqb_neq; lia. }
  assert (Hbig : (img_width img >? MAX_IMAGE_WIDTH) || (img_height img >? MAX_IMAGE_HEIGHT)
                 = false).
  { apply orb_false_iff; split; rewrite Z.gtb_ltb; apply Z.ltb_ge; lia. }
  assert (Hcap : negb (MAX_IMAGE_PIXELS =? 0)
                 && (img_width img * img_height img >? MAX_IMAGE_PIXELS) = false).
  { apply andb_false_iff; right. rewrite Z.gtb_ltb. apply Z.ltb_ge. exact Hpix. }
  rewrite Hzero, Hbig. cbv zeta. rewrite Hcap, Hcreate.
  assert (Hrun : (qBound 1 QThread_idealThreadCount 64 >? 1)
                 && negb (JxlEncoderSetParallelRunner (qBound 1 QThread_idealThreadCount 64))
                 = false).
  { destruct (Z.gtb_spec (qBound 1 QThread_idealThreadCount 64) 1) as [Hgt | Hle];
      [ | reflexivity].
    rewrite Hrunner by lia. reflexivity. }
  rewrite Hrun.
  unfold bind, gets, modify, ret. simpl.
  destruct (Z.gtb_spec (m_quality h) 100) as [Hq | Hq].
  - exists 100. split; [lia | ]. split; [reflexivity | lia].
  - destruct (Z.ltb_spec (m_quality h) 0) as [Hn | Hn].
    + exists 90. split; [lia | ]. split; [reflexivity | lia].
    + exists (m_quality h). split; [lia | ]. split; [ | reflexivity].
      destruct h; reflexivity.
Qed.

(** C6 (as amended). With the auto-transform build, setting
    [ImageTransformation] to a value whose integer [v] is in 1..7 stores
    [v], and setting it to any other value, 0 included, leaves the handler
    as it was; a fresh handler holds 0.  A write of an acceptable image
    that follows emits the orientation code that belongs to the stored
    transformation, which is the code that [option] maps back to it. *)
Theorem C6_transformation_option (value : QVariant) (h : Handler) :
  JXL_QT_AUTOTRANSFORM = true ->
  let v := toInt value in
  let h' := if (1 <=? v) && (v <=? 7) then set_m_transformations v h else h in
  setOption ImageTransformation value h = Some (tt, h')
  /\ (1 <= v <= 7 -> m_transformations h' = v)
  /\ (~ 1 <= v <= 7 -> h' = h)
  /\ (forall img, writable img -> encoder_ready ->
        exists info h'',
          write_output_info (Some img) h' = Some (Some info, h'')
          /\ orientation info = orientation_code (m_transformations h')
          /\ (0 <= m_transformations h' <= 7 ->
              transformation_of_orientation (orientation info) = m_transformations h')
          /\ m_transformations h'' = m_transformations h')
  /\ (forall info format dev, m_transformations (QJpegXLHandler info format dev) = 0)
  /\ orientation_code 0 = JXL_ORIENT_IDENTITY.
Proof.
  intros Hauto v h'.
  assert (Hset : setOption ImageTransformation value h = Some (tt, h')).
  { unfold setOption. rewrite Hauto. cbv zeta. fold v. unfold h'.
    destruct (Z.leb_spec 1 v) as [H1 | H1]; destruct (Z.leb_spec v 7) as [H7 | H7]; simpl.
    - rewrite (proj2 (negb_true_iff _)) by (apply bool_decide_eq_false; lia).
      rewrite (proj2 (Z.gtb_lt v 0)) by lia.
      rewrite (proj2 (Z.ltb_lt v 8)) by lia. reflexivity.
    - destruct (v != 0); [ | reflexivity].
      rewrite (proj2 (Z.ltb_ge v 8)) by lia. rewrite andb_false_r. reflexivity.
    - destruct (v != 0); [ | reflexivity].
      rewrite Z.gtb_ltb. rewrite (proj2 (Z.ltb_ge 0 v)) by lia. reflexivity.
    - lia. }
  split; [exact Hset | ].
  split.
  { intros Hv. unfold h'.
    rewrite (proj2 (Z.leb_le 1 v)), (proj2 (Z.leb_le v 7)) by lia. reflexivity. }
  split.
  { intros Hv. unfold h'.
    destruct (Z.leb_spec 1 v); destruct (Z.leb_spec v 7); simpl; try reflexivity. lia. }
  split.
  { intros img Himg Henc.
    destruct (write_output_info_writable img h' Himg Henc) as (q & _ & Hw & _).
    eexists _, _. split; [exact Hw | ]. simpl.
    destruct (orientation_of_transformations_code (m_transformations h')) as [Hcode Hback].
    auto. }
  split; [reflexivity | reflexivity].
Qed.

(** C8. For every device from which fewer than 12 bytes can be peeked, the
    signature probe answers [false] and leaves the device as it was; the
    handler's own [canRead] then answers [false] on an unparsed handler. *)
Theorem C8_probe_needs_12_bytes (d : QIODevice) :
  (length d < 12)%nat ->
  canRead_device (Some d) = (false, Some d)
  /\ (forall h, m_parseState h = ParseJpegXLNotParsed -> device h = Some d ->
       exists h', canRead h = Some (false, h') /\ device h' = Some d
                  /\ m_parseState h' = ParseJpegXLNotParsed).
Proof.
  intros Hlen.
  assert (Hprobe : canRead_device (Some d) = (false, Some d)).
  { unfold canRead_device, peek.
    assert (Hshort : (Z.of_nat (length (take 32 d)) <? 12) = true).
    { apply Z.ltb_lt. rewrite length_take. lia. }
    rewrite Hshort. reflexivity. }
  split; [exact Hprobe | ].
  intros h Hst Hdev.
  unfold canRead, bind, gets, modify.
  rewrite Hst, Hdev, Hprobe. simpl.
  eexists; split; [reflexivity | ]. simpl. auto.
Qed.

End Options.

(** ** Invariants of monadic code *)

Section Preservation.
Context `{Env}.
Local Open Scope m_scope.

Lemma preserves_ret (I : Handler -> Prop) {A} (a : A) : preserves I (ret a).
Proof. intros h a' h' Hi Heq. inversion Heq; subst; exact Hi. Qed.

Lemma preserves_gets (I : Handler -> Prop) {A} (f : Handler -> A) : preserves I (gets f).
Proof. intros h a' h' Hi Heq. inversion Heq; subst; exact Hi. Qed.

Lemma preserves_undefined (I : Handler -> Prop) {A} : preserves I (@undefined _ A).
Proof. intros h a' h' Hi Heq. discriminate. Qed.

Lemma preserves_modify (I : Handler -> Prop) (f : Handler -> Handler) :
  (forall h, I h -> I (f h)) -> preserves I (modify f).
Proof. intros Hf h a' h' Hi Heq. inversion Heq; subst. apply Hf, Hi. Qed.

Lemma preserves_bind (I : Handler -> Prop) {A B} (c : M A) (k : A -> M B) :
  preserves I c -> (forall a, preserves I (k a)) -> preserves I (bind c k).
Proof.
  intros Hc Hk h b h' Hi Heq. unfold bind in Heq.
  destruct (c h) as [[a h1] | ] eqn:Hch; [ | discriminate].
  eapply Hk; [eapply Hc; eassumption | eassumption].
Qed.

Lemma preserves_dec_call (I : Handler -> Prop) {A} (f : Dec -> A * Dec) :
  (forall h d, I h -> I (set_m_decoder d h)) -> preserves I (dec_call f).
Proof.
  intros Hd h a h' Hi Heq. unfold dec_call in Heq.
  destruct (m_decoder h) as [d | ]; [ | discriminate].
  destruct (f d) as [a' d']. inversion Heq; subst. apply Hd, Hi.
Qed.

Lemma preserves_dec_get (I : Handler -> Prop) {A} (f : Dec -> A) : preserves I (dec_get f).
Proof.
  intros h a h' Hi Heq. unfold dec_get in Heq.
  destruct (m_decoder h) as [d | ]; [ | discriminate].
  inversion Heq; subst. exact Hi.
Qed.

Lemma preserves_dec_do (I : Handler -> Prop) (f : Dec -> Dec) :
  (forall h d, I h -> I (set_m_decoder d h)) -> preserves I (dec_do f).
Proof.
  intros Hd h a h' Hi Heq. unfold dec_do in Heq.
  destruct (m_decoder h) as [d | ]; [ | discriminate].
  inversion Heq; subst. apply Hd, Hi.
Qed.

Lemma preserves_fail_error (I : Handler -> Prop) :
  (forall h, I h -> I (set_m_parseState ParseJpegXLError h)) -> preserves I fail_error.
Proof.
  intros He h a h' Hi Heq. unfold fail_error, bind, modify, ret in Heq.
  inversion Heq; subst. apply He, Hi.
Qed.

End Preservation.

(** One step of a preservation proof; [side] settles what a write to a
    member leaves to show. *)
Ltac preserves_step side :=
  cbv zeta;
  first
    [ assumption
    | apply preserves_ret
    | apply preserves_gets
    | apply preserves_undefined
    | apply preserves_dec_get
    | apply preserves_bind; [ | intros ? ]
    | apply preserves_modify; solve [side]
    | apply preserves_dec_call; solve [side]
    | apply preserves_dec_do; solve [side]
    | apply preserves_fail_error; solve [side]
    | match goal with
      | |- preserves _ (if ?b then _ else _) => destruct b
      | |- preserves _ (match ?x with _ => _ end) => destruct x
      end ].
Ltac preserves_auto side := repeat preserves_step side.

Section Frames.
Context `{Env}.
Variable fuel : nat.
Local Open Scope m_scope.

Lemma ensureParsed_settled (h : Handler) :
  settled (m_parseState h) ->
  exists b, ensureParsed h = Some (b, h)
            /\ (b = true <-> m_parseState h <> ParseJpegXLError).
Proof.
  intros Hs. unfold ensureParsed, bind, gets, ret.
  destruct Hs as [Hs | [Hs | Hs]]; rewrite Hs; simpl;
    eexists; (split; [reflexivity | split; congruence]).
Qed.

Lemma ensureALLCounted_settled (h : Handler) :
  settled (m_parseState h) ->
  exists b, ensureALLCounted fuel h = Some (b, h)
            /\ (b = true <-> m_parseState h <> ParseJpegXLError).
Proof.
  intros Hs. unfold ensureALLCounted, bind, gets, ret.
  destruct (ensureParsed_settled h Hs) as (b & -> & Hb).
  destruct Hs as [Hs | [Hs | Hs]]; rewrite Hs in *; simpl;
    destruct b; simpl; try rewrite Hs; simpl; eauto;
    try (exfalso; destruct Hb as [Hb1 Hb2]; try (specialize (Hb1 eq_refl); congruence);
         try (assert (false = true) by (apply Hb2; congruence); discriminate)).
Qed.

End Frames.

Ltac seek_side HF :=
  intros; cbv beta;
  first [ assumption
        | apply (frame_decoder _ HF); assumption
        | apply (frame_index _ HF); assumption
        | apply (frame_device _ HF); assumption
        | apply (frame_quality _ HF); assumption
        | apply (frame_transformations _ HF); assumption
        | apply (frame_state _ HF); [assumption | unfold settled; auto] ].

Ltac decode_side HF :=
  intros; cbv beta;
  first [ seek_side (frame_seek _ HF)
        | apply (frame_image _ HF); assumption
        | apply (frame_format _ HF); assumption
        | apply (frame_delay_member _ HF); assumption
        | apply (frame_previous _ HF); assumption
        | apply (frame_allocations _ HF); assumption ].

Section FrameLemmas.
Context `{Env}.
Variable fuel : nat.
Local Open Scope m_scope.

Lemma rewind_preserves (I : Handler -> Prop) : SeekFrame I -> preserves I rewind.
Proof. intros HF. unfold rewind. preserves_auto ltac:(seek_side HF). Qed.

Lemma ensureALLCounted_preserves (I : Handler -> Prop) :
  SeekFrame I -> preserves I (ensureALLCounted fuel).
Proof.
  intros HF h a h' Hi Heq.
  destruct (ensureALLCounted_settled fuel h (frame_settled _ HF h Hi)) as (b & Hb & _).
  rewrite Hb in Heq. inversion Heq; subst. exact Hi.
Qed.

Lemma ensureParsed_preserves (I : Handler -> Prop) :
  SeekFrame I -> preserves I ensureParsed.
Proof.
  intros HF h a h' Hi Heq.
  destruct (ensureParsed_settled h (frame_settled _ HF h Hi)) as (b & Hb & _).
  rewrite Hb in Heq. inversion Heq; subst. exact Hi.
Qed.

Lemma jumpToNextImage_preserves (I : Handler -> Prop) :
  SeekFrame I -> preserves I (jumpToNextImage fuel).
Proof.
  intros HF. pose proof (rewind_preserves I HF). pose proof (ensureALLCounted_preserves I HF).
  unfold jumpToNextImage. preserves_auto ltac:(seek_side HF).
Qed.

Lemma jumpToImage_preserves (I : Handler -> Prop) (n : Z) :
  SeekFrame I -> preserves I (jumpToImage fuel n).
Proof.
  intros HF. pose proof (rewind_preserves I HF). pose proof (ensureALLCounted_preserves I HF).
  unfold jumpToImage. preserves_auto ltac:(seek_side HF).
Qed.

Lemma decode_one_frame_preserves (I : Handler -> Prop) :
  DecodeFrame I -> preserves I decode_one_frame.
Proof.
  intros HF. pose proof (rewind_preserves I (frame_seek _ HF)).
  unfold decode_one_frame, decode_cmyk_alpha, decode_cmyk, decode_rgb,
    alloc_image, alloc_buffer, on_current_image.
  preserves_auto ltac:(decode_side HF).
Qed.

Lemma read_preserves (I : Handler -> Prop) (image : QImage) :
  DecodeFrame I -> preserves I (read fuel image).
Proof.
  intros HF.
  pose proof (decode_one_frame_preserves I HF).
  pose proof (jumpToNextImage_preserves I (frame_seek _ HF)).
  pose proof (ensureALLCounted_preserves I (frame_seek _ HF)).
  unfold read. preserves_auto ltac:(decode_side HF).
Qed.

End FrameLemmas.

(** ** What a call leaves behind when it returns *)

Section Results.
Context `{Env}.
Local Open Scope m_scope.

Lemma results_bind {A B} (c : M A) (k : A -> M B) (Q : B -> Handler -> Prop) :
  (forall a, results (k a) Q) -> results (bind c k) Q.
Proof.
  intros Hk h b h' Heq. unfold bind in Heq.
  destruct (c h) as [[a h1] | ]; [ | discriminate].
  eapply Hk; eassumption.
Qed.

End Results.

Ltac results_leaf :=
  solve [ let Heq := fresh "Heq" in
          intros ? ? ? Heq;
          unfold bind, modify, ret, undefined, fail_error in Heq; simpl in Heq;
          inversion Heq; subst; simpl; intuition congruence ].
Ltac results_step :=
  cbv zeta;
  first
    [ assumption
    | results_leaf
    | apply results_bind; intros ?
    | match goal with
      | |- results (if ?b then _ else _) _ => destruct b
      | |- results (match ?x with _ => _ end) _ => destruct x
      end ].
Ltac results_auto := repeat results_step.

Section Cursor.
Context `{Env}.
Variable fuel : nat.
Local Open Scope m_scope.

Lemma countALLFrames_true :
  results (countALLFrames fuel)
    (fun b h => b = true -> m_parseState h = ParseJpegXLSuccess).
Proof. unfold countALLFrames. results_auto. Qed.

Lemma decode_one_frame_true :
  results decode_one_frame
    (fun b h => b = true ->
       m_parseState h = ParseJpegXLSuccess \/ m_parseState h = ParseJpegXLFinished).
Proof. unfold decode_one_frame. results_auto. Qed.

Lemma jumpToNextImage_true :
  results (jumpToNextImage fuel)
    (fun b h => b = true -> m_parseState h = ParseJpegXLSuccess).
Proof. unfold jumpToNextImage. results_auto. Qed.

Lemma ensureALLCounted_true (h h' : Handler) :
  ensureALLCounted fuel h = Some (true, h') ->
  m_parseState h' = ParseJpegXLSuccess \/ m_parseState h' = ParseJpegXLFinished.
Proof.
  unfold ensureALLCounted, bind, gets, ret.
  destruct (ensureParsed h) as [[parsed h1] | ]; [ | discriminate].
  destruct parsed; simpl; [ | discriminate].
  destruct (m_parseState h1) eqn:Hst; simpl; intros Heq;
    try (inversion Heq; subst; auto; fail);
    left; eapply countALLFrames_true; eauto.
Qed.

End Cursor.

(** ** Calls that have a result *)

Section Runs.
Context `{Env}.
Local Open Scope m_scope.

Lemma runs_ret (I : Handler -> Prop) {A} (a : A) : runs I (ret a).
Proof. intros h Hi. exists a, h. split; [reflexivity | exact Hi]. Qed.

Lemma runs_gets (I : Handler -> Prop) {A} (f : Handler -> A) : runs I (gets f).
Proof. intros h Hi. exists (f h), h. split; [reflexivity | exact Hi]. Qed.

Lemma runs_modify (I : Handler -> Prop) (f : Handler -> Handler) :
  (forall h, I h -> I (f h)) -> runs I (modify f).
Proof. intros Hf h Hi. exists tt, (f h). split; [reflexivity | apply Hf, Hi]. Qed.

Lemma runs_bind (I : Handler -> Prop) {A B} (c : M A) (k : A -> M B) :
  runs I c -> (forall a, runs I (k a)) -> runs I (bind c k).
Proof.
  intros Hc Hk h Hi. destruct (Hc h Hi) as (a & h1 & Hch & Hi1).
  destruct (Hk a h1 Hi1) as (b & h2 & Hkh & Hi2).
  exists b, h2. unfold bind. rewrite Hch. auto.
Qed.

Lemma runs_dec_call {A} (f : Dec -> A * Dec) : runs with_decoder (dec_call f).
Proof.
  intros h [[d Hd] Hs]. unfold dec_call. rewrite Hd.
  destruct (f d) as [a d']. exists a, (set_m_decoder (Some d') h).
  split; [reflexivity | split; simpl; eauto].
Qed.

Lemma runs_dec_do (f : Dec -> Dec) : runs with_decoder (dec_do f).
Proof.
  intros h [[d Hd] Hs]. unfold dec_do. rewrite Hd.
  exists tt, (set_m_decoder (Some (f d)) h).
  split; [reflexivity | split; simpl; eauto].
Qed.

Lemma runs_fail_error : runs with_decoder fail_error.
Proof.
  intros h [Hd Hs]. eexists _, _. split; [reflexivity | ].
  split; simpl; [exact Hd | unfold settled; auto].
Qed.

End Runs.

Ltac runs_side :=
  let Hd := fresh in let Hs := fresh in
  intros ? [Hd Hs]; split; simpl; [exact Hd | first [exact Hs | unfold settled; auto]].
Ltac runs_step :=
  cbv zeta;
  first
    [ assumption
    | apply runs_ret
    | apply runs_gets
    | apply runs_dec_call
    | apply runs_dec_do
    | apply runs_fail_error
    | apply runs_bind; [ | intros ? ]
    | apply runs_modify; solve [runs_side]
    | match goal with
      | |- runs _ (if ?b then _ else _) => destruct b
      | |- runs _ (match ?x with _ => _ end) => destruct x
      end ].
Ltac runs_auto := repeat runs_step.

Section CachedRead.
Context `{Env}.
Variable fuel : nat.
Local Open Scope m_scope.

Lemma rewind_runs : runs with_decoder rewind.
Proof. unfold rewind. runs_auto. Qed.

Lemma ensureALLCounted_runs : runs with_decoder (ensureALLCounted fuel).
Proof.
  intros h Hi. destruct (ensureALLCounted_settled fuel h (proj2 Hi)) as (b & Hb & _).
  eauto.
Qed.

Lemma jumpToNextImage_runs : runs with_decoder (jumpToNextImage fuel).
Proof.
  pose proof rewind_runs. pose proof ensureALLCounted_runs.
  unfold jumpToNextImage. runs_auto.
Qed.

Lemma cache_is_frame (img : QImage) (n : nat) : SeekFrame (cache_is img n).
Proof.
  split; unfold cache_is; simpl; intros; intuition.
Qed.

Lemma ensureALLCounted_counted (h : Handler) :
  m_parseState h = ParseJpegXLSuccess \/ m_parseState h = ParseJpegXLFinished ->
  ensureALLCounted fuel h = Some (true, h).
Proof.
  intros Hs.
  destruct (ensureALLCounted_settled fuel h) as (b & Hb & Hiff).
  { unfold settled; tauto. }
  rewrite Hb. destruct b; [reflexivity | ].
  assert (false = true) by (apply Hiff; destruct Hs as [Hs | Hs]; rewrite Hs; discriminate).
  discriminate.
Qed.

Lemma read_cached (h : Handler) (image : QImage) :
  m_parseState h = ParseJpegXLSuccess \/ m_parseState h = ParseJpegXLFinished ->
  m_currentimage_index h = m_previousimage_index h ->
  read fuel image h =
    match jumpToNextImage fuel h with
    | Some (moved, h') => Some ((moved, m_current_image h), h')
    | None => None
    end.
Proof.
  intros Hs Hidx. unfold read at 1. unfold bind at 1.
  rewrite (ensureALLCounted_counted h Hs). simpl.
  unfold bind, gets, ret. rewrite Hidx, Z.eqb_refl.
  destruct (jumpToNextImage fuel h) as [[moved h'] | ]; reflexivity.
Qed.

Lemma read_true_image (h h' : Handler) (image img : QImage) :
  read fuel image h = Some ((true, img), h') ->
  m_current_image h' = img
  /\ (m_parseState h' = ParseJpegXLSuccess \/ m_parseState h' = ParseJpegXLFinished).
Proof.
  unfold read. unfold bind at 1.
  destruct (ensureALLCounted fuel h) as [[counted h1] | ] eqn:Hc; [ | discriminate].
  destruct counted; simpl; [ | unfold ret; discriminate].
  pose proof (ensureALLCounted_true fuel h h1 Hc) as Hs1.
  unfold bind at 1. unfold gets at 1. unfold bind at 1. unfold gets at 1.
  destruct (m_currentimage_index h1 =? m_previousimage_index h1).
  - unfold bind at 1. unfold gets at 1. unfold bind at 1.
    destruct (jumpToNextImage fuel h1) as [[moved h2] | ] eqn:Hj; [ | discriminate].
    unfold ret. intros Heq. inversion Heq; subst.
    split.
    + assert (Hi : cache_is (m_current_image h1) (allocations h1) h1).
      { unfold cache_is, settled. tauto. }
      pose proof (jumpToNextImage_preserves fuel _ (cache_is_frame _ _) _ _ _ Hi Hj) as Hk.
      apply Hk.
    + left. eapply jumpToNextImage_true; eauto.
  - unfold bind at 1.
    destruct (decode_one_frame h1) as [[decoded h2] | ] eqn:Hd; [ | discriminate].
    destruct decoded; [ | unfold ret; discriminate].
    unfold bind, gets, ret. intros Heq. inversion Heq; subst.
    split; [reflexivity | ]. eapply decode_one_frame_true; eauto.
Qed.

Lemma read_cached_facts (h : Handler) (image : QImage) :
  m_parseState h = ParseJpegXLSuccess \/ m_parseState h = ParseJpegXLFinished ->
  m_currentimage_index h = m_previousimage_index h ->
  read fuel image h =
    match jumpToNextImage fuel h with
    | Some (moved, h') => Some ((moved, m_current_image h), h')
    | None => None
    end
  /\ (forall r h', read fuel image h = Some (r, h') ->
        snd r = m_current_image h /\ m_current_image h' = m_current_image h
        /\ allocations h' = allocations h)
  /\ (forall image0 h0 img, read fuel image0 h0 = Some ((true, img), h) ->
        forall r h', read fuel image h = Some (r, h') -> snd r = img)
  /\ (is_Some (m_decoder h) ->
        exists moved h', read fuel image h = Some ((moved, m_current_image h), h'))
  /\ ((length (m_framedelays h) <= 1)%nat ->
        read fuel image h
        = Some ((true, m_current_image h), set_m_parseState ParseJpegXLSuccess h)).
Proof.
  intros Hs Hidx.
  pose proof (read_cached h image Hs Hidx) as Hread.
  assert (Hkeep : forall r h', read fuel image h = Some (r, h') ->
            snd r = m_current_image h /\ m_current_image h' = m_current_image h
            /\ allocations h' = allocations h).
  { intros r h' Hr. rewrite Hread in Hr.
    destruct (jumpToNextImage fuel h) as [[moved h1] | ] eqn:Hj; [ | discriminate].
    inversion Hr; subst. split; [reflexivity | ].
    assert (Hi : cache_is (m_current_image h) (allocations h) h).
    { unfold cache_is, settled. tauto. }
    pose proof (jumpToNextImage_preserves fuel _ (cache_is_frame _ _) _ _ _ Hi Hj) as Hk.
    destruct Hk as (_ & Himg & Hal). auto. }
  split; [exact Hread | ].
  split; [exact Hkeep | ].
  split.
  { intros image0 h0 img Hfirst r h' Hsecond.
    apply read_true_image in Hfirst. destruct Hfirst as [Himg _].
    rewrite <- Himg. apply (Hkeep r h' Hsecond). }
  split.
  { intros Hdec. rewrite Hread.
    destruct (jumpToNextImage_runs h) as (moved & h' & Hj & _).
    { split; [exact Hdec | unfold settled; tauto]. }
    rewrite Hj. eauto. }
  intros Hone. rewrite Hread.
  unfold jumpToNextImage. unfold bind at 1.
  rewrite (ensureALLCounted_counted h Hs). simpl.
  unfold bind, gets, modify, ret.
  assert (Hgt : (Z.of_nat (length (m_framedelays h)) >? 1) = false).
  { rewrite Z.gtb_ltb. apply Z.ltb_ge. lia. }
  rewrite Hgt. reflexivity.
Qed.

(** C10. Once the parse state is [ParseJpegXLFinished], [canRead] answers
    [false] and changes nothing; yet [jumpToNextImage] can be called: it has
    a result when the decoder is there, every [true] it returns leaves the
    state [ParseJpegXLSuccess], and with a single frame it does return
    [true], as does a [read] with the cursor on the frame last decoded. *)
Theorem C10_finished_cannot_read (h : Handler) :
  m_parseState h = ParseJpegXLFinished ->
  canRead h = Some (false, h)
  /\ (is_Some (m_decoder h) -> exists moved h', jumpToNextImage fuel h = Some (moved, h'))
  /\ (forall h', jumpToNextImage fuel h = Some (true, h') ->
        m_parseState h' = ParseJpegXLSuccess)
  /\ ((length (m_framedelays h) <= 1)%nat ->
        jumpToNextImage fuel h = Some (true, set_m_parseState ParseJpegXLSuccess h)
        /\ (m_currentimage_index h = m_previousimage_index h ->
            forall image, read fuel image h
              = Some ((true, m_current_image h), set_m_parseState ParseJpegXLSuccess h))).
Proof.
  intros Hfin.
  split.
  { unfold canRead, bind, gets, modify, ret. rewrite Hfin.
    destruct (canRead_device (device h)) as [can dev']. reflexivity. }
  split.
  { intros Hdec. destruct (jumpToNextImage_runs h) as (moved & h' & Hj & _).
    { split; [exact Hdec | unfold settled; tauto]. }
    eauto. }
  split.
  { intros h' Hj. eapply jumpToNextImage_true; eauto. }
  intros Hone.
  assert (Hjump : jumpToNextImage fuel h
                  = Some (true, set_m_parseState ParseJpegXLSuccess h)).
  { unfold jumpToNextImage. unfold bind at 1.
    rewrite (ensureALLCounted_counted h (or_intror Hfin)). simpl.
    unfold bind, gets, modify, ret.
    assert (Hgt : (Z.of_nat (length (m_framedelays h)) >? 1) = false).
    { rewrite Z.gtb_ltb. apply Z.ltb_ge. lia. }
    rewrite Hgt. reflexivity. }
  split; [exact Hjump | ].
  intros Hidx image.
  rewrite (read_cached h image (or_intror Hfin) Hidx), Hjump. reflexivity.
Qed.

End CachedRead.

(** ** Running a call from a known handler *)

Section WeakestPrecondition.
Context `{Env}.
Local Open Scope m_scope.

Lemma wp_elim {A} (c : M A) (Q : A -> Handler -> Prop) (h : Handler) :
  wp c Q h -> exists a h', c h = Some (a, h') /\ Q a h'.
Proof.
  unfold wp. destruct (c h) as [[a h'] | ]; [eauto | tauto].
Qed.

Lemma wp_ret {A} (a : A) (Q : A -> Handler -> Prop) (h : Handler) :
  Q a h -> wp (ret a) Q h.
Proof. exact (fun q => q). Qed.

Lemma wp_gets {A} (f : Handler -> A) (Q : A -> Handler -> Prop) (h : Handler) :
  Q (f h) h -> wp (gets f) Q h.
Proof. exact (fun q => q). Qed.

Lemma wp_modify (f : Handler -> Handler) (Q : unit -> Handler -> Prop) (h : Handler) :
  Q tt (f h) -> wp (modify f) Q h.
Proof. exact (fun q => q). Qed.

Lemma wp_bind {A B} (c : M A) (k : A -> M B) (Q : B -> Handler -> Prop) (h : Handler) :
  wp c (fun a h' => wp (k a) Q h') h -> wp (bind c k) Q h.
Proof.
  unfold wp, bind. destruct (c h) as [[a h'] | ]; [ | tauto]. exact (fun q => q).
Qed.

Lemma wp_fail_error (Q : bool -> Handler -> Prop) (h : Handler) :
  Q false (set_m_parseState ParseJpegXLError h) -> wp fail_error Q h.
Proof. exact (fun q => q). Qed.

Lemma wp_dec_call {A} (f : Dec -> A * Dec) (Q : A -> Handler -> Prop) (h : Handler) (d : Dec) :
  m_decoder h = Some d ->
  (forall a d', f d = (a, d') -> Q a (set_m_decoder (Some d') h)) ->
  wp (dec_call f) Q h.
Proof.
  intros Hd Hq. unfold wp, dec_call. rewrite Hd.
  destruct (f d) as [a d'] eqn:Hf. apply Hq. reflexivity.
Qed.

Lemma wp_dec_get {A} (f : Dec -> A) (Q : A -> Handler -> Prop) (h : Handler) (d : Dec) :
  m_decoder h = Some d -> Q (f d) h -> wp (dec_get f) Q h.
Proof. intros Hd Hq. unfold wp, dec_get. rewrite Hd. exact Hq. Qed.

Lemma wp_dec_do (f : Dec -> Dec) (Q : unit -> Handler -> Prop) (h : Handler) (d : Dec) :
  m_decoder h = Some d -> Q tt (set_m_decoder (Some (f d)) h) -> wp (dec_do f) Q h.
Proof. intros Hd Hq. unfold wp, dec_do. rewrite Hd. exact Hq. Qed.

End WeakestPrecondition.

Arguments wp : simpl never.
Arguments bind : simpl never.
Arguments ret : simpl never.
Arguments gets : simpl never.
Arguments modify : simpl never.
Arguments undefined : simpl never.
Arguments dec_call : simpl never.
Arguments dec_get : simpl never.
Arguments dec_do : simpl never.
Arguments fail_error : simpl never.

(** Symbolic execution, one statement at a time. *)
Ltac wp_step :=
  cbv zeta;
  lazymatch goal with
  | |- wp (bind _ _) _ _ => apply wp_bind
  | |- wp (ret _) _ _ => apply wp_ret
  | |- wp (gets _) _ _ => apply wp_gets
  | |- wp (modify _) _ _ => apply wp_modify
  | |- wp fail_error _ _ => apply wp_fail_error
  | |- wp (dec_call _) _ _ =>
      eapply wp_dec_call; [simpl; first [reflexivity | eassumption] | intros ? ? ?]
  | |- wp (dec_get _) _ _ =>
      eapply wp_dec_get; [simpl; first [reflexivity | eassumption] | ]
  | |- wp (dec_do _) _ _ =>
      eapply wp_dec_do; [simpl; first [reflexivity | eassumption] | ]
  | |- wp (if negb (bool_decide (is_Some ?x)) then _ else _) _ _ => destruct x eqn:?
  | |- wp (if bool_decide (is_Some ?x) then _ else _) _ _ => destruct x eqn:?
  | |- wp (if ?b then _ else _) _ _ => destruct b eqn:?
  | |- wp (match ?x with _ => _ end) _ _ => destruct x eqn:?
  end; simpl.
Ltac wp_run := repeat wp_step.

(** ** Partial correctness of calls *)

Section Liberal.
Context `{Env}.
Local Open Scope m_scope.

Lemma wlp_ret {A} (a : A) (Q : A -> Handler -> Prop) (h : Handler) :
  Q a h -> wlp (ret a) Q h.
Proof. intros Hq a' h' Heq. inversion Heq; subst. exact Hq. Qed.

Lemma wlp_gets {A} (f : Handler -> A) (Q : A -> Handler -> Prop) (h : Handler) :
  Q (f h) h -> wlp (gets f) Q h.
Proof. intros Hq a' h' Heq. inversion Heq; subst. exact Hq. Qed.

Lemma wlp_modify (f : Handler -> Handler) (Q : unit -> Handler -> Prop) (h : Handler) :
  Q tt (f h) -> wlp (modify f) Q h.
Proof. intros Hq a' h' Heq. inversion Heq; subst. exact Hq. Qed.

Lemma wlp_undefined {A} (Q : A -> Handler -> Prop) (h : Handler) :
  wlp undefined Q h.
Proof. intros a' h' Heq. discriminate. Qed.

Lemma wlp_bind {A B} (c : M A) (k : A -> M B) (Q : B -> Handler -> Prop) (h : Handler) :
  wlp c (fun a h' => wlp (k a) Q h') h -> wlp (bind c k) Q h.
Proof.
  intros Hc b h' Heq. unfold bind in Heq.
  destruct (c h) as [[a h1] | ] eqn:Hch; [ | discriminate].
  exact (Hc a h1 Hch b h' Heq).
Qed.

Lemma wlp_fail_error (Q : bool -> Handler -> Prop) (h : Handler) :
  Q false (set_m_parseState ParseJpegXLError h) -> wlp fail_error Q h.
Proof. intros Hq a' h' Heq. inversion Heq; subst. exact Hq. Qed.

Lemma wlp_dec_call {A} (f : Dec -> A * Dec) (Q : A -> Handler -> Prop) (h : Handler) :
  (forall d a d', m_decoder h = Some d -> f d = (a, d') ->
                  Q a (set_m_decoder (Some d') h)) ->
  wlp (dec_call f) Q h.
Proof.
  intros Hq a h' Heq. unfold dec_call in Heq.
  destruct (m_decoder h) as [d | ] eqn:Hd; [ | discriminate].
  destruct (f d) as [a' d'] eqn:Hf. inversion Heq; subst. eapply Hq; eauto.
Qed.

Lemma wlp_dec_get {A} (f : Dec -> A) (Q : A -> Handler -> Prop) (h : Handler) :
  (forall d, m_decoder h = Some d -> Q (f d) h) -> wlp (dec_get f) Q h.
Proof.
  intros Hq a h' Heq. unfold dec_get in Heq.
  destruct (m_decoder h) as [d | ] eqn:Hd; [ | discriminate].
  inversion Heq; subst. apply Hq. reflexivity.
Qed.

Lemma wlp_dec_do (f : Dec -> Dec) (Q : unit -> Handler -> Prop) (h : Handler) :
  (forall d, m_decoder h = Some d -> Q tt (set_m_decoder (Some (f d)) h)) ->
  wlp (dec_do f) Q h.
Proof.
  intros Hq a h' Heq. unfold dec_do in Heq.
  destruct (m_decoder h) as [d | ] eqn:Hd; [ | discriminate].
  inversion Heq; subst. apply Hq. reflexivity.
Qed.

Lemma wlp_weaken {A} (c : M A) (Q Q' : A -> Handler -> Prop) (h : Handler) :
  wlp c Q h -> (forall a h', Q a h' -> Q' a h') -> wlp c Q' h.
Proof. intros Hq Himp a h' Heq. apply Himp, (Hq a h' Heq). Qed.

Lemma wlp_preserves {A} (I : Handler -> Prop) (c : M A) (h : Handler) :
  preserves I c -> I h -> wlp c (fun _ h' => I h') h.
Proof. intros Hc Hi a h' Heq. exact (Hc h a h' Hi Heq). Qed.

Lemma wlp_both {A} (c : M A) (Q1 Q2 : A -> Handler -> Prop) (h : Handler) :
  wlp c Q1 h -> wlp c Q2 h -> wlp c (fun a h' => Q1 a h' /\ Q2 a h') h.
Proof. intros H1 H2 a h' Heq. split; [exact (H1 a h' Heq) | exact (H2 a h' Heq)]. Qed.

End Liberal.

Arguments wlp : simpl never.

(** The decoder a call finds is the one the last call has left. *)
Ltac wlp_decoder d Hd :=
  simpl in Hd;
  try match type of Hd with
      | Some ?x = Some d => injection Hd as Hd; subst d
      end.

(** Symbolic execution for partial correctness, one statement at a time. *)
Ltac wlp_step :=
  cbv zeta;
  lazymatch goal with
  | |- wlp (bind _ _) _ _ => apply wlp_bind
  | |- wlp (ret _) _ _ => apply wlp_ret
  | |- wlp (gets _) _ _ => apply wlp_gets
  | |- wlp (modify _) _ _ => apply wlp_modify
  | |- wlp undefined _ _ => apply wlp_undefined
  | |- wlp fail_error _ _ => apply wlp_fail_error
  | |- wlp (dec_call _) _ _ =>
      let d := fresh "d" in let Hd := fresh "Hd" in
      apply wlp_dec_call; intros d ? ? Hd ?; wlp_decoder d Hd
  | |- wlp (dec_get _) _ _ =>
      let d := fresh "d" in let Hd := fresh "Hd" in
      apply wlp_dec_get; intros d Hd; wlp_decoder d Hd
  | |- wlp (dec_do _) _ _ =>
      let d := fresh "d" in let Hd := fresh "Hd" in
      apply wlp_dec_do; intros d Hd; wlp_decoder d Hd
  | |- wlp (if ?b then _ else _) _ _ => destruct b eqn:?
  | |- wlp (match ?x with _ => _ end) _ _ => destruct x eqn:?
  end; simpl.
Ltac wlp_run := repeat wlp_step.
Tactic Notation "wlp_if" ident(Hb) :=
  lazymatch goal with
  | |- wlp (if ?b then _ else _) _ _ => destruct b eqn:Hb
  end; simpl.

(** A call whose outcome is known from a fact in the context. *)
Ltac wlp_known :=
  eapply wlp_weaken;
  [ solve [eauto]
  | let r := fresh "r" in let h := fresh "h" in let Hr := fresh "Hr" in
    intros r h Hr; simpl ].
Ltac wlp_go := repeat first [wlp_step | wlp_known].


Section CachedReadCursor.
Context `{Env}.
Variable fuel : nat.
Local Open Scope m_scope.

(** What rewind touches: the cursor goes back to 0, the state becomes
    [ParseJpegXLError] when it fails and stays as it is otherwise. *)
Lemma rewind_outcome (h : Handler) :
  wlp rewind
    (fun b h' =>
       m_currentimage_index h' = 0
       /\ m_previousimage_index h' = m_previousimage_index h
       /\ m_framedelays h' = m_framedelays h
       /\ m_basicinfo h' = m_basicinfo h
       /\ m_next_image_delay h' = m_next_image_delay h
       /\ (b = true -> m_parseState h' = m_parseState h)
       /\ (b = false -> m_parseState h' = ParseJpegXLError)) h.
Proof.
  unfold rewind. wlp_run; repeat split; intros; try reflexivity; discriminate.
Qed.

Lemma jumpToNextImage_single (h : Handler) :
  m_parseState h = ParseJpegXLSuccess \/ m_parseState h = ParseJpegXLFinished ->
  Z.of_nat (length (m_framedelays h)) <= 1 ->
  jumpToNextImage fuel h = Some (true, set_m_parseState ParseJpegXLSuccess h).
Proof.
  intros Hs Hn. unfold jumpToNextImage. unfold bind at 1.
  rewrite (ensureALLCounted_counted fuel h Hs). simpl.
  unfold bind, gets, modify, ret.
  rewrite Z.gtb_ltb. rewrite (proj2 (Z.ltb_ge _ _)) by lia. reflexivity.
Qed.

Lemma jumpToNextImage_skips (h : Handler) (d : Dec) :
  m_parseState h = ParseJpegXLSuccess \/ m_parseState h = ParseJpegXLFinished ->
  m_decoder h = Some d ->
  m_currentimage_index h + 1 < Z.of_nat (length (m_framedelays h)) ->
  1 < Z.of_nat (length (m_framedelays h)) ->
  jumpToNextImage fuel h
  = Some (true, set_m_parseState ParseJpegXLSuccess
                  (set_m_decoder (Some (JxlDecoderSkipFrames d 1))
                     (set_m_currentimage_index (m_currentimage_index h + 1) h))).
Proof.
  intros Hs Hd Hnext Hn. unfold jumpToNextImage. unfold bind at 1.
  rewrite (ensureALLCounted_counted fuel h Hs). simpl.
  unfold bind, gets, modify, ret, dec_do. simpl.
  rewrite (proj2 (Z.gtb_lt _ _)) by lia.
  rewrite Z.geb_leb. rewrite (proj2 (Z.leb_gt _ _)) by lia.
  simpl. rewrite Hd. reflexivity.
Qed.

Lemma jumpToNextImage_wraps (h : Handler) :
  m_parseState h = ParseJpegXLSuccess \/ m_parseState h = ParseJpegXLFinished ->
  Z.of_nat (length (m_framedelays h)) <= m_currentimage_index h + 1 ->
  1 < Z.of_nat (length (m_framedelays h)) ->
  jumpToNextImage fuel h
  = match rewind (set_m_currentimage_index (m_currentimage_index h + 1) h) with
    | Some (true, h1) => Some (true, set_m_parseState ParseJpegXLSuccess h1)
    | Some (false, h1) => Some (false, h1)
    | None => None
    end.
Proof.
  intros Hs Hlast Hn. unfold jumpToNextImage. unfold bind at 1.
  rewrite (ensureALLCounted_counted fuel h Hs). simpl.
  unfold bind at 1. unfold gets at 1. unfold bind at 1.
  rewrite (proj2 (Z.gtb_lt _ _)) by lia.
  unfold bind at 1. unfold gets at 1. unfold bind at 1. unfold modify at 1.
  rewrite Z.geb_leb. rewrite (proj2 (Z.leb_le _ _)) by lia.
  destruct (rewind _) as [[[ | ] h1] | ]; reflexivity.
Qed.

(** C1. When [read] is called after counting has succeeded and
    [m_previousimage_index] equals [m_currentimage_index], it hands out the
    cached [m_current_image] and does what [jumpToNextImage] does and nothing
    else: the cached image stays as it is and no pixel memory is requested.
    Hence a second [read] after a successful first [read], with the cursor
    still on the frame just read, yields the image of the first; and this
    second [read] does return (with [true] when there is a single frame).
    The cursor advances as [jumpToNextImage] advances it: with several
    frames it moves to the next frame, the decoder skipping one frame, or,
    from the last frame, back to frame 0 by a rewind; with a single frame
    it stays.  A [true] leaves the state [ParseJpegXLSuccess], a [false]
    (a rewind that failed) leaves [ParseJpegXLError]. *)
Theorem C1_read_returns_cached_image (h : Handler) (image : QImage) :
  m_parseState h = ParseJpegXLSuccess \/ m_parseState h = ParseJpegXLFinished ->
  m_currentimage_index h = m_previousimage_index h ->
  let n := Z.of_nat (length (m_framedelays h)) in
  let i := m_currentimage_index h in
  read fuel image h =
    match jumpToNextImage fuel h with
    | Some (moved, h') => Some ((moved, m_current_image h), h')
    | None => None
    end
  /\ (forall r h', read fuel image h = Some (r, h') ->
        snd r = m_current_image h /\ m_current_image h' = m_current_image h
        /\ allocations h' = allocations h)
  /\ (forall image0 h0 img, read fuel image0 h0 = Some ((true, img), h) ->
        forall r h', read fuel image h = Some (r, h') -> snd r = img)
  /\ (is_Some (m_decoder h) ->
        exists moved h', read fuel image h = Some ((moved, m_current_image h), h'))
  /\ ((length (m_framedelays h) <= 1)%nat ->
        read fuel image h
        = Some ((true, m_current_image h), set_m_parseState ParseJpegXLSuccess h))
  /\ (forall d, m_decoder h = Some d -> 1 < n -> i + 1 < n ->
        read fuel image h
        = Some ((true, m_current_image h),
                set_m_parseState ParseJpegXLSuccess
                  (set_m_decoder (Some (JxlDecoderSkipFrames d 1))
                     (set_m_currentimage_index (i + 1) h))))
  /\ (1 < n -> n <= i + 1 ->
        read fuel image h
        = match rewind (set_m_currentimage_index (i + 1) h) with
          | Some (true, h1) =>
              Some ((true, m_current_image h), set_m_parseState ParseJpegXLSuccess h1)
          | Some (false, h1) => Some ((false, m_current_image h), h1)
          | None => None
          end)
  /\ (forall r h', read fuel image h = Some (r, h') ->
        m_previousimage_index h' = m_previousimage_index h
        /\ m_framedelays h' = m_framedelays h
        /\ (fst r = true ->
            m_currentimage_index h' = next_frame n i
            /\ m_parseState h' = ParseJpegXLSuccess)
        /\ (fst r = false ->
            m_currentimage_index h' = 0
            /\ m_parseState h' = ParseJpegXLError)).
Proof.
  intros Hs Hidx n i.
  destruct (read_cached_facts fuel h image Hs Hidx) as (Hread & Hkeep & Hsecond & Hruns & Hone).
  split; [exact Hread | ]. split; [exact Hkeep | ]. split; [exact Hsecond | ].
  split; [exact Hruns | ]. split; [exact Hone | ].
  assert (Hskip : forall d, m_decoder h = Some d -> 1 < n -> i + 1 < n ->
            read fuel image h
            = Some ((true, m_current_image h),
                    set_m_parseState ParseJpegXLSuccess
                      (set_m_decoder (Some (JxlDecoderSkipFrames d 1))
                         (set_m_currentimage_index (i + 1) h)))).
  { intros d Hd Hn Hnext. rewrite Hread.
    rewrite (jumpToNextImage_skips h d Hs Hd Hnext Hn). reflexivity. }
  assert (Hwrap : 1 < n -> n <= i + 1 ->
            read fuel image h
            = match rewind (set_m_currentimage_index (i + 1) h) with
              | Some (true, h1) =>
                  Some ((true, m_current_image h), set_m_parseState ParseJpegXLSuccess h1)
              | Some (false, h1) => Some ((false, m_current_image h), h1)
              | None => None
              end).
  { intros Hn Hlast. rewrite Hread.
    rewrite (jumpToNextImage_wraps h Hs Hlast Hn).
    destruct (rewind _) as [[[ | ] h1] | ]; reflexivity. }
  split; [exact Hskip | ]. split; [exact Hwrap | ].
  intros r h' Hrun. unfold next_frame. fold n i.
  destruct (Z_le_gt_dec n 1) as [Hsingle | Hmany].
  - rewrite Hread, (jumpToNextImage_single h Hs Hsingle) in Hrun.
    inversion Hrun; subst; simpl.
    rewrite Z.gtb_ltb. rewrite (proj2 (Z.ltb_ge _ _)) by lia.
    repeat split; try reflexivity; discriminate.
  - rewrite (proj2 (Z.gtb_lt _ _)) by lia.
    destruct (Z_lt_le_dec (i + 1) n) as [Hnext | Hlast].
    + rewrite Z.geb_leb. rewrite (proj2 (Z.leb_gt _ _)) by lia.
      destruct (m_decoder h) as [d | ] eqn:Hd.
      * rewrite (Hskip d eq_refl) in Hrun by lia.
        inversion Hrun; subst; simpl. repeat split; try reflexivity; discriminate.
      * rewrite Hread in Hrun. unfold jumpToNextImage in Hrun. unfold bind at 1 in Hrun.
        rewrite (ensureALLCounted_counted fuel h Hs) in Hrun. simpl in Hrun.
        unfold bind, gets, modify, ret, dec_do in Hrun. simpl in Hrun.
        fold n i in Hrun.
        rewrite (proj2 (Z.gtb_lt _ _)) in Hrun by lia.
        rewrite Z.geb_leb in Hrun. rewrite (proj2 (Z.leb_gt _ _)) in Hrun by lia.
        simpl in Hrun. rewrite Hd in Hrun. discriminate.
    + rewrite Z.geb_leb. rewrite (proj2 (Z.leb_le _ _)) by lia.
      rewrite (Hwrap ltac:(lia) Hlast) in Hrun.
      destruct (rewind (set_m_currentimage_index (i + 1) h)) as [[b h1] | ] eqn:Hrew;
        [ | discriminate].
      destruct (rewind_outcome _ b h1 Hrew)
        as (Hzero & Hprev & Hdelays & _ & _ & Htrue & Hfalse).
      simpl in Hprev, Hdelays.
      destruct b; inversion Hrun; subst; simpl;
        repeat split; auto; discriminate.
Qed.

End CachedReadCursor.

Section Parsing.
Context `{Env}.
Variable fuel : nat.
Local Open Scope m_scope.

Lemma read_in_error (h : Handler) (image : QImage) :
  m_parseState h = ParseJpegXLError ->
  read fuel image h = Some ((false, image), h).
Proof.
  intros Hs. unfold read, ensureALLCounted, ensureParsed, bind, gets, ret.
  rewrite Hs. reflexivity.
Qed.

(** From a handler without decoder on a device, ensureDecoder returns. *)
Lemma ensureDecoder_runs (h : Handler) (bytes : QByteArray) :
  m_decoder h = None ->
  device h = Some bytes ->
  wp ensureDecoder (fun _ _ => True) h.
Proof.
  intros Hdec Hdev.
  unfold ensureDecoder, readAll.
  wp_step. wp_step. rewrite Hdec. simpl. wp_step. wp_step. rewrite Hdev.
  wp_run; exact I.
Qed.

(** What ensureDecoder leaves when it returns. *)
Lemma ensureDecoder_outcome (h : Handler) :
  m_decoder h = None ->
  wlp ensureDecoder
    (fun b h' =>
       allocations h' = allocations h
       /\ m_current_image h' = m_current_image h
       /\ device h' = Some []
       /\ (exists bytes, device h = Some bytes /\ m_rawData h' = bytes)
       /\ (b = true ->
           m_parseState h' = ParseJpegXLBasicInfoParsed
           /\ (exists d, m_decoder h' = Some d
                         /\ JxlDecoderGetBasicInfo d = (JXL_DEC_SUCCESS, m_basicinfo h'))
           /\ m_rawData h' <> []
           /\ (JxlSignatureCheck (m_rawData h') = JXL_SIG_CODESTREAM
               \/ JxlSignatureCheck (m_rawData h') = JXL_SIG_CONTAINER)
           /\ xsize (m_basicinfo h') <> 0 /\ ysize (m_basicinfo h') <> 0
           /\ xsize (m_basicinfo h') <= MAX_IMAGE_WIDTH
           /\ ysize (m_basicinfo h') <= MAX_IMAGE_HEIGHT)
       /\ (b = false ->
           (m_parseState h' = ParseJpegXLError
            /\ (m_decoder h' = None ->
                JxlDecoderCreate = None
                \/ (JxlSignatureCheck (m_rawData h') <> JXL_SIG_CODESTREAM
                    /\ JxlSignatureCheck (m_rawData h') <> JXL_SIG_CONTAINER)))
           \/ (m_parseState h' = m_parseState h /\ m_rawData h' = []
               /\ m_decoder h' = None))) h.
Proof.
  intros Hdec. unfold ensureDecoder, readAll.
  wlp_step. wlp_step. rewrite Hdec.
  rewrite bool_decide_eq_false_2 by (intros [? ?]; discriminate).
  wlp_step. wlp_step.
  destruct (device h) as [bytes | ] eqn:Hdev; [ | apply wlp_undefined].
  wlp_step. wlp_step. wlp_step. wlp_step.
  wlp_if Hempty.
  { apply bool_decide_eq_true in Hempty. subst bytes.
    wlp_step. repeat split; eauto; try discriminate. }
  apply bool_decide_eq_false in Hempty.
  wlp_if Hsig.
  { apply andb_true_iff in Hsig. destruct Hsig as [Hc Hk].
    apply negb_true_iff, bool_decide_eq_false in Hc, Hk.
    wlp_step. repeat split; eauto; try discriminate. }
  assert (Hsig' : JxlSignatureCheck bytes = JXL_SIG_CODESTREAM
                  \/ JxlSignatureCheck bytes = JXL_SIG_CONTAINER).
  { apply andb_false_iff in Hsig.
    destruct Hsig as [Hs | Hs]; apply negb_false_iff, bool_decide_eq_true in Hs; auto. }
  wlp_step. wlp_step. wlp_step. wlp_step.
  destruct JxlDecoderCreate as [d0 | ] eqn:Hcreate; simpl.
  2:{ wlp_step. repeat split; eauto; try discriminate. }
  wlp_run.
  all: split; [reflexivity | ]; split; [reflexivity | ]; split; [reflexivity | ].
  all: split; [eexists; split; reflexivity | ].
  all: split; [ | intros Hb; try discriminate Hb].
  all: try (intros Hb; discriminate Hb).
  all: try (left; split; [reflexivity | discriminate]).
  all: intros _;
    match goal with
    | Hz : (xsize ?i =? 0) || (ysize ?i =? 0) = false,
      Hm : (xsize ?i >? _) || (ysize ?i >? _) = false,
      Hs : (fst (JxlDecoderGetBasicInfo ?d) == JXL_DEC_SUCCESS) = true |- _ =>
        apply orb_false_iff in Hz; destruct Hz as [Hzx Hzy];
        apply orb_false_iff in Hm; destruct Hm as [Hmx Hmy];
        apply Z.eqb_neq in Hzx, Hzy;
        rewrite Z.gtb_ltb in Hmx, Hmy; apply Z.ltb_ge in Hmx, Hmy;
        apply bool_decide_eq_true in Hs;
        repeat split; try assumption;
        exists d; split; [reflexivity | ];
        destruct (JxlDecoderGetBasicInfo d) as [st info]; simpl in *; subst st; reflexivity
    end.
Qed.

Lemma write_output_info_pixel_cap (img : QImageData) (h : Handler) :
  img_width img * img_height img > MAX_IMAGE_PIXELS ->
  write_output_info (Some img) h = Some (None, h).
Proof.
  intros Hpix. unfold write_output_info.
  destruct (img_format img == Format_Invalid); [reflexivity | ].
  destruct ((img_width img =? 0) || (img_height img =? 0)); [reflexivity | ].
  destruct ((img_width img >? MAX_IMAGE_WIDTH) || (img_height img >? MAX_IMAGE_HEIGHT));
    [reflexivity | ].
  cbv zeta.
  rewrite (proj2 (Z.gtb_lt (img_width img * img_height img) MAX_IMAGE_PIXELS)) by lia.
  reflexivity.
Qed.

(** C4 (as amended). On a device, ensureParsed (that is ensureDecoder)
    returns and requests no pixel memory.  When the decoder it has opened
    on the input, the one it leaves in the handler, reports a width or a
    height above the platform limit, it has returned [false] with
    [ParseJpegXLError], and any [read] that follows returns [false]
    without decoding or allocating; when it has returned [true], the basic
    info it keeps is the one that decoder reports.  The pixel count is not
    looked at here: it is [write] that refuses an image of more than 2^28
    pixels, before it creates an encoder. *)
Theorem C4_oversized_dimensions_rejected (h : Handler) (bytes : QByteArray) :
  m_parseState h = ParseJpegXLNotParsed ->
  m_decoder h = None ->
  device h = Some bytes ->
  (exists b h',
     ensureParsed h = Some (b, h')
     /\ allocations h' = allocations h
     /\ m_current_image h' = m_current_image h
     /\ (forall d, m_decoder h' = Some d ->
           xsize (snd (JxlDecoderGetBasicInfo d)) > MAX_IMAGE_WIDTH
           \/ ysize (snd (JxlDecoderGetBasicInfo d)) > MAX_IMAGE_HEIGHT ->
           b = false
           /\ m_parseState h' = ParseJpegXLError
           /\ (forall image, read fuel image h' = Some ((false, image), h')))
     /\ (b = true ->
         exists d, m_decoder h' = Some d
                   /\ JxlDecoderGetBasicInfo d = (JXL_DEC_SUCCESS, m_basicinfo h')))
  /\ (forall img g, img_width img * img_height img > MAX_IMAGE_PIXELS ->
        write_output_info (Some img) g = Some (None, g)).
Proof.
  intros Hst Hdec Hdev.
  split; [ | intros img g; apply write_output_info_pixel_cap].
  destruct (wp_elim _ _ _ (ensureDecoder_runs h bytes Hdec Hdev)) as (b & h' & Hrun & _).
  destruct (ensureDecoder_outcome h Hdec b h' Hrun)
    as (Halloc & Himg & _ & _ & Htrue & Hfalse).
  exists b, h'. split.
  { unfold ensureParsed, bind, gets. rewrite Hst. simpl. exact Hrun. }
  split; [exact Halloc | ]. split; [exact Himg | ].
  split.
  - intros d Hd Hbig.
    destruct b.
    + destruct (Htrue eq_refl) as (_ & (d' & Hd' & Hinfo) & _ & _ & _ & _ & Hx & Hy).
      rewrite Hd in Hd'. inversion Hd'; subst d'. rewrite Hinfo in Hbig. simpl in Hbig.
      lia.
    + destruct (Hfalse eq_refl) as [[Herr _] | (_ & _ & Hnone)].
      * split; [reflexivity | ]. split; [exact Herr | ].
        intros image. apply read_in_error. exact Herr.
      * rewrite Hd in Hnone. discriminate.
  - intros ->. destruct (Htrue eq_refl) as (_ & Hinfo & _). exact Hinfo.
Qed.

End Parsing.

Section Boxes.
Context `{Env}.
Local Open Scope m_scope.

Lemma wp_mono {A} (c : M A) (Q Q' : A -> Handler -> Prop) (h : Handler) :
  wp c Q h -> (forall a h', Q a h' -> Q' a h') -> wp c Q' h.
Proof.
  unfold wp. destruct (c h) as [[a h'] | ]; [ | tauto]. intros Hq Himp. apply Himp, Hq.
Qed.

Lemma extract_bound_step (size : Z) :
  size <= BOX_LIMIT -> extract_bound size = S (extract_bound (size + BOX_INCREMENT)).
Proof.
  intros Hle. unfold extract_bound, BOX_LIMIT, BOX_INCREMENT in *. f_equal.
  replace (4194304 - (size + 16384)) with ((4194304 - size) + (-1) * 16384) by lia.
  rewrite Z.div_add by lia.
  assert (0 <= (4194304 - size) / 16384) by (apply Z.div_pos; lia).
  replace ((4194304 - size) / 16384 + -1 + 1) with ((4194304 - size) / 16384) by lia.
  rewrite Z2Nat.inj_add by lia. simpl. lia.
Qed.

Lemma extract_loop_spec (n : nat) :
  forall (size : Z) (h : Handler),
    is_Some (m_decoder h) ->
    (extract_bound size <= n)%nat ->
    wp (extract_loop n size) (extract_loop_post size) h.
Proof.
  induction n as [ | n IH]; intros size h [d Hd] Hn.
  - unfold extract_bound in Hn. lia.
  - simpl extract_loop.
    wp_step. wp_step.
    destruct (bool_decide (a = JXL_DEC_BOX_NEED_MORE_OUTPUT)) eqn:Hmore.
    + wp_step. wp_step.
      destruct (size >? BOX_LIMIT) eqn:Hlim.
      * wp_run. split; [eauto | auto].
      * rewrite Z.gtb_ltb in Hlim. apply Z.ltb_ge in Hlim.
        wp_step. wp_step.
        destruct (bool_decide (a1 = JXL_DEC_SUCCESS)) eqn:Hset; simpl.
        -- eapply wp_mono.
           ++ apply IH; [simpl; eauto | ].
              rewrite (extract_bound_step size Hlim) in Hn. lia.
           ++ intros r h' [Hdec Hpost]. split; [exact Hdec | ].
              destruct r as [b | [status size']]; [exact Hpost | ].
              destruct Hpost as (Hst & k & Hk & Hsize & Hcap).
              split; [exact Hst | ].
              exists (k + 1). split; [lia | ]. split; [lia | ].
              intros _. destruct (Z.eq_dec k 0) as [-> | Hpos]; [lia | apply Hcap; lia].
        -- wp_run. split; [eauto | auto].
    + wp_step. split; [eauto | ].
      split.
      * apply bool_decide_eq_false in Hmore. exact Hmore.
      * exists 0. split; [lia | ]. split; lia.
Qed.

(** The loop along a decoder that asks for more output [k] times: it
    returns [false] in the error state if the decoder then asks once more
    with the buffer above the limit, and it is left with the buffer grown
    [k] times if the decoder then reports something else and no growth
    started above the limit. *)
Lemma extract_loop_grows (d dk : Dec) (k : nat) :
  grows d k dk ->
  forall (n : nat) (size : Z) (h : Handler),
    m_decoder h = Some d ->
    (extract_bound size <= n)%nat ->
    (forall dk', JxlDecoderProcessInput dk = (JXL_DEC_BOX_NEED_MORE_OUTPUT, dk') ->
       size + Z.of_nat k * BOX_INCREMENT > BOX_LIMIT ->
       exists h', extract_loop n size h = Some (Returned false, h')
                  /\ m_parseState h' = ParseJpegXLError)
    /\ (forall st dk', JxlDecoderProcessInput dk = (st, dk') ->
          st <> JXL_DEC_BOX_NEED_MORE_OUTPUT ->
          k = 0%nat \/ size + (Z.of_nat k - 1) * BOX_INCREMENT <= BOX_LIMIT ->
          extract_loop n size h
          = Some (Fallthrough (st, size + Z.of_nat k * BOX_INCREMENT),
                  set_m_decoder (Some dk') h)).
Proof.
  induction 1 as [d | d d1 d2 d3 dk rem k Hproc Hrel Hset Hgrows IH];
    intros n size h Hd Hn;
    (destruct n as [ | n]; [unfold extract_bound in Hn; lia | ]).
  - split.
    + intros dk' Hmore Hbig. simpl extract_loop.
      unfold bind, dec_call, fail_error, modify, ret. rewrite Hd, Hmore. simpl.
      rewrite (proj2 (Z.gtb_lt size BOX_LIMIT)) by lia.
      destruct (JxlDecoderReleaseBoxBuffer dk') as [rem d2]. simpl.
      eexists. split; reflexivity.
    + intros st dk' Hst Hne _. simpl extract_loop.
      unfold bind, dec_call, ret. rewrite Hd, Hst.
      rewrite bool_decide_eq_false_2 by exact Hne.
      rewrite Z.mul_0_l, Z.add_0_r. reflexivity.
  - assert (Hstep : size <= BOX_LIMIT ->
              extract_loop (S n) size h
              = extract_loop n (size + BOX_INCREMENT) (set_m_decoder (Some d3) h)).
    { intros Hle. simpl extract_loop.
      unfold bind at 1. unfold dec_call at 1. rewrite Hd, Hproc. simpl.
      unfold bind at 1. unfold dec_call at 1. simpl. rewrite Hrel.
      rewrite Z.gtb_ltb. rewrite (proj2 (Z.ltb_ge BOX_LIMIT size)) by lia.
      cbv zeta. unfold bind at 1. unfold dec_call at 1. simpl. rewrite Hset. simpl.
      reflexivity. }
    assert (Hfail : size > BOX_LIMIT ->
              exists h', extract_loop (S n) size h = Some (Returned false, h')
                         /\ m_parseState h' = ParseJpegXLError).
    { intros Hgt. simpl extract_loop.
      unfold bind, dec_call, fail_error, modify, ret. rewrite Hd, Hproc. simpl.
      rewrite Hrel. rewrite (proj2 (Z.gtb_lt size BOX_LIMIT)) by lia.
      eexists. split; reflexivity. }
    destruct (Z_le_gt_dec size BOX_LIMIT) as [Hle | Hgt].
    + rewrite (Hstep Hle).
      assert (Hn' : (extract_bound (size + BOX_INCREMENT) <= n)%nat).
      { rewrite (extract_bound_step size Hle) in Hn. lia. }
      destruct (IH n (size + BOX_INCREMENT) (set_m_decoder (Some d3) h) eq_refl Hn')
        as [Hreject Haccept].
      split.
      * intros dk' Hmore Hbig. apply (Hreject dk' Hmore). lia.
      * intros st dk' Hst Hne Hok.
        rewrite (Haccept st dk' Hst Hne) by lia.
        f_equal. f_equal. f_equal. f_equal. lia.
    + split.
      * intros dk' _ _. apply Hfail. exact Hgt.
      * intros st dk' _ _ [Hk | Hk]; [discriminate | ].
        unfold BOX_INCREMENT in Hk. lia.
Qed.

Local Arguments extract_loop : simpl never.

Lemma extractBox_bounds (h : Handler) (d : Dec) (output : BoxOutput)
    (container_size : Z) :
  JPEGXL_VERSION_AT_LEAST_0_11_0 = true ->
  m_decoder h = Some d ->
  (forall d0, 0 <= fst (JxlDecoderReleaseBoxBuffer d0)) ->
  let rawboxsize := snd (JxlDecoderGetBoxSizeRaw d) in
  exists r h', extractBox output container_size h = Some (r, h')
    /\ match r with
       | None => m_parseState h' = ParseJpegXLError
       | Some o =>
           rawboxsize <= container_size
           /\ (exists k unused,
                 0 <= k /\ 0 <= unused
                 /\ out_size o = Z.max 0 (rawboxsize + k * BOX_INCREMENT - unused)
                 /\ (0 < k -> rawboxsize + k * BOX_INCREMENT <= BOX_LIMIT + BOX_INCREMENT))
           /\ out_size o <= Z.max 0 (Z.max rawboxsize (BOX_LIMIT + BOX_INCREMENT))
       end
    /\ (rawboxsize > container_size -> r = None).
Proof.
  intros Hver Hd Hunsigned rawboxsize.
  apply wp_elim with (Q := fun r h' =>
    match r with
    | None => m_parseState h' = ParseJpegXLError
    | Some o =>
        rawboxsize <= container_size
        /\ (exists k unused,
              0 <= k /\ 0 <= unused
              /\ out_size o = Z.max 0 (rawboxsize + k * BOX_INCREMENT - unused)
              /\ (0 < k -> rawboxsize + k * BOX_INCREMENT <= BOX_LIMIT + BOX_INCREMENT))
        /\ out_size o <= Z.max 0 (Z.max rawboxsize (BOX_LIMIT + BOX_INCREMENT))
    end /\ (rawboxsize > container_size -> r = None)).
  unfold extractBox. rewrite Hver.
  wp_step. wp_step.
  destruct (bool_decide ((JxlDecoderGetBoxSizeRaw d).1 = JXL_DEC_SUCCESS)) eqn:Hraw; simpl.
  2: { wp_run. auto. }
  fold rawboxsize.
  destruct (rawboxsize >? container_size) eqn:Hfit.
  { wp_run. auto. }
  rewrite Z.gtb_ltb in Hfit. apply Z.ltb_ge in Hfit.
  wp_step. wp_step.
  destruct (bool_decide (a = JXL_DEC_SUCCESS)) eqn:Hset; simpl.
  2: { wp_run. split; [reflexivity | auto]. }
  wp_step.
  eapply wp_mono.
  { apply extract_loop_spec; [simpl; eauto | lia]. }
  intros r h1 [[d1 Hd1] Hpost].
  destruct r as [b | [status size']].
  { wp_run. destruct Hpost as [_ Herr]. split; [exact Herr | auto]. }
  destruct Hpost as (_ & k & Hk & Hsize & Hcap).
  destruct (bool_decide (status = JXL_DEC_BOX_COMPLETE)) eqn:Hdone; simpl.
  2: { wp_run. split; [reflexivity | auto]. }
  wp_step.
  eapply wp_dec_call; [exact Hd1 | intros unused d2 Hrel].
  assert (Hpos : 0 <= unused).
  { specialize (Hunsigned d1). rewrite Hrel in Hunsigned. exact Hunsigned. }
  simpl. wp_step. wp_step. wp_step.
  split; [ | intros Hbig; lia].
  split; [exact Hfit | ].
  subst size'. simpl. split.
  - exists k, unused. auto.
  - destruct (Z.eq_dec k 0) as [-> | Hne]; [lia | ].
    assert (rawboxsize + k * BOX_INCREMENT <= BOX_LIMIT + BOX_INCREMENT) by (apply Hcap; lia).
    lia.
Qed.

Lemma extractBox_opens (h : Handler) (d d0 : Dec) (output : BoxOutput)
    (container_size : Z) :
  JPEGXL_VERSION_AT_LEAST_0_11_0 = true ->
  m_decoder h = Some d ->
  fst (JxlDecoderGetBoxSizeRaw d) = JXL_DEC_SUCCESS ->
  snd (JxlDecoderGetBoxSizeRaw d) <= container_size ->
  JxlDecoderSetBoxBuffer d (snd (JxlDecoderGetBoxSizeRaw d)) = (JXL_DEC_SUCCESS, d0) ->
  extractBox output container_size h
  = match extract_loop (extract_bound (snd (JxlDecoderGetBoxSizeRaw d)))
            (snd (JxlDecoderGetBoxSizeRaw d)) (set_m_decoder (Some d0) h) with
    | Some (Returned _, h1) => Some (None, h1)
    | Some (Fallthrough (status, size), h1) =>
        if status != JXL_DEC_BOX_COMPLETE
        then Some (None, set_m_parseState ParseJpegXLError h1)
        else
          match m_decoder h1 with
          | Some d1 =>
              let (unused_bytes, d2) := JxlDecoderReleaseBoxBuffer d1 in
              Some (Some {| out_size := Z.max 0 (size - unused_bytes);
                            out_bytes := JxlBoxBufferContents d2
                                           (Z.max 0 (size - unused_bytes)) |},
                    set_m_decoder (Some d2) h1)
          | None => None
          end
    | None => None
    end.
Proof.
  intros Hver Hd Hraw Hfit Hset.
  unfold extractBox. rewrite Hver.
  unfold bind at 1. unfold dec_get at 1. rewrite Hd.
  rewrite Hraw. simpl.
  rewrite Z.gtb_ltb. rewrite (proj2 (Z.ltb_ge _ _)) by lia.
  unfold bind at 1. unfold dec_call at 1. rewrite Hd, Hset. simpl.
  unfold bind at 1.
  destruct (extract_loop _ _ _) as [[[b | [status size]] h1] | ]; try reflexivity.
  destruct (status != JXL_DEC_BOX_COMPLETE); [reflexivity | ].
  unfold bind at 1. unfold dec_call at 1.
  destruct (m_decoder h1) as [d1 | ]; [ | reflexivity].
  destruct (JxlDecoderReleaseBoxBuffer d1) as [unused d2]. reflexivity.
Qed.

(** C5 (as amended). With libjxl 0.11 or later, extractBox always has a
    result.  The buffer starts at the raw box size, and the box is rejected
    with [ParseJpegXLError] when that size exceeds the container length.
    On [JXL_DEC_BOX_NEED_MORE_OUTPUT] the buffer grows by 16 KiB at a time,
    and a request to grow a buffer that is already above 4 MiB is rejected
    with [ParseJpegXLError]; so a buffer that has grown is at most
    4 MiB + 16 KiB.  The extracted box is the buffer without the unused
    bytes at its end, hence never longer than the larger of the raw box
    size and 4 MiB + 16 KiB.  Along a decoder that asks for more output
    [k] times and then once more with the buffer above 4 MiB, the box is
    rejected; along one that then reports the box complete, no growth
    having started above 4 MiB, the box is the raw size and [k] times
    16 KiB long, less the unused bytes; any other report rejects it. *)
Theorem C5_box_extraction_bounds (h : Handler) (d : Dec) (output : BoxOutput)
    (container_size : Z) :
  JPEGXL_VERSION_AT_LEAST_0_11_0 = true ->
  m_decoder h = Some d ->
  (forall d0, 0 <= fst (JxlDecoderReleaseBoxBuffer d0)) ->
  let rawboxsize := snd (JxlDecoderGetBoxSizeRaw d) in
  exists r h', extractBox output container_size h = Some (r, h')
    /\ match r with
       | None => m_parseState h' = ParseJpegXLError
       | Some o =>
           rawboxsize <= container_size
           /\ (exists k unused,
                 0 <= k /\ 0 <= unused
                 /\ out_size o = Z.max 0 (rawboxsize + k * BOX_INCREMENT - unused)
                 /\ (0 < k -> rawboxsize + k * BOX_INCREMENT <= BOX_LIMIT + BOX_INCREMENT))
           /\ out_size o <= Z.max 0 (Z.max rawboxsize (BOX_LIMIT + BOX_INCREMENT))
       end
    /\ (rawboxsize > container_size -> r = None)
    /\ (forall (d0 dk : Dec) (k : nat),
          fst (JxlDecoderGetBoxSizeRaw d) = JXL_DEC_SUCCESS ->
          rawboxsize <= container_size ->
          JxlDecoderSetBoxBuffer d rawboxsize = (JXL_DEC_SUCCESS, d0) ->
          grows d0 k dk ->
          let size := rawboxsize + Z.of_nat k * BOX_INCREMENT in
          (forall dk',
             JxlDecoderProcessInput dk = (JXL_DEC_BOX_NEED_MORE_OUTPUT, dk') ->
             size > BOX_LIMIT ->
             r = None)
          /\ (forall st dk',
                JxlDecoderProcessInput dk = (st, dk') ->
                st <> JXL_DEC_BOX_NEED_MORE_OUTPUT ->
                st <> JXL_DEC_BOX_COMPLETE ->
                k = 0%nat \/ size - BOX_INCREMENT <= BOX_LIMIT ->
                r = None)
          /\ (forall dk' dk'' unused,
                JxlDecoderProcessInput dk = (JXL_DEC_BOX_COMPLETE, dk') ->
                k = 0%nat \/ size - BOX_INCREMENT <= BOX_LIMIT ->
                JxlDecoderReleaseBoxBuffer dk' = (unused, dk'') ->
                r = Some {| out_size := Z.max 0 (size - unused);
                            out_bytes := JxlBoxBufferContents dk'' (Z.max 0 (size - unused)) |}
                /\ m_decoder h' = Some dk'')).
Proof.
  intros Hver Hd Hunsigned rawboxsize.
  destruct (extractBox_bounds h d output container_size Hver Hd Hunsigned)
    as (r & h' & Hrun & Hshape & Hbig).
  exists r, h'. split; [exact Hrun | ]. split; [exact Hshape | ]. split; [exact Hbig | ].
  intros d0 dk k Hraw Hfit Hset Hgrows size.
  rewrite (extractBox_opens h d d0 output container_size Hver Hd Hraw Hfit Hset) in Hrun.
  fold rawboxsize in Hrun.
  destruct (extract_loop_grows d0 dk k Hgrows (extract_bound rawboxsize) rawboxsize
              (set_m_decoder (Some d0) h) eq_refl (le_n _)) as [Hreject Haccept].
  split; [ | split].
  - intros dk' Hmore Hover.
    destruct (Hreject dk' Hmore Hover) as (h1 & Hloop & _).
    rewrite Hloop in Hrun. inversion Hrun; reflexivity.
  - intros st dk' Hst Hne Hnc Hok.
    rewrite (Haccept st dk' Hst Hne) in Hrun by (unfold size in Hok; lia).
    rewrite (proj2 (negb_true_iff _)) in Hrun by (apply bool_decide_eq_false; exact Hnc).
    inversion Hrun; reflexivity.
  - intros dk' dk'' unused Hdone Hok Hrel.
    rewrite (Haccept JXL_DEC_BOX_COMPLETE dk' Hdone) in Hrun
      by (first [discriminate | unfold size in Hok; lia]).
    simpl in Hrun. rewrite Hrel in Hrun. inversion Hrun; subst. split; reflexivity.
Qed.

End Boxes.

(** ** Frame counting *)

Ltac fields_side :=
  intros; cbv beta; unfold delays_info_are, info_is in *; simpl; tauto.

Section CountingLemmas.
Context `{Env}.
Variable fuel : nat.
Local Open Scope m_scope.

Lemma count_frames_info (info : JxlBasicInfo) (n : nat) :
  preserves (info_is info) (count_frames n).
Proof.
  induction n as [ | n IH]; simpl count_frames; preserves_auto fields_side.
Qed.

Section DelaysInfo.
Variable delays : list Z.
Variable info : JxlBasicInfo.
Let I := delays_info_are delays info.

Lemma request_srgb_output_keeps : preserves I request_srgb_output.
Proof. unfold request_srgb_output. preserves_auto fields_side. Qed.

Lemma set_pixel_format_plan_keeps : preserves I set_pixel_format_plan.
Proof. unfold set_pixel_format_plan. preserves_auto fields_side. Qed.

Lemma read_colorspace_keeps : preserves I read_colorspace.
Proof. unfold read_colorspace. preserves_auto fields_side. Qed.

Lemma find_alpha_keeps (n : nat) : forall i, preserves I (find_alpha n i).
Proof.
  induction n as [ | n IH]; intros i; simpl find_alpha; preserves_auto fields_side.
  apply IH.
Qed.

Lemma scan_extra_channels_keeps (n : nat) :
  forall i found, preserves I (scan_extra_channels n i found).
Proof.
  induction n as [ | n IH]; intros i found; simpl scan_extra_channels.
  - preserves_auto fields_side.
  - pose proof (find_alpha_keeps n (i + 1)).
    pose proof (IH (i + 1) true). pose proof (IH (i + 1) found).
    preserves_auto fields_side.
Qed.

Lemma detect_cmyk_keeps : preserves I detect_cmyk.
Proof.
  unfold detect_cmyk.
  preserves_auto fields_side. apply scan_extra_channels_keeps.
Qed.

Lemma extract_loop_keeps (n : nat) : forall size, preserves I (extract_loop n size).
Proof.
  induction n as [ | n IH]; intros size; simpl extract_loop; preserves_auto fields_side.
  apply IH.
Qed.

Lemma extractBox_keeps (o : BoxOutput) (c : Z) : preserves I (extractBox o c).
Proof.
  unfold extractBox.
  preserves_auto fields_side. apply extract_loop_keeps.
Qed.

Lemma scan_boxes_keeps (n : nat) :
  forall len se sx eb xb, preserves I (scan_boxes n len se sx eb xb).
Proof.
  induction n as [ | n IH]; intros len se sx eb xb; simpl scan_boxes.
  - preserves_auto fields_side.
  - pose proof (extractBox_keeps eb len). pose proof (extractBox_keeps xb len).
    preserves_auto fields_side; apply IH.
Qed.

Lemma decodeContainer_keeps : preserves I (decodeContainer fuel).
Proof.
  unfold decodeContainer.
  preserves_auto fields_side; try apply scan_boxes_keeps; preserves_auto fields_side.
Qed.

Lemma rewind_keeps : preserves I rewind.
Proof. unfold rewind. preserves_auto fields_side. Qed.

End DelaysInfo.

End CountingLemmas.

Section CountingInvariant.
Context `{Env}.
Variable fuel : nat.
Local Open Scope m_scope.

Lemma bind_inv {A B} (I : Handler -> Prop) (c : M A) (k : A -> M B)
    (h : Handler) (b : B) (h' : Handler) :
  preserves I c -> I h -> bind c k h = Some (b, h') ->
  exists a h1, I h1 /\ c h = Some (a, h1) /\ k a h1 = Some (b, h').
Proof.
  intros Hc Hi Hrun. unfold bind in Hrun.
  destruct (c h) as [[a h1] | ] eqn:Hch; [ | discriminate].
  exists a, h1. split; [eapply Hc; eassumption | auto].
Qed.

Lemma insert_resize_one (l : list Z) : <[0%nat := 0]> (resize 1 0 l) = [0].
Proof. destruct l as [ | x [ | y l]]; reflexivity. Qed.

(** What [count_all] leaves when it returns [true]. *)
Lemma count_all_post (h h1 : Handler) :
  count_all fuel h = Some (true, h1) ->
  have_animation (m_basicinfo h1) = false ->
  exists d, m_framedelays h1 = [d]
            /\ (have_animation (m_basicinfo h) = false -> d = 0).
Proof.
  unfold count_all. unfold bind at 1. unfold gets at 1.
  destruct (have_animation (m_basicinfo h)) eqn:Hanim.
  - intros Hrun.
    apply (bind_inv (info_is (m_basicinfo h))) in Hrun;
      [ | apply count_frames_info | reflexivity].
    destruct Hrun as (left & h2 & Hinfo & _ & Hrun).
    destruct left; simpl in Hrun; [ | discriminate].
    unfold bind, gets, modify, ret, fail_error in Hrun.
    destruct (bool_decide (m_framedelays h2 = [])); simpl in Hrun; [discriminate | ].
    destruct (Z.of_nat (length (m_framedelays h2)) =? 1) eqn:Hone;
      inversion Hrun; subst; simpl; intros Hstatic.
    + apply Z.eqb_eq in Hone.
      destruct (m_framedelays h2) as [ | d [ | d' l]]; simpl in Hone; try lia.
      exists d. split; [reflexivity | discriminate].
    + unfold info_is in Hinfo. rewrite Hinfo, Hanim in Hstatic. discriminate.
  - unfold bind, gets, modify, ret. intros Hrun Hstatic. inversion Hrun; subst; simpl.
    rewrite insert_resize_one. exists 0. auto.
Qed.

Lemma countALLFrames_post (h h' : Handler) :
  countALLFrames fuel h = Some (true, h') ->
  m_parseState h' = ParseJpegXLSuccess
  /\ (have_animation (m_basicinfo h') = false ->
      exists d, m_framedelays h' = [d]
                /\ (have_animation (m_basicinfo h) = false -> d = 0)).
Proof.
  intros Hrun. split; [eapply countALLFrames_true; eauto | ].
  unfold countALLFrames in Hrun.
  set (I0 := delays_info_are (m_framedelays h) (m_basicinfo h)).
  assert (Hi0 : I0 h) by (split; reflexivity).
  apply (bind_inv I0) in Hrun; [ | preserves_auto fields_side | exact Hi0].
  destruct Hrun as (st & h1 & Hi1 & _ & Hrun).
  destruct (st != ParseJpegXLBasicInfoParsed); [discriminate | ].
  apply (bind_inv I0) in Hrun; [ | preserves_auto fields_side | exact Hi1].
  destruct Hrun as (status & h2 & Hi2 & _ & Hrun).
  destruct (status != JXL_DEC_COLOR_ENCODING); [discriminate | ].
  apply (bind_inv I0) in Hrun; [ | apply request_srgb_output_keeps | exact Hi2].
  destruct Hrun as (? & h3 & Hi3 & _ & Hrun).
  apply (bind_inv I0) in Hrun; [ | apply set_pixel_format_plan_keeps | exact Hi3].
  destruct Hrun as (? & h4 & Hi4 & _ & Hrun).
  apply (bind_inv I0) in Hrun; [ | apply read_colorspace_keeps | exact Hi4].
  destruct Hrun as (? & h5 & Hi5 & _ & Hrun).
  unfold bind at 1 in Hrun.
  destruct (count_all fuel h5) as [[counted_ok h6] | ] eqn:Hcount; [ | discriminate].
  destruct counted_ok; simpl in Hrun; [ | discriminate].
  pose proof (count_all_post h5 h6 Hcount) as Hpost.
  destruct Hi5 as [_ Hinfo5]. rewrite Hinfo5 in Hpost.
  set (I1 := delays_info_are (m_framedelays h6) (m_basicinfo h6)).
  assert (Hi6 : I1 h6) by (split; reflexivity).
  apply (bind_inv I1) in Hrun; [ | apply detect_cmyk_keeps | exact Hi6].
  destruct Hrun as (cmyk & h7 & Hi7 & _ & Hrun).
  destruct cmyk; simpl in Hrun; [ | discriminate].
  apply (bind_inv I1) in Hrun;
    [ | destruct JXL_DECODE_BOXES_DISABLED;
        [apply preserves_ret | apply decodeContainer_keeps] | exact Hi7].
  destruct Hrun as (boxes & h8 & Hi8 & _ & Hrun).
  destruct boxes; simpl in Hrun; [ | discriminate].
  apply (bind_inv I1) in Hrun; [ | apply rewind_keeps | exact Hi8].
  destruct Hrun as (rewound & h9 & Hi9 & _ & Hrun).
  destruct rewound; simpl in Hrun; [ | discriminate].
  unfold bind, gets, modify, ret in Hrun.
  destruct (m_framedelays h9) as [ | d0 l] eqn:Hdelays; [discriminate | ].
  inversion Hrun; subst; simpl.
  destruct Hi9 as [Hd9 Hinfo9]. rewrite Hinfo9. intros Hstatic.
  destruct (Hpost Hstatic) as (d & Hd & Hzero).
  exists d. split; [ | exact Hzero]. congruence.
Qed.

Lemma count_inv_frame (delays : list Z) (info : JxlBasicInfo) :
  DecodeFrame (count_inv delays info).
Proof.
  split; [split | .. ]; unfold count_inv; simpl; intros; intuition.
Qed.

Lemma call_preserves (I : Handler -> Prop) (c : Call) :
  DecodeFrame I -> preserves I (call fuel c).
Proof.
  intros HF.
  pose proof (frame_seek _ HF) as HS.
  pose proof (read_preserves fuel I).
  pose proof (jumpToNextImage_preserves fuel I).
  pose proof (jumpToImage_preserves fuel I).
  pose proof (ensureALLCounted_preserves fuel I HS).
  pose proof (ensureParsed_preserves I HS).
  pose proof (decode_one_frame_preserves I HF).
  pose proof (rewind_preserves I HS).
  destruct c; unfold call;
    unfold canRead, write_output_info, imageCount, currentImageNumber, nextImageDelay,
      loopCount, handler_option, setOption;
    preserves_auto ltac:(decode_side HF); auto.
Qed.

(** Every run of the counting loop that is left is a run along frames the
    decoder has reported, each with a delay that is an [int]. *)
Lemma count_frames_trace (n : nat) :
  forall (h h' : Handler) (d : Dec),
    m_decoder h = Some d ->
    count_frames n h = Some (true, h') ->
    exists d' fs delays,
      frames_reported d fs d'
      /\ Forall2 (fun f v => frame_delay (m_basicinfo h) f = Some v) fs delays
      /\ m_framedelays h' = m_framedelays h ++ delays
      /\ m_decoder h' = Some d'
      /\ m_basicinfo h' = m_basicinfo h.
Proof.
  induction n as [ | n IH]; intros h h' d Hd Hrun; [discriminate | ].
  simpl count_frames in Hrun.
  unfold bind at 1 in Hrun. unfold dec_call at 1 in Hrun. rewrite Hd in Hrun.
  destruct (JxlDecoderProcessInput d) as [status d1] eqn:Hproc.
  destruct (bool_decide (status = JXL_DEC_SUCCESS)) eqn:Hdone.
  { apply bool_decide_eq_true in Hdone. subst status.
    inversion Hrun; subst h'. exists d1, [], [].
    split; [apply frames_end; exact Hproc | ].
    split; [constructor | ]. rewrite app_nil_r. auto. }
  destruct (status != JXL_DEC_FRAME) eqn:Hframe; [discriminate | ].
  apply negb_false_iff, bool_decide_eq_true in Hframe. subst status.
  unfold bind at 1 in Hrun. unfold dec_get at 1 in Hrun. simpl in Hrun.
  destruct (JxlDecoderGetFrameHeader d1) as [st f] eqn:Hhead. simpl in Hrun.
  destruct (st != JXL_DEC_SUCCESS) eqn:Hst; [discriminate | ].
  apply negb_false_iff, bool_decide_eq_true in Hst. subst st.
  unfold bind at 1 in Hrun. unfold gets at 1 in Hrun. simpl in Hrun.
  destruct (frame_delay (m_basicinfo h) f) as [delay | ] eqn:Hdelay; [ | discriminate].
  unfold bind at 1 in Hrun. unfold gets at 1 in Hrun.
  unfold bind at 1 in Hrun. unfold modify at 1 in Hrun. simpl in Hrun.
  destruct (is_last f) eqn:Hlast.
  - inversion Hrun; subst h'. exists d1, [f], [delay].
    split; [apply frames_last; assumption | ].
    split; [repeat constructor; exact Hdelay | ]. simpl. auto.
  - apply (IH _ _ d1) in Hrun; [ | reflexivity].
    destruct Hrun as (d' & fs & delays & Hfs & Hall & Hdelays & Hdec & Hinfo).
    simpl in Hall, Hdelays, Hinfo.
    exists d', (f :: fs), (delay :: delays).
    split; [eapply frames_more; eassumption | ].
    split; [constructor; assumption | ].
    rewrite Hdelays, <- app_assoc. auto.
Qed.

Lemma count_all_trace (h h' : Handler) (d : Dec) :
  m_decoder h = Some d ->
  have_animation (m_basicinfo h) = true ->
  count_all fuel h = Some (true, h') ->
  exists d' fs delays,
    frames_reported d fs d'
    /\ Forall2 (fun f v => frame_delay (m_basicinfo h) f = Some v) fs delays
    /\ m_framedelays h' = m_framedelays h ++ delays
    /\ (have_animation (m_basicinfo h') = false <-> length (m_framedelays h') = 1%nat).
Proof.
  intros Hd Hanim Hrun. unfold count_all in Hrun.
  unfold bind at 1 in Hrun. unfold gets at 1 in Hrun. rewrite Hanim in Hrun.
  unfold bind at 1 in Hrun.
  destruct (count_frames fuel h) as [[left h1] | ] eqn:Hloop; [ | discriminate].
  destruct left; simpl in Hrun; [ | discriminate].
  destruct (count_frames_trace fuel h h1 d Hd Hloop)
    as (d' & fs & delays & Hfs & Hall & Hdelays & _ & Hinfo).
  exists d', fs, delays. split; [exact Hfs | ]. split; [exact Hall | ].
  unfold bind at 1 in Hrun. unfold gets at 1 in Hrun.
  destruct (bool_decide (m_framedelays h1 = [])); [discriminate | ].
  unfold bind, modify, ret in Hrun.
  destruct (Z.of_nat (length (m_framedelays h1)) =? 1) eqn:Hone;
    inversion Hrun; subst h'; simpl.
  - apply Z.eqb_eq in Hone. split; [exact Hdelays | ]. split; intros; [lia | reflexivity].
  - apply Z.eqb_neq in Hone. split; [exact Hdelays | ].
    rewrite Hinfo, Hanim. split; intros; [discriminate | lia].
Qed.

Lemma countALLFrames_trace (h h' : Handler) :
  countALLFrames fuel h = Some (true, h') ->
  have_animation (m_basicinfo h) = true ->
  exists d0 d1 d2 fs delays,
    m_decoder h = Some d0
    /\ JxlDecoderProcessInput d0 = (JXL_DEC_COLOR_ENCODING, d1)
    /\ frames_reported d1 fs d2
    /\ Forall2 (fun f v => frame_delay (m_basicinfo h) f = Some v) fs delays
    /\ m_framedelays h' = m_framedelays h ++ delays
    /\ (have_animation (m_basicinfo h') = false <-> length (m_framedelays h') = 1%nat).
Proof.
  intros Hrun Hanim. unfold countALLFrames in Hrun.
  unfold bind at 1 in Hrun. unfold gets at 1 in Hrun.
  destruct (m_parseState h != ParseJpegXLBasicInfoParsed); [discriminate | ].
  unfold bind at 1 in Hrun. unfold dec_call at 1 in Hrun.
  destruct (m_decoder h) as [d0 | ] eqn:Hd0; [ | discriminate].
  destruct (JxlDecoderProcessInput d0) as [status d1] eqn:Hproc.
  destruct (status != JXL_DEC_COLOR_ENCODING) eqn:Hst; [discriminate | ].
  apply negb_false_iff, bool_decide_eq_true in Hst. subst status.
  set (I0 := counting_from d1 (m_framedelays h) (m_basicinfo h)).
  assert (Hi1 : I0 (set_m_decoder (Some d1) h)) by (repeat split).
  assert (Hside : forall s v, I0 s -> I0 (set_m_colorspace v s)) by (intros s v Hi; exact Hi).
  apply (bind_inv I0) in Hrun; [ | | exact Hi1].
  2:{ intros s a s' (Hsd & Hsl & Hsi) Heq.
      unfold request_srgb_output, bind, gets in Heq.
      rewrite Hsi, Hanim, andb_false_r in Heq. inversion Heq; subst. repeat split; auto. }
  destruct Hrun as (? & h3 & Hi3 & _ & Hrun).
  apply (bind_inv I0) in Hrun; [ | | exact Hi3].
  2:{ unfold set_pixel_format_plan.
      preserves_auto ltac:(intros; cbv beta; unfold I0, counting_from in *; simpl; tauto). }
  destruct Hrun as (? & h4 & Hi4 & _ & Hrun).
  apply (bind_inv I0) in Hrun; [ | | exact Hi4].
  2:{ unfold read_colorspace.
      preserves_auto ltac:(intros; cbv beta; unfold I0, counting_from in *; simpl; tauto). }
  destruct Hrun as (? & h5 & (Hd5 & Hl5 & Hinfo5) & _ & Hrun).
  unfold bind at 1 in Hrun.
  destruct (count_all fuel h5) as [[counted_ok h6] | ] eqn:Hcount; [ | discriminate].
  destruct counted_ok; simpl in Hrun; [ | discriminate].
  assert (Hanim5 : have_animation (m_basicinfo h5) = true) by (rewrite Hinfo5; exact Hanim).
  destruct (count_all_trace h5 h6 d1 Hd5 Hanim5 Hcount)
    as (d2 & fs & delays & Hfs & Hall & Hdelays & Hone).
  rewrite Hinfo5 in Hall. rewrite Hl5 in Hdelays.
  set (I1 := delays_info_are (m_framedelays h6) (m_basicinfo h6)).
  assert (Hi6 : I1 h6) by (split; reflexivity).
  apply (bind_inv I1) in Hrun; [ | apply detect_cmyk_keeps | exact Hi6].
  destruct Hrun as (cmyk & h7 & Hi7 & _ & Hrun).
  destruct cmyk; simpl in Hrun; [ | discriminate].
  apply (bind_inv I1) in Hrun;
    [ | destruct JXL_DECODE_BOXES_DISABLED;
        [apply preserves_ret | apply decodeContainer_keeps] | exact Hi7].
  destruct Hrun as (boxes & h8 & Hi8 & _ & Hrun).
  destruct boxes; simpl in Hrun; [ | discriminate].
  apply (bind_inv I1) in Hrun; [ | apply rewind_keeps | exact Hi8].
  destruct Hrun as (rewound & h9 & [Hl9 Hinfo9] & _ & Hrun).
  destruct rewound; simpl in Hrun; [ | discriminate].
  unfold bind, gets, modify, ret in Hrun.
  destruct (m_framedelays h9) as [ | first rest] eqn:Hfirst; [discriminate | ].
  inversion Hrun; subst h'; simpl.
  exists d0, d1, d2, fs, delays.
  rewrite Hfirst, Hinfo9, Hl9.
  repeat (split; [first [assumption | reflexivity] | ]). exact Hone.
Qed.

Lemma counted_inv (h0 h : Handler) :
  counted fuel h0 h ->
  settled (m_parseState h)
  /\ exists h1, countALLFrames fuel h0 = Some (true, h1)
                /\ m_framedelays h = m_framedelays h1
                /\ m_basicinfo h = m_basicinfo h1.
Proof.
  induction 1 as [h' Hrun | h h' c Hcounted IH Hcall].
  - split; [ | exists h'; auto].
    destruct (countALLFrames_post h0 h' Hrun) as [Hst _]. unfold settled. auto.
  - destruct IH as (Hs & h1 & Hrun & Hd & Hi).
    assert (Hinv : count_inv (m_framedelays h) (m_basicinfo h) h).
    { unfold count_inv. auto. }
    pose proof (call_preserves _ c (count_inv_frame _ _) _ _ _ Hinv Hcall) as (Hs' & Hd' & Hi').
    split; [exact Hs' | ]. exists h1. rewrite Hd', Hi'. auto.
Qed.

(** C3 (as amended). In every state reached after frame counting has
    succeeded, if [have_animation] is false then [m_framedelays] has exactly
    one entry and nextImageDelay reports 0.  The entry is 0 when the input
    was not marked as an animation.  When it was, the counting loop has
    run along frames that the decoder reported after the colour encoding
    event, the delays it appended are the delays computed for these
    frames, and they make up the single entry: counting from no delays,
    the decoder has reported one frame and the entry is the delay computed
    for that frame. *)
Theorem C3_single_delay_when_not_animated (h0 h : Handler) :
  counted fuel h0 h ->
  have_animation (m_basicinfo h) = false ->
  exists d, m_framedelays h = [d]
    /\ nextImageDelay fuel h = Some (0, h)
    /\ (have_animation (m_basicinfo h0) = false -> d = 0)
    /\ (have_animation (m_basicinfo h0) = true ->
        exists d0 d1 d2 fs delays,
          m_decoder h0 = Some d0
          /\ JxlDecoderProcessInput d0 = (JXL_DEC_COLOR_ENCODING, d1)
          /\ frames_reported d1 fs d2
          /\ Forall2 (fun f v => frame_delay (m_basicinfo h0) f = Some v) fs delays
          /\ m_framedelays h0 ++ delays = [d]
          /\ (m_framedelays h0 = [] ->
              exists f, fs = [f] /\ delays = [d]
                        /\ frame_delay (m_basicinfo h0) f = Some d)).
Proof.
  intros Hcounted Hstatic.
  destruct (counted_inv h0 h Hcounted) as (Hs & h1 & Hrun & Hdelays & Hinfo).
  destruct (countALLFrames_post h0 h1 Hrun) as [_ Hone].
  rewrite <- Hinfo in Hone. destruct (Hone Hstatic) as (d & Hd & Hzero).
  rewrite <- Hdelays in Hd.
  exists d. split; [exact Hd | ].
  split.
  { unfold nextImageDelay. unfold bind at 1.
    destruct (ensureALLCounted_settled fuel h Hs) as (b & Hb & _).
    rewrite Hb. destruct b; simpl; [ | reflexivity].
    unfold bind, gets, ret. rewrite Hd. reflexivity. }
  split; [exact Hzero | ].
  intros Hanim.
  destruct (countALLFrames_trace h0 h1 Hrun Hanim)
    as (d0 & d1 & d2 & fs & delays & Hd0 & Hproc & Hfs & Hall & Happ & _).
  exists d0, d1, d2, fs, delays.
  rewrite <- Hdelays, Hd in Happ.
  repeat (split; [first [assumption | reflexivity] | ]).
  split; [symmetry; exact Happ | ].
  intros Hnone. rewrite Hnone in Happ. simpl in Happ. subst delays.
  inversion Hall as [ | f v fs' vs Hv Hrest]; subst. inversion Hrest; subst.
  exists f. auto.
Qed.

End CountingInvariant.

(** ** The frame-counting loop *)

Section FrameLoop.
Context `{Env}.
Local Open Scope m_scope.






End FrameLoop.

(** ** Probing and parsing: what fails, and how *)

Ltac fails_leaf :=
  unfold fails_in_error, exits_in_error, none_in_error in *; simpl in *;
  repeat match goal with
         | Hb : negb ?b = true |- _ => apply negb_true_iff in Hb; subst b
         | Hb : negb ?b = false |- _ => apply negb_false_iff in Hb; subst b
         end;
  try tauto; intuition (try congruence; try discriminate).

Section Failures.
Context `{Env}.
Variable fuel : nat.
Local Open Scope m_scope.




End Failures.
Section FailureLemmas.
Context `{Env}.
Variable fuel : nat.
Local Open Scope m_scope.

Lemma count_frames_fails (n : nat) :
  forall h, wlp (count_frames n) fails_in_error h.
Proof.
  induction n as [ | n IH]; intros h; simpl count_frames; wlp_go; fails_leaf.
Qed.

Lemma count_all_fails (h : Handler) : wlp (count_all fuel) fails_in_error h.
Proof.
  pose proof (count_frames_fails fuel).
  unfold count_all. wlp_go; fails_leaf.
Qed.

Lemma find_alpha_fails (n : nat) :
  forall i h, wlp (find_alpha n i) exits_in_error h.
Proof.
  induction n as [ | n IH]; intros i h; simpl find_alpha; wlp_go; fails_leaf.
Qed.

Lemma scan_extra_channels_fails (n : nat) :
  forall i found h, wlp (scan_extra_channels n i found) fails_in_error h.
Proof.
  induction n as [ | n IH]; intros i found h; simpl scan_extra_channels.
  - wlp_go; fails_leaf.
  - pose proof (find_alpha_fails n). wlp_go; fails_leaf.
Qed.

Lemma detect_cmyk_fails (h : Handler) : wlp detect_cmyk fails_in_error h.
Proof.
  pose proof scan_extra_channels_fails.
  unfold detect_cmyk. wlp_go; fails_leaf.
Qed.

Lemma extract_loop_fails (n : nat) :
  forall size h, wlp (extract_loop n size) exits_in_error h.
Proof.
  induction n as [ | n IH]; intros size h; simpl extract_loop; wlp_go; fails_leaf.
Qed.

Local Arguments extract_loop : simpl never.

Lemma extractBox_fails (o : BoxOutput) (c : Z) (h : Handler) :
  wlp (extractBox o c) none_in_error h.
Proof.
  pose proof extract_loop_fails.
  unfold extractBox. wlp_go; fails_leaf.
Qed.

Lemma scan_boxes_fails (n : nat) :
  forall len se sx eb xb h, wlp (scan_boxes n len se sx eb xb) exits_in_error h.
Proof.
  induction n as [ | n IH]; intros len se sx eb xb h; simpl scan_boxes.
  - wlp_go; fails_leaf.
  - pose proof extractBox_fails. wlp_go; fails_leaf.
Qed.

Lemma decodeContainer_fails (h : Handler) : wlp (decodeContainer fuel) fails_in_error h.
Proof.
  pose proof scan_boxes_fails.
  unfold decodeContainer. wlp_go; fails_leaf.
Qed.

Lemma rewind_fails (h : Handler) : wlp rewind fails_in_error h.
Proof. unfold rewind. wlp_go; fails_leaf. Qed.

Lemma anything {A} (c : M A) (h : Handler) : wlp c (fun _ _ => True) h.
Proof. intros a h' _. exact I. Qed.

Lemma countALLFrames_fails (h : Handler) :
  m_parseState h = ParseJpegXLBasicInfoParsed ->
  wlp (countALLFrames fuel) fails_in_error h.
Proof.
  intros Hst.
  pose proof count_all_fails. pose proof detect_cmyk_fails.
  pose proof decodeContainer_fails. pose proof rewind_fails.
  pose proof (anything request_srgb_output).
  pose proof (anything set_pixel_format_plan).
  pose proof (anything read_colorspace).
  unfold countALLFrames.
  wlp_step. wlp_step. rewrite Hst. simpl.
  wlp_go; fails_leaf.
Qed.

End FailureLemmas.
Section FailureTheorems.
Context `{Env}.
Variable fuel : nat.
Local Open Scope m_scope.

(** Nothing has been read yet or nothing was there to read. *)
Lemma ensureParsed_fails (h : Handler) :
  (m_parseState h = ParseJpegXLNotParsed -> m_decoder h = None) ->
  wlp ensureParsed
    (fun b h' =>
       (b = true -> m_parseState h' = ParseJpegXLSuccess
                    \/ m_parseState h' = ParseJpegXLBasicInfoParsed
                    \/ m_parseState h' = ParseJpegXLFinished)
       /\ (b = false -> no_input_or_error h')) h.
Proof.
  intros Hnew. unfold ensureParsed. wlp_step. wlp_step.
  destruct (m_parseState h) eqn:Hst; simpl.
  - wlp_go. split; [discriminate | ]. intros _. left. exact Hst.
  - eapply wlp_weaken; [apply ensureDecoder_outcome; auto | ].
    intros b h' (_ & _ & Hdev & _ & Htrue & Hfalse). split.
    + intros Hb. destruct (Htrue Hb) as [Hp _]. auto.
    + intros Hb. destruct (Hfalse Hb) as [[He _] | (Hs & Hraw & Hd)].
      * left. exact He.
      * right. rewrite Hs. auto.
  - wlp_go. split; [auto | discriminate].
  - wlp_go. split; [auto | discriminate].
  - wlp_go. split; [auto | discriminate].
Qed.

Lemma ensureALLCounted_fails (h : Handler) :
  (m_parseState h = ParseJpegXLNotParsed -> m_decoder h = None) ->
  wlp (ensureALLCounted fuel)
    (fun b h' =>
       (b = true -> m_parseState h' = ParseJpegXLSuccess
                    \/ m_parseState h' = ParseJpegXLFinished)
       /\ (b = false -> no_input_or_error h')) h.
Proof.
  intros Hnew. unfold ensureALLCounted.
  wlp_step. eapply wlp_weaken; [apply ensureParsed_fails; exact Hnew | ].
  intros parsed h1 [Htrue Hfalse]. simpl.
  destruct parsed; simpl; [ | wlp_go; split; [discriminate | auto]].
  wlp_step. wlp_step.
  destruct (Htrue eq_refl) as [Hs | [Hs | Hs]]; rewrite Hs; simpl.
  - wlp_go. split; [auto | discriminate].
  - intros b h' Hrun. split.
    + intros ->. left. eapply countALLFrames_true; eauto.
    + intros ->. left. eapply countALLFrames_fails; eauto.
  - wlp_go. split; [auto | discriminate].
Qed.

Lemma decode_one_frame_fails (h : Handler) : wlp decode_one_frame fails_in_error h.
Proof.
  pose proof rewind_fails.
  unfold decode_one_frame, decode_cmyk_alpha, decode_cmyk, decode_rgb,
    alloc_image, alloc_buffer, on_current_image.
  wlp_go; fails_leaf.
Qed.

Lemma jumpToNextImage_fails (h : Handler) :
  (m_parseState h = ParseJpegXLNotParsed -> m_decoder h = None) ->
  wlp (jumpToNextImage fuel) (fun b h' => b = false -> no_input_or_error h') h.
Proof.
  intros Hnew. pose proof rewind_fails.
  unfold jumpToNextImage.
  wlp_step. eapply wlp_weaken; [apply ensureALLCounted_fails; exact Hnew | ].
  intros counted h1 [_ Hfalse]. simpl.
  destruct counted; simpl; [ | wlp_go; auto].
  wlp_go; try discriminate; intros _; left; fails_leaf.
Qed.

Lemma read_fails (h : Handler) (image : QImage) :
  (m_parseState h = ParseJpegXLNotParsed -> m_decoder h = None) ->
  wlp (read fuel image) (fun r h' => fst r = false -> no_input_or_error h') h.
Proof.
  intros Hnew. unfold read.
  wlp_step. eapply wlp_weaken; [apply ensureALLCounted_fails; exact Hnew | ].
  intros counted h1 [Htrue Hfalse]. simpl.
  destruct counted; simpl; [ | wlp_go; auto].
  assert (Hnew1 : m_parseState h1 = ParseJpegXLNotParsed -> m_decoder h1 = None).
  { intros Hs. destruct (Htrue eq_refl) as [Hs1 | Hs1]; congruence. }
  pose proof (jumpToNextImage_fails h1 Hnew1).
  pose proof decode_one_frame_fails.
  wlp_go; try discriminate; auto.
  intros _. left. fails_leaf.
Qed.

Lemma no_input_or_error_again (h : Handler) (image : QImage) :
  no_input_or_error h ->
  exists h', read fuel image h = Some ((false, image), h')
    /\ jumpToNextImage fuel h = Some (false, h')
    /\ imageCount fuel h = Some (0, h')
    /\ nextImageDelay fuel h = Some (0, h')
    /\ no_input_or_error h'.
Proof.
  intros [Herr | (Hst & Hdec & Hdev & Hraw)].
  - exists h.
    unfold read, jumpToNextImage, imageCount, nextImageDelay, ensureALLCounted,
      ensureParsed, bind, gets, ret.
    rewrite Herr. simpl. repeat split; try reflexivity. left. exact Herr.
  - exists (set_m_rawData [] (set_device (Some []) h)).
    unfold read, jumpToNextImage, imageCount, nextImageDelay, ensureALLCounted,
      ensureParsed, ensureDecoder, readAll, bind, gets, modify, ret.
    rewrite Hst. simpl. rewrite Hdec. simpl. rewrite Hdev. simpl.
    repeat split; try reflexivity.
    right. simpl. auto.
Qed.

End FailureTheorems.
Section ProbingAndFailure.
Context `{Env}.
Variable fuel : nat.
Local Open Scope m_scope.


(** X2. An empty device is not an error: ensureParsed returns [false] but
    the parse state stays [ParseJpegXLNotParsed] and no decoder is created,
    so the handler is as before (with [m_rawData] empty), every read and
    seek fails the same way, imageCount is 0 and currentImageNumber
    stays -1. *)
Theorem empty_input_is_not_latched (h : Handler) :
  m_parseState h = ParseJpegXLNotParsed ->
  m_decoder h = None ->
  device h = Some [] ->
  let h' := set_m_rawData [] h in
  ensureParsed h = Some (false, h')
  /\ ensureParsed h' = Some (false, h')
  /\ (forall image, read fuel image h = Some ((false, image), h'))
  /\ jumpToNextImage fuel h = Some (false, h')
  /\ (forall n, jumpToImage fuel n h = Some (false, h'))
  /\ imageCount fuel h = Some (0, h')
  /\ currentImageNumber h' = Some (-1, h')
  /\ canRead h' = Some (false, h').
Proof.
  intros Hst Hdec Hdev h'.
  assert (Hsame : set_m_rawData [] (set_device (Some []) h) = h').
  { unfold h'. clear - Hdev. destruct h; simpl in *. subst. reflexivity. }
  assert (Hparse : forall g, m_parseState g = ParseJpegXLNotParsed ->
            m_decoder g = None -> device g = Some [] ->
            ensureParsed g = Some (false, set_m_rawData [] (set_device (Some []) g))).
  { intros g Hs Hd Hv.
    unfold ensureParsed, ensureDecoder, readAll, bind, gets, modify, ret.
    rewrite Hs. simpl. rewrite Hd. simpl. rewrite Hv. reflexivity. }
  pose proof (Hparse h Hst Hdec Hdev) as Hrun. rewrite Hsame in Hrun.
  split; [exact Hrun | ].
  split.
  { rewrite (Hparse h'); [ | exact Hst | exact Hdec | exact Hdev].
    unfold h'. clear - Hdev. destruct h; simpl in *. subst. reflexivity. }
  assert (Hcount : ensureALLCounted fuel h = Some (false, h')).
  { unfold ensureALLCounted, bind. rewrite Hrun. reflexivity. }
  split; [intros image; unfold read, bind; rewrite Hcount; reflexivity | ].
  split; [unfold jumpToNextImage, bind; rewrite Hcount; reflexivity | ].
  split; [intros n; unfold jumpToImage, bind; rewrite Hcount; reflexivity | ].
  split; [unfold imageCount, bind; rewrite Hrun; reflexivity | ].
  split.
  - unfold currentImageNumber, bind, gets, ret. simpl. rewrite Hst. reflexivity.
  - unfold canRead, bind, gets, modify, ret. simpl. rewrite Hst, Hdev. simpl.
    unfold h'. clear - Hdev. destruct h; simpl in *. subst. reflexivity.
Qed.

(** X3. Input that is there but carries neither JPEG XL signature is an
    error: ensureParsed consumes the device, keeps the bytes in
    [m_rawData], sets [ParseJpegXLError] and does nothing else; no decoder
    is created and a read returns [false]. *)
Theorem foreign_signature_is_an_error (h : Handler) (bytes : QByteArray) :
  m_parseState h = ParseJpegXLNotParsed ->
  m_decoder h = None ->
  device h = Some bytes ->
  bytes <> [] ->
  JxlSignatureCheck bytes <> JXL_SIG_CODESTREAM ->
  JxlSignatureCheck bytes <> JXL_SIG_CONTAINER ->
  let h' := set_m_parseState ParseJpegXLError
              (set_m_rawData bytes (set_device (Some []) h)) in
  ensureParsed h = Some (false, h')
  /\ m_decoder h' = None
  /\ (forall image, read fuel image h = Some ((false, image), h')).
Proof.
  intros Hst Hdec Hdev Hne Hc Hk h'.
  assert (Hrun : ensureParsed h = Some (false, h')).
  { unfold ensureParsed, ensureDecoder, readAll, bind, gets, modify, ret, fail_error.
    rewrite Hst. simpl. rewrite Hdec. simpl. rewrite Hdev.
    rewrite bool_decide_eq_false_2 by exact Hne.
    rewrite !bool_decide_eq_false_2 by assumption. reflexivity. }
  split; [exact Hrun | ]. split; [exact Hdec | ].
  intros image. unfold read, ensureALLCounted. unfold bind at 1 2.
  rewrite Hrun. reflexivity.
Qed.

(** X4. The error state is absorbing: in [ParseJpegXLError] every entry
    point reports failure and leaves the handler exactly as it is. *)
Theorem error_state_is_absorbing (h : Handler) :
  m_parseState h = ParseJpegXLError ->
  canRead h = Some (false, h)
  /\ ensureParsed h = Some (false, h)
  /\ (forall image, read fuel image h = Some ((false, image), h))
  /\ jumpToNextImage fuel h = Some (false, h)
  /\ (forall n, jumpToImage fuel n h = Some (false, h))
  /\ imageCount fuel h = Some (0, h)
  /\ currentImageNumber h = Some (0, h)
  /\ nextImageDelay fuel h = Some (0, h)
  /\ loopCount h = Some (0, h)
  /\ handler_option Size h = Some (VInvalid, h)
  /\ handler_option Animation h = Some (VInvalid, h).
Proof.
  intros Herr.
  unfold canRead, read, jumpToNextImage, jumpToImage, imageCount, currentImageNumber,
    nextImageDelay, loopCount, handler_option, supportsOption, ensureALLCounted,
    ensureParsed, bind, gets, modify, ret.
  repeat rewrite Herr. simpl.
  destruct (canRead_device (device h)) as [can dev'].
  destruct JXL_QT_AUTOTRANSFORM; simpl; rewrite ?Herr; simpl; repeat split; reflexivity.
Qed.

(** X5. Failure is final.  When a read, a jumpToNextImage or the frame
    counting returns [false] (on a handler that has no decoder before it
    has parsed anything), the handler is left in [ParseJpegXLError], or
    unparsed on an empty device; and from such a handler every further
    read and jumpToNextImage returns [false], imageCount and
    nextImageDelay return 0, and the handler they leave is of that kind
    again. *)
Theorem failure_is_final (h h' : Handler) :
  (m_parseState h = ParseJpegXLNotParsed -> m_decoder h = None) ->
  (exists image r, read fuel image h = Some (r, h') /\ fst r = false)
  \/ jumpToNextImage fuel h = Some (false, h')
  \/ ensureALLCounted fuel h = Some (false, h') ->
  no_input_or_error h'
  /\ forall image, exists h'',
       read fuel image h' = Some ((false, image), h'')
       /\ jumpToNextImage fuel h' = Some (false, h'')
       /\ imageCount fuel h' = Some (0, h'')
       /\ nextImageDelay fuel h' = Some (0, h'')
       /\ no_input_or_error h''.
Proof.
  intros Hnew Hfailed.
  assert (Hleft : no_input_or_error h').
  { destruct Hfailed as [(image & r & Hrun & Hr) | [Hrun | Hrun]].
    - exact (read_fails fuel h image Hnew r h' Hrun Hr).
    - exact (jumpToNextImage_fails fuel h Hnew false h' Hrun eq_refl).
    - exact (proj2 (ensureALLCounted_fails fuel h Hnew false h' Hrun) eq_refl). }
  split; [exact Hleft | ].
  intros image. apply no_input_or_error_again. exact Hleft.
Qed.

(** X6. What a successful parse guarantees: when ensureParsed returns
    [true] on a handler that had not parsed anything, the state is
    [ParseJpegXLBasicInfoParsed], the decoder exists, the input was not
    empty and bears a JPEG XL signature, and the image is neither empty
    nor wider or higher than the limit; no pixel memory has been asked
    for, and the [Size] option reports these dimensions. *)
Theorem parsed_image_is_within_limits (h h' : Handler) :
  m_parseState h = ParseJpegXLNotParsed ->
  m_decoder h = None ->
  ensureParsed h = Some (true, h') ->
  m_parseState h' = ParseJpegXLBasicInfoParsed
  /\ (exists d, m_decoder h' = Some d
                /\ JxlDecoderGetBasicInfo d = (JXL_DEC_SUCCESS, m_basicinfo h'))
  /\ m_rawData h' <> []
  /\ device h = Some (m_rawData h')
  /\ (JxlSignatureCheck (m_rawData h') = JXL_SIG_CODESTREAM
      \/ JxlSignatureCheck (m_rawData h') = JXL_SIG_CONTAINER)
  /\ xsize (m_basicinfo h') <> 0 /\ xsize (m_basicinfo h') <= MAX_IMAGE_WIDTH
  /\ ysize (m_basicinfo h') <> 0 /\ ysize (m_basicinfo h') <= MAX_IMAGE_HEIGHT
  /\ allocations h' = allocations h
  /\ handler_option Size h'
     = Some (VSize (xsize (m_basicinfo h')) (ysize (m_basicinfo h')), h').
Proof.
  intros Hst Hdec Hrun.
  unfold ensureParsed, bind, gets in Hrun. rewrite Hst in Hrun. simpl in Hrun.
  destruct (ensureDecoder_outcome h Hdec true h' Hrun)
    as (Halloc & _ & _ & (bytes & Hdev & Hraw) & Htrue & _).
  destruct (Htrue eq_refl) as (Hp & Hd & Hne & Hsig & Hx0 & Hy0 & Hx & Hy).
  split; [exact Hp | ]. split; [exact Hd | ]. split; [exact Hne | ].
  split; [rewrite Hdev, Hraw; reflexivity | ].
  repeat (split; [assumption | ]).
  unfold handler_option, supportsOption, ensureParsed, bind, gets, ret.
  destruct JXL_QT_AUTOTRANSFORM; simpl; rewrite Hp; reflexivity.
Qed.

End ProbingAndFailure.

(** ** Seeking, looping and writing *)

Section Seeking.
Context `{Env}.
Variable fuel : nat.
Local Open Scope m_scope.

(** X7. loopCount on a parsed input: 0 for a still image; for an animation
    [num_loops - 1], and -1 (repeat forever) when [num_loops] is 0.  The
    value is an [int]: a [num_loops] above 2^31 comes out negative.  The
    handler stays as it is. *)
Theorem loopCount_of_num_loops (h : Handler) :
  m_parseState h = ParseJpegXLBasicInfoParsed
  \/ m_parseState h = ParseJpegXLSuccess \/ m_parseState h = ParseJpegXLFinished ->
  let n := num_loops (animation (m_basicinfo h)) in
  0 <= n < 4294967296 ->
  exists v, loopCount h = Some (v, h)
    /\ -2147483648 <= v <= 2147483647
    /\ (have_animation (m_basicinfo h) = false -> v = 0)
    /\ (have_animation (m_basicinfo h) = true ->
        (n = 0 -> v = -1)
        /\ (0 < n <= 2147483648 -> v = n - 1)
        /\ (2147483648 < n -> v = n - 1 - 4294967296)).
Proof.
  intros Hs n Hn.
  assert (Hparsed : ensureParsed h = Some (true, h)).
  { unfold ensureParsed, bind, gets, ret.
    destruct Hs as [Hs | [Hs | Hs]]; rewrite Hs; reflexivity. }
  unfold loopCount. unfold bind at 1. rewrite Hparsed. simpl.
  unfold bind, gets, ret. fold n.
  destruct (have_animation (m_basicinfo h)).
  - eexists. split; [reflexivity | ].
    unfold int_of_uint32, uint32_of.
    destruct (Z.gtb_spec n 0) as [Hpos | Hzero].
    + rewrite (Z.mod_small (n - 1)) by lia.
      destruct (Z.ltb_spec (n - 1) 2147483648);
        (split; [lia | ]); (split; [discriminate | ]); intros _; repeat split; intros; lia.
    + change ((-1) mod 4294967296) with 4294967295. simpl.
      split; [lia | ]. split; [discriminate | ]. intros _. repeat split; intros; lia.
  - exists 0. split; [reflexivity | ]. split; [lia | ].
    split; [reflexivity | discriminate].
Qed.

(** X8. jumpToImage after counting: a frame number that is negative or not
    below the number of frames is refused and nothing changes.  Otherwise
    the call has a result; when it returns [true] the cursor is on the
    frame asked for, currentImageNumber reports it and the state is
    [ParseJpegXLSuccess]; it returns [true] for the current frame and for
    every later one, the decoder skipping the frames in between; it
    returns [false] only from a rewind that failed, in
    [ParseJpegXLError].  The delays and the cached image stay as they
    are. *)
Theorem jumpToImage_moves_cursor (h : Handler) (d : Dec) (imageNumber : Z) :
  m_parseState h = ParseJpegXLSuccess \/ m_parseState h = ParseJpegXLFinished ->
  m_decoder h = Some d ->
  let count := Z.of_nat (length (m_framedelays h)) in
  let index := m_currentimage_index h in
  (imageNumber < 0 \/ count <= imageNumber -> jumpToImage fuel imageNumber h = Some (false, h))
  /\ (0 <= imageNumber < count ->
      (exists b h', jumpToImage fuel imageNumber h = Some (b, h')
         /\ m_framedelays h' = m_framedelays h
         /\ m_current_image h' = m_current_image h
         /\ (b = true ->
             m_currentimage_index h' = imageNumber
             /\ m_parseState h' = ParseJpegXLSuccess
             /\ currentImageNumber h' = Some (imageNumber, h'))
         /\ (b = false -> imageNumber < index /\ m_parseState h' = ParseJpegXLError))
      /\ (imageNumber = index ->
          jumpToImage fuel imageNumber h = Some (true, set_m_parseState ParseJpegXLSuccess h))
      /\ (index < imageNumber ->
          jumpToImage fuel imageNumber h
          = Some (true, set_m_parseState ParseJpegXLSuccess
                          (set_m_currentimage_index imageNumber
                             (set_m_decoder (Some (JxlDecoderSkipFrames d (imageNumber - index)))
                                h))))).
Proof.
  intros Hs Hd count index.
  assert (Hcounted := ensureALLCounted_counted fuel h Hs).
  split.
  { intros Hout. unfold jumpToImage. unfold bind at 1. rewrite Hcounted. simpl.
    unfold bind at 1. unfold gets at 1. fold count.
    destruct (Z.ltb_spec imageNumber 0); [reflexivity | ].
    rewrite Z.geb_leb. rewrite (proj2 (Z.leb_le _ _)) by lia. reflexivity. }
  intros Hin.
  assert (Hsame : imageNumber = index ->
            jumpToImage fuel imageNumber h
            = Some (true, set_m_parseState ParseJpegXLSuccess h)).
  { intros ->. unfold jumpToImage. unfold bind at 1. rewrite Hcounted. simpl.
    unfold bind at 1. unfold gets at 1. fold count.
    rewrite (proj2 (Z.ltb_ge _ _)) by lia.
    rewrite Z.geb_leb. rewrite (proj2 (Z.leb_gt _ _)) by lia. simpl.
    unfold bind at 1. unfold gets at 1. fold index. rewrite Z.eqb_refl. reflexivity. }
  assert (Hfwd : index < imageNumber ->
            jumpToImage fuel imageNumber h
            = Some (true, set_m_parseState ParseJpegXLSuccess
                            (set_m_currentimage_index imageNumber
                               (set_m_decoder
                                  (Some (JxlDecoderSkipFrames d (imageNumber - index))) h)))).
  { intros Hlt. unfold jumpToImage. unfold bind at 1. rewrite Hcounted. simpl.
    unfold bind at 1. unfold gets at 1. fold count.
    rewrite (proj2 (Z.ltb_ge _ _)) by lia.
    rewrite Z.geb_leb. rewrite (proj2 (Z.leb_gt _ _)) by lia. simpl.
    unfold bind at 1. unfold gets at 1. fold index.
    rewrite (proj2 (Z.eqb_neq _ _)) by lia.
    rewrite (proj2 (Z.gtb_lt _ _)) by lia.
    unfold bind, dec_do, modify, ret. rewrite Hd. reflexivity. }
  split; [ | split; [exact Hsame | exact Hfwd]].
  assert (Hnumber : forall g dg, m_decoder g = Some dg ->
            currentImageNumber (set_m_parseState ParseJpegXLSuccess g)
            = Some (m_currentimage_index g, set_m_parseState ParseJpegXLSuccess g)).
  { intros g dg Hg. unfold currentImageNumber, bind, gets, ret. simpl.
    rewrite Hg. rewrite bool_decide_eq_true_2 by eauto. reflexivity. }
  destruct (Z.lt_trichotomy imageNumber index) as [Hlt | [Heq | Hgt]].
  - assert (Hwith : with_decoder h).
    { split; [rewrite Hd; eauto | unfold settled; tauto]. }
    destruct (rewind_runs h Hwith) as (b & h1 & Hrew & [[d1 Hd1] Hs1]).
    destruct (rewind_outcome h b h1 Hrew) as (_ & _ & Hdelays & _ & _ & _ & Hfalse).
    assert (Hcache : cache_is (m_current_image h) (allocations h) h1).
    { apply (rewind_preserves _ (cache_is_frame _ _) h b h1); [ | exact Hrew].
      repeat split. unfold settled. tauto. }
    destruct Hcache as (_ & Himg & _).
    unfold jumpToImage. unfold bind at 1. rewrite Hcounted. simpl.
    unfold bind at 1. unfold gets at 1. fold count.
    rewrite (proj2 (Z.ltb_ge _ _)) by lia.
    rewrite Z.geb_leb. rewrite (proj2 (Z.leb_gt _ _)) by lia. simpl.
    unfold bind at 1. unfold gets at 1. fold index.
    rewrite (proj2 (Z.eqb_neq _ _)) by lia.
    rewrite Z.gtb_ltb. rewrite (proj2 (Z.ltb_ge _ _)) by lia.
    unfold bind at 1. rewrite Hrew.
    destruct b; simpl.
    + destruct (imageNumber >? 0); unfold bind, dec_do, modify, ret; rewrite ?Hd1;
        eexists _, _; (split; [reflexivity | ]); simpl;
        (split; [exact Hdelays | ]); (split; [exact Himg | ]);
        (split; [ | discriminate]); intros _;
        (split; [reflexivity | ]); (split; [reflexivity | ]).
      * exact (Hnumber (set_m_currentimage_index imageNumber
                          (set_m_decoder (Some (JxlDecoderSkipFrames d1 imageNumber)) h1))
                       _ eq_refl).
      * exact (Hnumber (set_m_currentimage_index imageNumber h1) d1 Hd1).
    + exists false, h1. split; [reflexivity | ]. split; [exact Hdelays | ].
      split; [exact Himg | ]. split; [discriminate | ]. intros _. auto.
  - rewrite (Hsame Heq). eexists _, _. split; [reflexivity | ]. simpl.
    split; [reflexivity | ]. split; [reflexivity | ].
    split; [ | discriminate]. intros _. split; [symmetry; exact Heq | ].
    split; [reflexivity | ]. rewrite Heq. exact (Hnumber h d Hd).
  - rewrite (Hfwd Hgt). eexists _, _. split; [reflexivity | ]. simpl.
    split; [reflexivity | ]. split; [reflexivity | ].
    split; [ | discriminate]. intros _. split; [reflexivity | ].
    split; [reflexivity | ].
    exact (Hnumber (set_m_currentimage_index imageNumber
                      (set_m_decoder (Some (JxlDecoderSkipFrames d (imageNumber - index))) h))
                   _ eq_refl).
Qed.

End Seeking.

Section Writing.
Context `{Env}.
Local Open Scope m_scope.

(** X9. Which images write takes.  No image, an image without a format,
    an empty one, and one whose width, height or pixel count is above the
    limit are refused and the handler stays as it is; so is any image when
    the encoder or its parallel runner cannot be set up.  Every other
    image gets an [output_info] with the container flag set and a time
    base of 10 ticks per second, and by then [m_quality] is within
    0..100: 100 when it was above, 90 when it was negative. *)
Theorem write_takes_images_within_limits (img : QImageData) (h : Handler) :
  0 <= img_width img ->
  0 <= img_height img ->
  write_output_info None h = Some (None, h)
  /\ (~ writable img -> write_output_info (Some img) h = Some (None, h))
  /\ (~ encoder_ready -> write_output_info (Some img) h = Some (None, h))
  /\ (writable img -> encoder_ready ->
      exists info h',
        write_output_info (Some img) h = Some (Some info, h')
        /\ have_container info = true
        /\ tps_numerator (animation info) = 10
        /\ tps_denominator (animation info) = 1
        /\ h' = set_m_quality (m_quality h') h
        /\ 0 <= m_quality h' <= 100
        /\ (m_quality h > 100 -> m_quality h' = 100)
        /\ (m_quality h < 0 -> m_quality h' = 90)
        /\ (0 <= m_quality h <= 100 -> m_quality h' = m_quality h)).
Proof.
  intros Hw Hh.
  split; [reflexivity | ].
  split; [ | split].
  - intros Hnot. unfold write_output_info.
    destruct (img_format img == Format_Invalid) eqn:Hfmt; [reflexivity | ].
    apply bool_decide_eq_false in Hfmt.
    destruct ((img_width img =? 0) || (img_height img =? 0)) eqn:Hzero; [reflexivity | ].
    apply orb_false_iff in Hzero. destruct Hzero as [Hzw Hzh].
    apply Z.eqb_neq in Hzw, Hzh.
    destruct ((img_width img >? MAX_IMAGE_WIDTH) || (img_height img >? MAX_IMAGE_HEIGHT))
      eqn:Hbig; [reflexivity | ].
    apply orb_false_iff in Hbig. destruct Hbig as [Hbw Hbh].
    rewrite Z.gtb_ltb in Hbw, Hbh. apply Z.ltb_ge in Hbw, Hbh.
    cbv zeta.
    destruct (Z.gtb_spec (img_width img * img_height img) MAX_IMAGE_PIXELS) as [Hpix | Hpix];
      [reflexivity | ].
    exfalso. apply Hnot. unfold writable. repeat split; try assumption; lia.
  - intros Hnot. unfold write_output_info.
    destruct (img_format img == Format_Invalid); [reflexivity | ].
    destruct ((img_width img =? 0) || (img_height img =? 0)); [reflexivity | ].
    destruct ((img_width img >? MAX_IMAGE_WIDTH) || (img_height img >? MAX_IMAGE_HEIGHT));
      [reflexivity | ].
    cbv zeta.
    destruct (negb (MAX_IMAGE_PIXELS =? 0)
              && (img_width img * img_height img >? MAX_IMAGE_PIXELS)); [reflexivity | ].
    destruct JxlEncoderCreate eqn:Hcreate; simpl; [ | reflexivity].
    destruct (Z.gtb_spec (qBound 1 QThread_idealThreadCount 64) 1) as [Hmany | Hone]; simpl.
    + destruct (JxlEncoderSetParallelRunner (qBound 1 QThread_idealThreadCount 64))
        eqn:Hrun; simpl; [ | reflexivity].
      exfalso. apply Hnot. split; [exact Hcreate | intros _; exact Hrun].
    + exfalso. apply Hnot. split; [exact Hcreate | intros Hgt; lia].
  - intros (Hfmt & Hwl & Hhl & Hpix) [Hcreate Hrunner].
    unfold write_output_info.
    rewrite bool_decide_eq_false_2 by exact Hfmt.
    assert (Hzero : (img_width img =? 0) || (img_height img =? 0) = false).
    { apply orb_false_iff; split; apply Z.eqb_neq; lia. }
    assert (Hbig : (img_width img >? MAX_IMAGE_WIDTH) || (img_height img >? MAX_IMAGE_HEIGHT)
                   = false).
    { apply orb_false_iff; split; rewrite Z.gtb_ltb; apply Z.ltb_ge; lia. }
    assert (Hcap : negb (MAX_IMAGE_PIXELS =? 0)
                   && (img_width img * img_height img >? MAX_IMAGE_PIXELS) = false).
    { apply andb_false_iff; right. rewrite Z.gtb_ltb. apply Z.ltb_ge. exact Hpix. }
    rewrite Hzero, Hbig. cbv zeta. rewrite Hcap, Hcreate.
    assert (Hrun : (qBound 1 QThread_idealThreadCount 64 >? 1)
                   && negb (JxlEncoderSetParallelRunner (qBound 1 QThread_idealThreadCount 64))
                   = false).
    { destruct (Z.gtb_spec (qBound 1 QThread_idealThreadCount 64) 1) as [Hgt | Hle];
        [ | reflexivity].
      rewrite Hrunner by lia. reflexivity. }
    rewrite Hrun.
    unfold bind, gets, modify, ret. simpl.
    destruct (Z.gtb_spec (m_quality h) 100) as [Hq | Hq];
      [ | destruct (Z.ltb_spec (m_quality h) 0) as [Hn | Hn]];
      eexists _, _; (split; [reflexivity | ]); simpl;
      repeat split; intros; try reflexivity; try lia.
    destruct h; reflexivity.
Qed.

End Writing.

(** * Properties of the PFM reader *)

Section PFMRows.
Context `{PFM.Qt}.

Lemma read_float_next (s : PFM.QDataStream) (v : Z) (F : list Z) :
  stream_floats s = v :: F ->
  exists s', PFM.read_float s = (v, s')
    /\ stream_floats s' = F
    /\ PFM.ds_status s' = PFM.ds_status s
    /\ PFM.ds_byteOrder s' = PFM.ds_byteOrder s.
Proof.
  unfold stream_floats, PFM.read_float. destruct s as [dev st o]. simpl.
  destruct dev as [ | b0 [ | b1 [ | b2 [ | b3 rest]]]]; simpl; try discriminate.
  intros Heq. inversion Heq; subst. eexists. split; [reflexivity | simpl; auto].
Qed.

Lemma insert_pixel (pre post : list Z) (a b c d r g bl one : Z) :
  <[(length pre + 2)%nat := bl]>
    (<[(length pre + 1)%nat := g]>
       (<[length pre := r]>
          (<[(length pre + 3)%nat := one]> (pre ++ [a; b; c; d] ++ post))))
  = pre ++ [r; g; bl; one] ++ post.
Proof.
  induction pre as [ | p pre IH]; simpl; [reflexivity | ].
  f_equal. exact IH.
Qed.

Lemma nth_after_insert (pre post : list Z) (a b c d v one : Z) :
  nth (length pre)
    (<[length pre := v]> (<[(length pre + 3)%nat := one]> (pre ++ [a; b; c; d] ++ post))) 0
  = v.
Proof. induction pre as [ | p pre IH]; simpl; [reflexivity | exact IH]. Qed.

Lemma nth_after_insert_next (pre post : list Z) (a b c d v g one : Z) :
  nth (length pre)
    (<[(length pre + 1)%nat := g]>
       (<[length pre := v]> (<[(length pre + 3)%nat := one]> (pre ++ [a; b; c; d] ++ post)))) 0
  = v.
Proof. induction pre as [ | p pre IH]; simpl; [reflexivity | exact IH]. Qed.

(** The inner loop writes the next [n] pixels of the stream over the [4 n]
    floats of the scanline that follow the first [length pre]. *)
Lemma read_pixels_row (bw : bool) (n : nat) :
  forall (pre mid post : list Z) (s : PFM.QDataStream),
    length mid = (4 * n)%nat ->
    PFM.ds_status s = PFM.Ok ->
    (channels bw * n <= length (stream_floats s))%nat ->
    exists s',
      PFM.read_pixels n (length pre) bw (pre ++ mid ++ post) s
      = (Some (pre ++ pixels_of bw n (stream_floats s) ++ post), s')
      /\ PFM.ds_status s' = PFM.Ok
      /\ PFM.ds_byteOrder s' = PFM.ds_byteOrder s
      /\ stream_floats s' = drop (channels bw * n) (stream_floats s).
Proof.
  induction n as [ | n IH]; intros pre mid post s Hmid Hok Hdata.
  - destruct mid; [ | discriminate]. exists s. simpl.
    rewrite Nat.mul_0_r. simpl. auto.
  - destruct mid as [ | a [ | b [ | c [ | d mid]]]]; try (simpl in Hmid; lia).
    assert (Hmid' : length mid = (4 * n)%nat) by (simpl in Hmid; lia).
    simpl PFM.read_pixels.
    destruct bw; simpl channels in *.
    + destruct (stream_floats s) as [ | v F] eqn:HF; [simpl in Hdata; lia | ].
      destruct (read_float_next s v F HF) as (s1 & Hread & HF1 & Hst1 & Ho1).
      rewrite Hread.
      change (a :: b :: c :: d :: mid ++ post) with ([a; b; c; d] ++ (mid ++ post)).
      rewrite nth_after_insert, nth_after_insert_next.
      rewrite insert_pixel.
      rewrite Hst1, Hok. simpl negb. cbv iota.
      specialize (IH (pre ++ [v; v; v; PFM.float_one]) mid post s1 Hmid').
      rewrite length_app in IH. simpl length in IH.
      destruct IH as (s' & Hloop & Hst' & Ho' & HF').
      { congruence. }
      { rewrite HF1. simpl in Hdata. simpl. lia. }
      rewrite <- app_assoc in Hloop.
      exists s'. rewrite Hloop. rewrite HF1 in *.
      split.
      { simpl. rewrite <- app_assoc. reflexivity. }
      split; [exact Hst' | ]. split; [congruence | ].
      rewrite HF'. simpl. rewrite Nat.add_0_r. reflexivity.
    + destruct (stream_floats s) as [ | r [ | g [ | bl F]]] eqn:HF;
        try (simpl in Hdata; lia).
      destruct (read_float_next s r _ HF) as (s1 & Hread1 & HF1 & Hst1 & Ho1).
      destruct (read_float_next s1 g _ HF1) as (s2 & Hread2 & HF2 & Hst2 & Ho2).
      destruct (read_float_next s2 bl _ HF2) as (s3 & Hread3 & HF3 & Hst3 & Ho3).
      rewrite Hread1, Hread2, Hread3.
      change (a :: b :: c :: d :: mid ++ post) with ([a; b; c; d] ++ (mid ++ post)).
      rewrite insert_pixel.
      rewrite Hst3, Hst2, Hst1, Hok. simpl negb. cbv iota.
      specialize (IH (pre ++ [r; g; bl; PFM.float_one]) mid post s3 Hmid').
      rewrite length_app in IH. simpl length in IH.
      destruct IH as (s' & Hloop & Hst' & Ho' & HF').
      { congruence. }
      { rewrite HF3. simpl in Hdata. simpl. lia. }
      rewrite <- app_assoc in Hloop.
      exists s'. rewrite Hloop. rewrite HF3 in *.
      split.
      { simpl. rewrite <- app_assoc. reflexivity. }
      split; [exact Hst' | ]. split; [congruence | ].
      rewrite HF'.
      replace (3 * S n)%nat with (3 + 3 * n)%nat by lia. reflexivity.
Qed.

Lemma pixels_of_length (bw : bool) (n : nat) :
  forall F, (channels bw * n <= length F)%nat -> length (pixels_of bw n F) = (4 * n)%nat.
Proof.
  induction n as [ | n IH]; intros F HF; [reflexivity | ].
  destruct bw; simpl channels in *; simpl pixels_of.
  - destruct F as [ | v F]; [simpl in HF; lia | ].
    simpl. rewrite IH; [lia | simpl in *; lia].
  - destruct F as [ | r [ | g [ | b F]]]; try (simpl in HF; lia).
    simpl. rewrite IH; [lia | simpl in *; lia].
Qed.

Lemma read_rows_rows (hdr : PFM.PFMHeader) (h w : nat) (count : nat) :
  forall (y : nat) (lines : list (list Z)) (s : PFM.QDataStream),
    (y + count = h)%nat ->
    length lines = h ->
    Forall (fun l => length l = (4 * w)%nat) lines ->
    PFM.ds_status s = PFM.Ok ->
    (channels (PFM.isBlackAndWhite hdr) * w * count <= length (stream_floats s))%nat ->
    exists lines' s',
      PFM.read_rows count y h w hdr lines s = (Some lines', s')
      /\ length lines' = h
      /\ (forall y', (y <= y' < h)%nat ->
            lines' !! scanline_index hdr h y'
            = Some (pixels_of (PFM.isBlackAndWhite hdr) w
                      (drop (channels (PFM.isBlackAndWhite hdr) * w * (y' - y))
                            (stream_floats s))))
      /\ (forall y', (y' < y)%nat ->
            lines' !! scanline_index hdr h y' = lines !! scanline_index hdr h y').
Proof.
  set (bw := PFM.isBlackAndWhite hdr).
  induction count as [ | count IH]; intros y lines s Hy Hlen Hall Hok Hdata.
  - exists lines, s. simpl. split; [reflexivity | ]. split; [exact Hlen | ].
    split; [intros y' Hy'; lia | reflexivity].
  - simpl PFM.read_rows. fold bw.
    change (if PFM.isPhotoshop hdr then y else (h - y - 1)%nat)
      with (if PFM.isPhotoshop hdr then y else (h - y - 1)%nat).
    assert (Hidx : (if PFM.isPhotoshop hdr then y else (h - y - 1)%nat)
                   = scanline_index hdr h y).
    { unfold scanline_index. destruct (PFM.isPhotoshop hdr); lia. }
    rewrite Hidx.
    assert (Hin : (scanline_index hdr h y < length lines)%nat).
    { unfold scanline_index. destruct (PFM.isPhotoshop hdr); lia. }
    destruct (lookup_lt_is_Some_2 lines _ Hin) as [line0 Hline0].
    assert (Hline0_len : length line0 = (4 * w)%nat).
    { rewrite Forall_lookup in Hall. exact (Hall _ _ Hline0). }
    assert (Hnth : nth (scanline_index hdr h y) lines [] = line0).
    { apply nth_lookup_Some with (d := []) in Hline0. exact Hline0. }
    rewrite Hnth.
    destruct (read_pixels_row bw w [] line0 [] s Hline0_len Hok) as (s1 & Hrow & Hst1 & Ho1 & HF1).
    { nia. }
    simpl in Hrow. rewrite !app_nil_r in Hrow. rewrite Hrow.
    set (line' := pixels_of bw w (stream_floats s)) in *.
    assert (Hline'_len : length line' = (4 * w)%nat).
    { apply pixels_of_length. nia. }
    destruct (IH (S y) (<[scanline_index hdr h y := line']> lines) s1)
      as (lines' & s' & Hloop & Hlen' & Hnew & Hold).
    { lia. }
    { rewrite length_insert. exact Hlen. }
    { apply Forall_insert; assumption. }
    { exact Hst1. }
    { rewrite HF1, length_drop. nia. }
    exists lines', s'. split; [exact Hloop | ]. split; [exact Hlen' | ]. split.
    + intros y' Hy'. destruct (Nat.eq_dec y' y) as [-> | Hne].
      * rewrite Hold by lia. rewrite list_lookup_insert_eq by exact Hin.
        rewrite Nat.sub_diag, Nat.mul_0_r. reflexivity.
      * rewrite Hnew by lia. rewrite HF1, drop_drop.
        replace (channels bw * w + channels bw * w * (y' - S y))%nat
          with (channels bw * w * (y' - y))%nat; [reflexivity | ].
        replace (y' - y)%nat with (S (y' - S y)) by lia.
        rewrite Nat.mul_succ_r. lia.
    + intros y' Hy'. rewrite Hold by lia.
      apply list_lookup_insert_ne.
      unfold scanline_index. destruct (PFM.isPhotoshop hdr); lia.
Qed.

Lemma read_header_valid (hdr0 hdr : PFM.PFMHeader) (d data : QIODevice) :
  PFM.read_header hdr0 d = (true, hdr, data) -> PFM.isValid hdr = true.
Proof.
  unfold PFM.read_header, PFM.device_read.
  repeat match goal with
         | |- context [if ?b then _ else _] => destruct b
         | |- context [let (_, _) := ?x in _] => destruct x
         end;
    intros Heq; inversion Heq; subst; try discriminate; auto.
Qed.

(** C9. For every valid PFM input (a header that parses, an image that can
    be allocated, and a data stream that holds the floats of all rows), the
    reader returns an image in which row [y] of the data stream is
    scanline [h - 1 - y] for the GIMP variant of the header and scanline
    [y] for the Photoshop variant, for every [y] below the height [h]. *)
Theorem C9_row_order (hdr0 hdr : PFM.PFMHeader) (d data : QIODevice)
    (image : option PFM.FloatImage) :
  PFM.read_header hdr0 d = (true, hdr, data) ->
  PFM.imageAlloc_RGBX32FPx4 (PFM.width hdr) (PFM.height hdr) = true ->
  let h := Z.to_nat (PFM.height hdr) in
  let w := Z.to_nat (PFM.width hdr) in
  (channels (PFM.isBlackAndWhite hdr) * w * h
   <= length (floats_of (PFM.byteOrder hdr) data))%nat ->
  exists img d',
    PFM.read hdr0 d image = (true, Some img, hdr, d')
    /\ PFM.fi_width img = PFM.width hdr
    /\ PFM.fi_height img = PFM.height hdr
    /\ forall y, (y < h)%nat ->
         PFM.fi_lines img !! (if PFM.isPhotoshop hdr then y else (h - 1 - y)%nat)
         = Some (data_row hdr data y).
Proof.
  intros Hhdr Halloc h w Hdata.
  pose proof (read_header_valid _ _ _ _ Hhdr) as Hvalid.
  unfold PFM.read. rewrite Hhdr. simpl negb. cbv iota.
  unfold PFM.imageAlloc, PFM.format. rewrite Hvalid, Halloc. simpl.
  fold h. fold w. change (w + (w + (w + (w + 0))))%nat with (4 * w)%nat.
  destruct (read_rows_rows hdr h w h 0
              (replicate h (replicate (4 * w) PFM.uninitialised))
              {| PFM.ds_device := data; PFM.ds_status := PFM.Ok;
                 PFM.ds_byteOrder := PFM.byteOrder hdr |})
    as (lines' & s' & Hloop & Hlen' & Hnew & _).
  { lia. }
  { apply length_replicate. }
  { apply Forall_replicate. apply length_replicate. }
  { reflexivity. }
  { exact Hdata. }
  rewrite Hloop.
  eexists _, _. split; [reflexivity | ]. simpl.
  split; [reflexivity | ]. split; [reflexivity | ].
  intros y Hy. specialize (Hnew y). rewrite Nat.sub_0_r in Hnew.
  unfold scanline_index in Hnew. unfold data_row. fold w.
  apply Hnew. lia.
Qed.

End PFMRows.

(** ** What the PFM reader refuses *)

Section PFMFailures.
Context `{PFM.Qt}.

(** A float that is read leaves the status as it was and takes four bytes;
    one that is not there latches a status other than [Ok]. *)
Lemma read_float_cases (s : PFM.QDataStream) :
  (4 <= length (PFM.ds_device s)
   /\ length (PFM.ds_device (snd (PFM.read_float s))) + 4 = length (PFM.ds_device s)
   /\ PFM.ds_status (snd (PFM.read_float s)) = PFM.ds_status s)%nat
  \/ ((length (PFM.ds_device s) < 4)%nat
      /\ PFM.ds_device (snd (PFM.read_float s)) = []
      /\ PFM.ds_status (snd (PFM.read_float s)) <> PFM.Ok).
Proof.
  unfold PFM.read_float. destruct s as [dev st o]. simpl.
  destruct dev as [ | b0 [ | b1 [ | b2 [ | b3 rest]]]]; simpl;
    try (right; split; [lia | ]; split; [reflexivity | ];
         destruct st; simpl; discriminate).
  left. repeat split; lia.
Qed.

(** A scanline that comes back has taken the bytes of its pixels. *)
Lemma read_pixels_takes (bw : bool) (n : nat) :
  forall (x : nat) (line line' : list Z) (s s' : PFM.QDataStream),
    PFM.read_pixels n x bw line s = (Some line', s') ->
    (length (PFM.ds_device s') + 4 * channels bw * n = length (PFM.ds_device s))%nat
    /\ length line' = length line.
Proof.
  induction n as [ | n IH]; intros x line line' s s' Hrun.
  - simpl in Hrun. inversion Hrun; subst. split; [lia | reflexivity].
  - simpl in Hrun.
    destruct (PFM.read_float s) as [v s1] eqn:H1.
    pose proof (read_float_cases s) as C1. rewrite H1 in C1. simpl in C1.
    destruct bw.
    + destruct (PFM.ds_status s1 != PFM.Ok) eqn:Hst; [discriminate | ].
      apply negb_false_iff, bool_decide_eq_true in Hst.
      destruct C1 as [(Hlen & Htake & _) | (_ & _ & Hbad)]; [ | contradiction].
      apply IH in Hrun. destruct Hrun as [Hrest Hl].
      rewrite !length_insert in Hl. simpl channels in *. split; [lia | exact Hl].
    + destruct (PFM.read_float s1) as [v1 s2] eqn:H2.
      destruct (PFM.read_float s2) as [v2 s3] eqn:H3.
      pose proof (read_float_cases s1) as C2. rewrite H2 in C2. simpl in C2.
      pose proof (read_float_cases s2) as C3. rewrite H3 in C3. simpl in C3.
      destruct (PFM.ds_status s3 != PFM.Ok) eqn:Hst; [discriminate | ].
      apply negb_false_iff, bool_decide_eq_true in Hst.
      destruct C3 as [(Hlen3 & Htake3 & Hst3) | (_ & _ & Hbad)]; [ | contradiction].
      destruct C2 as [(Hlen2 & Htake2 & Hst2) | (_ & _ & Hbad)]; [ | congruence].
      destruct C1 as [(Hlen1 & Htake1 & Hst1) | (_ & _ & Hbad)]; [ | congruence].
      apply IH in Hrun. destruct Hrun as [Hrest Hl].
      rewrite !length_insert in Hl. simpl channels in *. split; [lia | exact Hl].
Qed.

Lemma read_rows_takes (hdr : PFM.PFMHeader) (h w : nat) (count : nat) :
  forall (y : nat) (lines lines' : list (list Z)) (s s' : PFM.QDataStream),
    PFM.read_rows count y h w hdr lines s = (Some lines', s') ->
    (length (PFM.ds_device s') + 4 * channels (PFM.isBlackAndWhite hdr) * w * count
     = length (PFM.ds_device s))%nat
    /\ length lines' = length lines.
Proof.
  induction count as [ | count IH]; intros y lines lines' s s' Hrun.
  - simpl in Hrun. inversion Hrun; subst. split; [lia | reflexivity].
  - simpl in Hrun.
    destruct (PFM.read_pixels w 0 (PFM.isBlackAndWhite hdr) _ s) as [[line | ] s1] eqn:Hrow;
      [ | discriminate].
    apply read_pixels_takes in Hrow. destruct Hrow as [Hrow _].
    apply IH in Hrun. destruct Hrun as [Hrest Hl].
    rewrite length_insert in Hl. split; [nia | exact Hl].
Qed.

Lemma read_pixels_length (bw : bool) (n x : nat) (line line' : list Z)
    (s s' : PFM.QDataStream) :
  PFM.read_pixels n x bw line s = (Some line', s') -> length line' = length line.
Proof. intros Hrun. exact (proj2 (read_pixels_takes bw n x line line' s s' Hrun)). Qed.

Lemma read_rows_widths (hdr : PFM.PFMHeader) (h w k : nat) (count : nat) :
  forall (y : nat) (lines lines' : list (list Z)) (s s' : PFM.QDataStream),
    PFM.read_rows count y h w hdr lines s = (Some lines', s') ->
    Forall (fun l => length l = k) lines ->
    Forall (fun l => length l = k) lines'.
Proof.
  induction count as [ | count IH]; intros y lines lines' s s' Hrun Hall.
  - simpl in Hrun. inversion Hrun; subst. exact Hall.
  - simpl in Hrun.
    set (index := if PFM.isPhotoshop hdr then y else (h - y - 1)%nat) in *.
    destruct (PFM.read_pixels w 0 (PFM.isBlackAndWhite hdr) (nth index lines []) s)
      as [[line | ] s1] eqn:Hrow; [ | discriminate].
    apply read_pixels_length in Hrow.
    apply IH in Hrun; [exact Hrun | ].
    destruct (decide (index < length lines)%nat) as [Hin | Hout].
    + apply Forall_insert; [exact Hall | ].
      rewrite Hrow.
      destruct (lookup_lt_is_Some_2 lines index Hin) as [l0 Hl0].
      rewrite (nth_lookup_Some _ _ _ _ Hl0).
      exact (Forall_lookup_1 _ _ _ _ Hall Hl0).
    + rewrite list_insert_ge by lia. exact Hall.
Qed.

(** The result of the header parser does not depend on the header it
    starts from. *)
Lemma read_header_ok_any (h1 h2 : PFM.PFMHeader) (d : QIODevice) :
  fst (fst (PFM.read_header h1 d)) = fst (fst (PFM.read_header h2 d)).
Proof.
  unfold PFM.read_header, PFM.device_read.
  cbv zeta.
  lazymatch goal with |- fst (fst (if ?b then _ else _)) = _ => destruct b end;
    [ | lazymatch goal with |- fst (fst (if ?b then _ else _)) = _ => destruct b end;
        [ | reflexivity]].
  all: destruct (PFM.readLine (drop 3 d) 128) as [wh d1];
    destruct (Z.of_nat (length (PFM.split wh)) =? 1);
    [destruct (PFM.readLine d1 128) as [line d2] | ]; cbv iota beta;
    repeat match goal with
           | |- context [if ?b then _ else _] => destruct b
           | |- context [let (_, _) := ?x in _] => destruct x
           end;
    reflexivity.
Qed.

End PFMFailures.

Section PFMOutcome.
Context `{PFM.Qt}.

(** X10. What PFMHandler::read hands out.  When it returns [false] the
    image behind the pointer is as before.  When it returns [true] the
    header has parsed with a width and a height above 0, the image has
    that width and height and the linear sRGB colour space, it has as many
    scanlines as its height, each of four floats a pixel, and the reader
    has taken the bytes of all pixels from the device and no more. *)
Theorem pfm_read_outcome (hdr0 : PFM.PFMHeader) (d : QIODevice)
    (image : option PFM.FloatImage) :
  exists ok image' hdr d',
    PFM.read hdr0 d image = (ok, image', hdr, d')
    /\ (ok = false -> image' = image)
    /\ (ok = true ->
        exists img data,
          image' = Some img
          /\ PFM.read_header hdr0 d = (true, hdr, data)
          /\ 0 < PFM.width hdr /\ 0 < PFM.height hdr
          /\ PFM.fi_width img = PFM.width hdr
          /\ PFM.fi_height img = PFM.height hdr
          /\ PFM.fi_colorSpace img = PFM.SRgbLinear
          /\ length (PFM.fi_lines img) = Z.to_nat (PFM.height hdr)
          /\ Forall (fun l => length l = (4 * Z.to_nat (PFM.width hdr))%nat) (PFM.fi_lines img)
          /\ (length d' + 4 * channels (PFM.isBlackAndWhite hdr)
                          * Z.to_nat (PFM.width hdr) * Z.to_nat (PFM.height hdr)
              = length data)%nat).
Proof.
  unfold PFM.read.
  destruct (PFM.read_header hdr0 d) as [[ok hdr] data] eqn:Hhdr.
  destruct ok; simpl negb; cbv iota;
    [ | eexists _, _, _, _; split; [reflexivity | ]; split; [reflexivity | discriminate]].
  pose proof (read_header_valid _ _ _ _ Hhdr) as Hvalid.
  unfold PFM.imageAlloc, PFM.format. rewrite Hvalid.
  rewrite bool_decide_eq_true_2 by reflexivity. simpl andb.
  destruct (PFM.imageAlloc_RGBX32FPx4 (PFM.width hdr) (PFM.height hdr));
    [ | eexists _, _, _, _; split; [reflexivity | ]; split; [reflexivity | discriminate]].
  simpl PFM.fi_height. simpl PFM.fi_width. simpl PFM.fi_lines.
  destruct (PFM.read_rows _ 0 _ _ hdr _ _) as [[lines | ] s'] eqn:Hrows;
    [ | eexists _, _, _, _; split; [reflexivity | ]; split; [reflexivity | discriminate]].
  eexists _, _, _, _. split; [reflexivity | ]. split; [discriminate | ].
  intros _. eexists _, _. split; [reflexivity | ]. split; [reflexivity | ].
  unfold PFM.isValid in Hvalid. apply andb_true_iff in Hvalid.
  destruct Hvalid as [Hw Hh]. rewrite Z.gtb_ltb in Hw, Hh. apply Z.ltb_lt in Hw, Hh.
  split; [exact Hw | ]. split; [exact Hh | ]. simpl.
  split; [reflexivity | ]. split; [reflexivity | ]. split; [reflexivity | ].
  pose proof (read_rows_takes _ _ _ _ _ _ _ _ _ Hrows) as [Htake Hlen].
  pose proof (read_rows_widths _ _ _ (4 * Z.to_nat (PFM.width hdr)) _ _ _ _ _ _ Hrows) as Hwid.
  rewrite length_replicate in Hlen. simpl in Htake.
  split; [exact Hlen | ].
  split; [apply Hwid; apply Forall_replicate; rewrite length_replicate; lia | ].
  exact Htake.
Qed.

(** X11. A file whose data stops before the last pixel is refused: when
    the device holds fewer bytes after the header than the rows take (four
    a float, one float a pixel for a gray image and three for a colour
    image), read returns [false] and the image behind the pointer is as
    before. *)
Theorem pfm_truncated_data_is_refused (hdr0 hdr : PFM.PFMHeader) (d data : QIODevice)
    (image : option PFM.FloatImage) :
  PFM.read_header hdr0 d = (true, hdr, data) ->
  (length data < 4 * channels (PFM.isBlackAndWhite hdr)
                 * Z.to_nat (PFM.width hdr) * Z.to_nat (PFM.height hdr))%nat ->
  exists d', PFM.read hdr0 d image = (false, image, hdr, d').
Proof.
  intros Hhdr Hshort.
  unfold PFM.read. rewrite Hhdr. simpl negb. cbv iota.
  unfold PFM.imageAlloc.
  destruct ((PFM.format hdr == Format_RGBX32FPx4)
            && PFM.imageAlloc_RGBX32FPx4 (PFM.width hdr) (PFM.height hdr));
    [ | eexists; reflexivity].
  simpl PFM.fi_height. simpl PFM.fi_width. simpl PFM.fi_lines.
  destruct (PFM.read_rows _ 0 _ _ hdr _ _) as [[lines | ] s'] eqn:Hrows;
    [ | eexists; reflexivity].
  pose proof (read_rows_takes _ _ _ _ _ _ _ _ _ Hrows) as [Htake _].
  simpl in Htake. lia.
Qed.

(** X12. The probe agrees with the reader.  canRead leaves the device as
    it is and returns what the header parser returns on that device,
    whatever header the parser starts from; when it returns [false], read
    returns [false] and keeps the image behind the pointer.  Without a
    device it returns [false]. *)
Theorem pfm_probe_agrees_with_read (d : QIODevice) :
  exists b, PFM.canRead (Some d) = (b, Some d)
    /\ (forall hdr0, fst (fst (PFM.read_header hdr0 d)) = b)
    /\ (b = false -> forall hdr0 image,
          exists hdr d', PFM.read hdr0 d image = (false, image, hdr, d'))
    /\ PFM.canRead None = (false, None).
Proof.
  exists (fst (fst (PFM.read_header PFM.PFMHeader_new d))).
  assert (Hany : forall hdr0, fst (fst (PFM.read_header hdr0 d))
                 = fst (fst (PFM.read_header PFM.PFMHeader_new d))).
  { intros hdr0. apply read_header_ok_any. }
  split.
  { unfold PFM.canRead, PFM.peek_header.
    destruct (PFM.read_header PFM.PFMHeader_new d) as [[ok hdr] data] eqn:Hhdr. simpl.
    destruct ok; simpl; [ | reflexivity].
    rewrite (read_header_valid _ _ _ _ Hhdr). reflexivity. }
  split; [exact Hany | ].
  split; [ | reflexivity].
  intros Hb hdr0 image. specialize (Hany hdr0). rewrite Hb in Hany.
  unfold PFM.read.
  destruct (PFM.read_header hdr0 d) as [[ok hdr] data]. simpl in Hany. subst ok.
  eexists _, _. reflexivity.
Qed.

End PFMOutcome.


(** * Concrete runs

    The theorems above at scripted inputs, and the inputs at which a claim
    of the specification does not hold as it is worded. *)

Lemma C1_witness :
  m_currentimage_index animation_3_back = m_previousimage_index animation_3_back
  /\ exists h',
       @read (Script.env animation_3) 10 None animation_3_back
       = Some ((true, m_current_image animation_3_back), h')
       /\ m_currentimage_index h' = 1
       /\ m_parseState h' = ParseJpegXLSuccess.
Proof.
  split; [vm_compute; reflexivity | ].
  destruct (@C1_read_returns_cached_image (Script.env animation_3) 10 animation_3_back None)
    as (_ & _ & _ & _ & _ & Hskip & _ & Hcursor).
  - left. vm_compute. reflexivity.
  - vm_compute. reflexivity.
  - assert (Hd : exists d, m_decoder animation_3_back = Some d)
      by (vm_compute; eexists; reflexivity).
    destruct Hd as [d Hd].
    assert (Hrun := Hskip d Hd ltac:(vm_compute; reflexivity) ltac:(vm_compute; reflexivity)).
    eexists. split; [exact Hrun | ].
    destruct (Hcursor _ _ Hrun) as (_ & _ & Htrue & _).
    destruct (Htrue eq_refl) as [Hnext Hstate].
    split; [rewrite Hnext; vm_compute; reflexivity | exact Hstate].
Defined.



Lemma C3_witness :
  exists d, m_framedelays animation_1_counted = [d]
    /\ @nextImageDelay (Script.env animation_1) 10 animation_1_counted
       = Some (0, animation_1_counted)
    /\ exists f, frame_delay (m_basicinfo animation_1_parsed) f = Some d.
Proof.
  destruct (@C3_single_delay_when_not_animated (Script.env animation_1) 10
              animation_1_parsed animation_1_counted)
    as (d & Hd & Hdelay & _ & Hframe).
  - apply (@counted_now (Script.env animation_1) 10 animation_1_parsed animation_1_counted).
    vm_compute. reflexivity.
  - vm_compute. reflexivity.
  - destruct Hframe as (d0 & d1 & d2 & fs & delays & _ & _ & _ & _ & _ & Hone);
      [vm_compute; reflexivity | ].
    destruct Hone as (f & _ & _ & Hf); [vm_compute; reflexivity | ].
    exists d. split; [exact Hd | ]. split; [exact Hdelay | ]. exists f. exact Hf.
Defined.

(** C3 as worded fails: a file marked as an animation with a single frame
    of 100 ms is downgraded to [have_animation = false], and the single
    entry of [m_framedelays] is 100. *)
Lemma C3_downgraded_animation_keeps_delay :
  exists r h, @read (Script.env animation_1) 10 None (Script.fresh animation_1) = Some (r, h)
    /\ fst r = true
    /\ m_parseState h = ParseJpegXLFinished
    /\ have_animation (m_basicinfo h) = false
    /\ m_framedelays h = [100].
Proof.
  eexists _, _. split; [vm_compute; reflexivity | ].
  repeat split; reflexivity.
Qed.

Lemma C4_witness :
  (exists h', @ensureParsed (Script.env too_wide) (Script.fresh too_wide) = Some (false, h')
     /\ m_parseState h' = ParseJpegXLError
     /\ allocations h' = 0%nat)
  /\ @write_output_info (Script.env many_pixels) (Some huge_image) (Script.fresh many_pixels)
     = Some (None, Script.fresh many_pixels).
Proof.
  split.
  - destruct (@C4_oversized_dimensions_rejected (Script.env too_wide) 10
                (Script.fresh too_wide) Script.codestream eq_refl eq_refl eq_refl)
      as [(b & h' & Hrun & Halloc & _ & Hbig & _) _].
    assert (Hd : exists d, m_decoder h' = Some d).
    { vm_compute in Hrun. injection Hrun as _ <-. eexists. reflexivity. }
    destruct Hd as [d Hd].
    destruct (Hbig d Hd) as (-> & Herr & _); [left; vm_compute; reflexivity | ].
    exists h'. split; [exact Hrun | ]. split; [exact Herr | exact Halloc].
  - destruct (@C4_oversized_dimensions_rejected (Script.env many_pixels) 10
                (Script.fresh many_pixels) Script.codestream eq_refl eq_refl eq_refl)
      as [_ Hwrite].
    apply Hwrite. vm_compute. reflexivity.
Defined.

(** C4 as worded fails: 32768 x 32768 pixels are more than the 2^28 pixel
    cap, yet ensureParsed succeeds and the read that follows allocates the
    output image. *)
Lemma C4_pixel_cap_not_checked_on_read :
  32768 * 32768 > @MAX_IMAGE_PIXELS
  /\ (exists h', @ensureParsed (Script.env many_pixels) (Script.fresh many_pixels)
                 = Some (true, h')
        /\ m_parseState h' = ParseJpegXLBasicInfoParsed
        /\ xsize (m_basicinfo h') = 32768 /\ ysize (m_basicinfo h') = 32768)
  /\ (exists r h, @read (Script.env many_pixels) 10 None (Script.fresh many_pixels)
                  = Some (r, h)
        /\ fst r = true /\ allocations h = 1%nat).
Proof.
  split; [vm_compute; reflexivity | ].
  split.
  - eexists. split; [vm_compute; reflexivity | ]. repeat split; reflexivity.
  - eexists _, _. split; [vm_compute; reflexivity | ]. split; reflexivity.
Qed.

Lemma C5_witness :
  (exists o h', @extractBox (Script.env big_box_scenario) empty_box 5000000
                  (big_box_handler 1) = Some (Some o, h')
     /\ out_size o = 4206384)
  /\ (exists h', @extractBox (Script.env big_box_scenario) empty_box 5000000
                   (big_box_handler 2) = Some (None, h')
        /\ m_parseState h' = ParseJpegXLError).
Proof.
  split.
  - destruct (@C5_box_extraction_bounds (Script.env big_box_scenario) (big_box_handler 1)
                (big_box_decoder 1) empty_box 5000000)
      as (r & h' & Hrun & _ & _ & Htrace);
      [reflexivity | reflexivity | intros d0; vm_compute; discriminate | ].
    destruct (Htrace (big_box_decoder 1) (big_box_decoder 0) 1%nat) as (_ & _ & Haccept);
      [reflexivity | vm_compute; discriminate | reflexivity | | ].
    + eapply grows_more; [reflexivity | reflexivity | reflexivity | apply grows_done].
    + destruct (Haccept (decoder_with [] []) (decoder_with [] []) 0) as [Hr _];
        [reflexivity | right; vm_compute; discriminate | reflexivity | ].
      rewrite Hr in Hrun. eexists _, h'. split; [exact Hrun | reflexivity].
  - destruct (@C5_box_extraction_bounds (Script.env big_box_scenario) (big_box_handler 2)
                (big_box_decoder 2) empty_box 5000000)
      as (r & h' & Hrun & Hshape & _ & Htrace);
      [reflexivity | reflexivity | intros d0; vm_compute; discriminate | ].
    destruct (Htrace (big_box_decoder 2) (big_box_decoder 1) 1%nat) as (Hreject & _);
      [reflexivity | vm_compute; discriminate | reflexivity | | ].
    + eapply grows_more; [reflexivity | reflexivity | reflexivity | apply grows_done].
    + assert (Hr : r = None).
      { apply (Hreject (big_box_decoder 0)); [reflexivity | vm_compute; reflexivity]. }
      subst r. exists h'. split; [exact Hrun | exact Hshape].
Defined.

(** C5 as worded fails: a box of 100 raw bytes whose payload takes 256
    further buffers of 16 KiB is extracted, 4194354 bytes long, which is
    more than 4 MiB. *)
Lemma C5_box_above_4MiB_accepted :
  exists o h', @extractBox (Script.env box_scenario) empty_box 1000 (box_handler 256)
               = Some (Some o, h')
    /\ out_size o = 4194354
    /\ out_size o > BOX_LIMIT
    /\ m_parseState h' <> ParseJpegXLError.
Proof.
  eexists _, _. split; [vm_compute; reflexivity | ].
  split; [reflexivity | ]. split; [vm_compute; reflexivity | discriminate].
Qed.

Lemma C6_witness :
  exists h' info h'',
    @setOption (Script.env still_image) ImageTransformation (VInt 6)
      (Script.fresh still_image) = Some (tt, h')
    /\ m_transformations h' = 6
    /\ @write_output_info (Script.env still_image) (Some small_image) h'
       = Some (Some info, h'')
    /\ orientation info = JXL_ORIENT_TRANSPOSE.
Proof.
  destruct (@C6_transformation_option (Script.env still_image) (VInt 6)
              (Script.fresh still_image) eq_refl)
    as (Hset & Hstored & _ & Hwrite & _).
  destruct (Hwrite small_image) as (info & h'' & Hw & Hcode & _).
  - repeat split; vm_compute; congruence.
  - split; [reflexivity | intros _; reflexivity].
  - eexists _, info, h''. split; [exact Hset | ].
    split; [apply Hstored; simpl; lia | ]. split; [exact Hw | exact Hcode].
Defined.

(** C6 as worded fails at 0: on a handler whose transformation is 3
    (rotation by 180 degrees), setting the option to 0 stores nothing. *)
Lemma C6_zero_is_not_stored :
  m_transformations rotated_180 = 3
  /\ exists h', @setOption (Script.env still_image) ImageTransformation (VInt 0) rotated_180
                = Some (tt, h')
       /\ m_transformations h' = 3.
Proof.
  split; [reflexivity | ]. eexists. split; [vm_compute; reflexivity | reflexivity].
Qed.

Lemma C8_witness :
  @canRead_device (Script.env still_image) (Some [255; 10; 0; 0; 0; 0; 0; 0])
  = (false, Some [255; 10; 0; 0; 0; 0; 0; 0]).
Proof.
  apply (@C8_probe_needs_12_bytes (Script.env still_image) [255; 10; 0; 0; 0; 0; 0; 0]).
  simpl. lia.
Defined.

Lemma C9_witness :
  exists img d',
    @PFM.read plain_qt PFM.PFMHeader_new (pfm_header_bytes ++ pfm_data_bytes) None
    = (true, Some img, pfm_parsed_header, d')
    /\ PFM.fi_lines img !! 1%nat = Some (data_row pfm_parsed_header pfm_data_bytes 0)
    /\ PFM.fi_lines img !! 0%nat = Some (data_row pfm_parsed_header pfm_data_bytes 1).
Proof.
  destruct (@C9_row_order plain_qt PFM.PFMHeader_new pfm_parsed_header
              (pfm_header_bytes ++ pfm_data_bytes) pfm_data_bytes None)
    as (img & d' & Hread & _ & _ & Hrows).
  - vm_compute. reflexivity.
  - reflexivity.
  - vm_compute. lia.
  - exists img, d'. split; [exact Hread | ].
    split; [apply (Hrows 0%nat) | apply (Hrows 1%nat)]; vm_compute; lia.
Defined.

Lemma C10_witness :
  @canRead (Script.env still_image) still_read = Some (false, still_read)
  /\ @jumpToNextImage (Script.env still_image) 10 still_read
     = Some (true, set_m_parseState ParseJpegXLSuccess still_read).
Proof.
  destruct (@C10_finished_cannot_read (Script.env still_image) 10 still_read)
    as (Hcan & _ & _ & Hsingle).
  - vm_compute. reflexivity.
  - split; [exact Hcan | ]. apply Hsingle. vm_compute. lia.
Defined.

Lemma empty_input_is_not_latched_witness :
  @read (Script.env still_image) 10 None empty_device
  = Some ((false, None), set_m_rawData [] empty_device).
Proof.
  destruct (@empty_input_is_not_latched (Script.env still_image) 10 empty_device)
    as (_ & _ & Hread & _); [reflexivity | reflexivity | reflexivity | ].
  apply Hread.
Defined.

Lemma foreign_signature_is_an_error_witness :
  m_parseState (after ensureParsed png_device) = ParseJpegXLError.
Proof.
  destruct (@foreign_signature_is_an_error (Script.env not_jxl) 10 png_device png_bytes)
    as (Hrun & _);
    [reflexivity | reflexivity | reflexivity | discriminate | discriminate | discriminate | ].
  unfold after. rewrite Hrun. reflexivity.
Defined.

Lemma error_state_is_absorbing_witness :
  @read (Script.env too_wide) 10 None too_wide_failed = Some ((false, None), too_wide_failed).
Proof.
  destruct (@error_state_is_absorbing (Script.env too_wide) 10 too_wide_failed)
    as (_ & _ & Hread & _); [reflexivity | ].
  apply Hread.
Defined.

Lemma failure_is_final_witness :
  no_input_or_error (after (read 10 None) (Script.fresh too_wide)).
Proof.
  destruct (@failure_is_final (Script.env too_wide) 10 (Script.fresh too_wide)
              (after (read 10 None) (Script.fresh too_wide)))
    as [Hleft _].
  - intros _. reflexivity.
  - left. exists None, (false, None). split; [vm_compute; reflexivity | reflexivity].
  - exact Hleft.
Defined.

Lemma parsed_image_is_within_limits_witness :
  xsize (m_basicinfo (after ensureParsed (Script.fresh still_image))) <= 262144.
Proof.
  destruct (@parsed_image_is_within_limits (Script.env still_image)
              (Script.fresh still_image) (after ensureParsed (Script.fresh still_image)))
    as (_ & _ & _ & _ & _ & _ & Hx & _);
    [reflexivity | reflexivity | vm_compute; reflexivity | ].
  exact Hx.
Defined.

Lemma loopCount_of_num_loops_witness :
  @loopCount (Script.env animation_3) (animation_3_played 0)
  = Some (-1, animation_3_played 0)
  /\ @loopCount (Script.env animation_3) (animation_3_played 5)
     = Some (4, animation_3_played 5)
  /\ @loopCount (Script.env animation_3) (animation_3_played 4294967295)
     = Some (-2, animation_3_played 4294967295).
Proof.
  split; [ | split].
  - destruct (@loopCount_of_num_loops (Script.env animation_3) (animation_3_played 0))
      as (v & Hrun & _ & _ & Hv); [left; reflexivity | vm_compute; split; congruence | ].
    destruct (Hv eq_refl) as (Hzero & _). rewrite Hrun, (Hzero eq_refl). reflexivity.
  - destruct (@loopCount_of_num_loops (Script.env animation_3) (animation_3_played 5))
      as (v & Hrun & _ & _ & Hv); [left; reflexivity | vm_compute; split; congruence | ].
    destruct (Hv eq_refl) as (_ & Hsome & _).
    rewrite Hrun, Hsome; [reflexivity | vm_compute; split; congruence].
  - destruct (@loopCount_of_num_loops (Script.env animation_3)
                (animation_3_played 4294967295))
      as (v & Hrun & _ & _ & Hv); [left; reflexivity | vm_compute; split; congruence | ].
    destruct (Hv eq_refl) as (_ & _ & Hmany).
    rewrite Hrun, Hmany; [reflexivity | vm_compute; reflexivity].
Defined.

Lemma jumpToImage_moves_cursor_witness :
  (exists h', @jumpToImage (Script.env animation_3) 10 2 animation_3_back = Some (true, h')
     /\ m_currentimage_index h' = 2)
  /\ @jumpToImage (Script.env animation_3) 10 3 animation_3_back
     = Some (false, animation_3_back).
Proof.
  assert (Hd : exists d, m_decoder animation_3_back = Some d)
    by (vm_compute; eexists; reflexivity).
  destruct Hd as [d Hd].
  destruct (@jumpToImage_moves_cursor (Script.env animation_3) 10 animation_3_back d 2)
    as (_ & Hin); [left; vm_compute; reflexivity | exact Hd | ].
  destruct (@jumpToImage_moves_cursor (Script.env animation_3) 10 animation_3_back d 3)
    as (Hout & _); [left; vm_compute; reflexivity | exact Hd | ].
  split.
  - destruct Hin as (_ & _ & Hfwd); [vm_compute; split; congruence | ].
    eexists. split; [apply Hfwd; vm_compute; reflexivity | reflexivity].
  - apply Hout. right. vm_compute. congruence.
Defined.

Lemma write_takes_images_within_limits_witness :
  (exists info h', @write_output_info (Script.env still_image) (Some small_image)
                     (Script.fresh still_image) = Some (Some info, h')
     /\ have_container info = true)
  /\ @write_output_info (Script.env still_image) (Some (Script.image_of 0 2 Format_RGB32))
       (Script.fresh still_image)
     = Some (None, Script.fresh still_image).
Proof.
  split.
  - destruct (@write_takes_images_within_limits (Script.env still_image) small_image
                (Script.fresh still_image))
      as (_ & _ & _ & Hok); [vm_compute; congruence | vm_compute; congruence | ].
    destruct Hok as (info & h' & Hrun & Hcontainer & _).
    + repeat split; try discriminate; vm_compute; congruence.
    + split; [reflexivity | intros _; reflexivity].
    + exists info, h'. split; [exact Hrun | exact Hcontainer].
  - destruct (@write_takes_images_within_limits (Script.env still_image)
                (Script.image_of 0 2 Format_RGB32) (Script.fresh still_image))
      as (_ & Hnot & _); [vm_compute; congruence | vm_compute; congruence | ].
    apply Hnot. intros (_ & Hw & _). vm_compute in Hw. destruct Hw as [Hw _].
    discriminate Hw.
Defined.

Lemma pfm_truncated_data_is_refused_witness :
  exists d', @PFM.read plain_qt PFM.PFMHeader_new pfm_short_file None
             = (false, None, pfm_parsed_header, d').
Proof.
  apply (@pfm_truncated_data_is_refused plain_qt PFM.PFMHeader_new pfm_parsed_header
           pfm_short_file (take 20 pfm_data_bytes) None).
  - vm_compute. reflexivity.
  - vm_compute. lia.
Defined.
